(** * Metabase ClickHouse client: fetch strategies and session handling

    A shallow embedding of [MetabaseClient] from
    [metabase_clickhouse_app.py]: the session calls ([authenticate],
    [logout]), the single-page executor ([execute_query]), the two paginated
    engines and the strategy selector ([execute_query_optimized]).

    The Metabase server is a function from requests to outcomes (a fixed
    snapshot: the answer to a request depends on the request only).  Methods
    are computations over the client object that return a value or raise,
    leave the client in a new state and emit the requests sent and the lines
    logged.  The thread pool of the parallel engine is a scheduler: every
    page task runs on a client of its own, and the scheduler fixes the order
    in which the futures are handed to the collecting loop. *)

From Stdlib Require Import ZArith String Ascii List Lia DecimalString DecimalZ DecimalPos.
From stdpp Require Import base list strings.

Local Open Scope string_scope.
Local Open Scope list_scope.
Local Open Scope Z_scope.

(** ** Python values *)

(** Exceptions the modelled code can meet.  [RequestException] stands for
    the whole [requests.exceptions.RequestException] family (connection
    errors, timeouts, [HTTPError] of [raise_for_status], and the JSON decode
    error of [response.json()]); [InvalidIndexError] is the one of
    [pandas.errors]; the others are the builtin ones. *)
Inductive Exn :=
  | RequestException
  | AttributeError
  | KeyError
  | IndexError
  | TypeError
  | ValueError
  | ZeroDivisionError
  | OverflowError
  | InvalidIndexError.

Definition is_request_exception (e : Exn) : bool :=
  match e with RequestException => true | _ => false end.

(** [x or d] on an optional integer: [None] and [0] are falsy. *)
Definition or_default (x : option Z) (d : Z) : Z :=
  match x with
  | Some v => if v =? 0 then d else v
  | None => d
  end.

(** Truth value of [self.session_token]: [None] and the empty string are
    falsy. *)
Definition token_truthy (t : option string) : bool :=
  match t with
  | Some s => negb (String.eqb s "")
  | None => false
  end.

(** Truth value of [self.database_id]: [None] and [0] are falsy. *)
Definition id_truthy (i : option Z) : bool :=
  match i with
  | Some v => negb (v =? 0)
  | None => false
  end.

(** [str(n)] for an integer. *)
Definition str (n : Z) : string := NilZero.string_of_int (Z.to_int n).

Definition newline : string := String (ascii_of_nat 10) EmptyString.

(** [s.rstrip(';')]: drop every trailing semicolon. *)
Fixpoint rstrip_semicolon (s : string) : string :=
  match s with
  | EmptyString => EmptyString
  | String a rest =>
      match rstrip_semicolon rest with
      | EmptyString => if Ascii.eqb a ";"%char then EmptyString else String a EmptyString
      | kept => String a kept
      end
  end.

(** ** Tables *)

Inductive Cell :=
  | CNull
  | CInt (n : Z)
  | CStr (s : string).

Record DataFrame := {
  df_columns : list string;
  df_rows : list (list Cell)
}.

(** [len(df)] *)
Definition len (df : DataFrame) : Z := Z.of_nat (length (df_rows df)).

(** [pd.DataFrame()] *)
Definition empty_frame : DataFrame := {| df_columns := []; df_rows := [] |}.

Definition pad_row (width : nat) (r : list Cell) : list Cell :=
  r ++ repeat CNull (width - length r).

Definition widest (rows : list (list Cell)) : nat :=
  fold_right (fun r w => Nat.max (length r) w) 0%nat rows.

(** [pd.DataFrame(rows, columns=columns)] for a list of row lists: no rows
    give an empty frame with the columns; otherwise short rows are padded
    to the widest one and the number of column names must match that
    width, else pandas raises [ValueError]. *)
Definition pd_DataFrame (rows : list (list Cell)) (columns : list string)
  : Exn + DataFrame :=
  match rows with
  | [] => inr {| df_columns := columns; df_rows := [] |}
  | _ =>
      if Nat.eqb (widest rows) (length columns)
      then inr {| df_columns := columns;
                  df_rows := map (pad_row (length columns)) rows |}
      else inl ValueError
  end.

Definition index_of (name : string) (columns : list string) : list nat :=
  map fst (filter (fun ic => String.eqb (snd ic) name)
                  (combine (seq 0 (length columns)) columns)).

(** The labels of [labels] that are not in [seen], each once, in the order
    in which they first appear. *)
Fixpoint first_seen (seen labels : list string) : list string :=
  match labels with
  | [] => []
  | x :: rest =>
      if bool_decide (x ∈ seen) then first_seen seen rest
      else x :: first_seen (x :: seen) rest
  end.

(** The cell of [row] under the column [name] of a frame with unique
    columns; a column the frame does not have gives a missing value. *)
Definition cell_at (columns : list string) (row : list Cell) (name : string) : Cell :=
  match index_of name columns with
  | j :: _ => nth j row CNull
  | [] => CNull
  end.

(** The rows of a frame re-indexed to the columns [union]. *)
Definition reindex (union : list string) (df : DataFrame) : list (list Cell) :=
  map (fun row => map (cell_at (df_columns df) row) union) (df_rows df).

Definition same_columns (first : DataFrame) (rest : list DataFrame) : bool :=
  forallb (fun df => bool_decide (df_columns df = df_columns first)) rest.

(** [pd.concat(frames, ignore_index=True)] on frames with rows, as pandas 2
    does it: an empty list raises [ValueError]; frames that all carry the
    same column index are stacked as they are; otherwise the result has
    the labels of all frames in order of first appearance, every frame is
    re-indexed to them by name, a column a frame lacks being filled with
    missing values, and a frame whose own labels are not unique cannot be
    re-indexed: [InvalidIndexError].  The change of a column's type that a
    missing value brings (integers become floats) is not visible in
    [Cell]. *)
Definition pd_concat (frames : list DataFrame) : Exn + DataFrame :=
  match frames with
  | [] => inl ValueError
  | first :: rest =>
      if same_columns first rest then
        inr {| df_columns := df_columns first;
               df_rows := concat (map df_rows frames) |}
      else if forallb (fun df => bool_decide (NoDup (df_columns df))) frames then
        let union := first_seen [] (concat (map df_columns frames)) in
        inr {| df_columns := union;
               df_rows := concat (map (reindex union) frames) |}
      else inl InvalidIndexError
  end.

(** ** Numbers as pandas and NumPy hold them

    [count_df.iloc[0]['total_rows']] is not a Python integer but the scalar
    of the type pandas 2 has inferred: [numpy.int64] for a column of
    integers that fit 64 bits, [numpy.uint64] when some are larger and
    none is negative, [numpy.float64] for integers mixed with nulls, and
    the Python object itself in a column of type [object] (text, nulls
    only, integers beyond 64 bits).  A row that is read across columns of
    different numeric types is converted to [numpy.float64].  Arithmetic
    follows NumPy 2: a Python integer operand takes the type of the NumPy
    scalar and must fit it ([OverflowError] otherwise), sums and
    differences wrap around, a quotient by zero is 0 with a warning. *)

Definition int64_min : Z := -9223372036854775808.
Definition int64_max : Z := 9223372036854775807.
Definition uint64_max : Z := 18446744073709551615.

Definition in_int64 (z : Z) : bool := (int64_min <=? z) && (z <=? int64_max).

Definition in_uint64 (z : Z) : bool := (0 <=? z) && (z <=? uint64_max).

Definition wrap_int64 (z : Z) : Z := (z - int64_min) mod (uint64_max + 1) + int64_min.

Definition wrap_uint64 (z : Z) : Z := z mod (uint64_max + 1).

Inductive Dtype := Int64 | UInt64 | Float64 | Object.

Definition is_object (d : Dtype) : bool :=
  match d with Object => true | _ => false end.

Definition same_dtype (a b : Dtype) : bool :=
  match a, b with
  | Int64, Int64 | UInt64, UInt64 | Float64, Float64 | Object, Object => true
  | _, _ => false
  end.

Definition is_int (c : Cell) : bool :=
  match c with CInt _ => true | _ => false end.

Definition is_text (c : Cell) : bool :=
  match c with CStr _ => true | _ => false end.

Definition int_within (range : Z -> bool) (c : Cell) : bool :=
  match c with CInt n => range n | _ => false end.

(** The type pandas infers for a column with these cells. *)
Definition dtype_of (cells : list Cell) : Dtype :=
  if forallb (int_within in_int64) cells then Int64
  else if forallb (int_within in_uint64) cells then UInt64
  else if forallb is_int cells then Object
  else if existsb is_text cells then Object
  else if existsb is_int cells then Float64
  else Object.

Definition column (j : nat) (rows : list (list Cell)) : list Cell :=
  map (fun row => nth j row CNull) rows.

Definition dtypes (df : DataFrame) : list Dtype :=
  map (fun j => dtype_of (column j (df_rows df))) (seq 0 (length (df_columns df))).

(** The type of a row read across the columns: theirs when they agree,
    [object] when one of them is, [float64] for different numeric types. *)
Definition row_dtype (ds : list Dtype) : Dtype :=
  match ds with
  | [] => Object
  | d :: rest =>
      if forallb (same_dtype d) rest then d
      else if existsb is_object ds then Object
      else Float64
  end.

(** A value read from a count answer.  [NpFloat None] is NaN; the float of
    an integer is written with that integer. *)
Inductive Count :=
  | NpInt (n : Z)
  | NpUInt (n : Z)
  | NpFloat (x : option Z)
  | PyInt (n : Z)
  | PyStr (s : string)
  | PyNone
  | PySeries.

Definition scalar (d : Dtype) (c : Cell) : Count :=
  match d, c with
  | Int64, CInt n => NpInt n
  | UInt64, CInt n => NpUInt n
  | Float64, CInt n => NpFloat (Some n)
  | Float64, _ => NpFloat None
  | _, CInt n => PyInt n
  | _, CStr s => PyStr s
  | _, CNull => PyNone
  end.

(** [count_df.iloc[0]['total_rows']]: [iloc[0]] raises [IndexError] on a
    frame without rows, the label lookup raises [KeyError] when the column
    is missing and yields a Series when it is there more than once. *)
Definition count_read (count_df : DataFrame) : Exn + Count :=
  match df_rows count_df with
  | [] => inl IndexError
  | row :: _ =>
      match index_of "total_rows" (df_columns count_df) with
      | [] => inl KeyError
      | [j] =>
          let d := match row_dtype (dtypes count_df) with
                   | Object => dtype_of (column j (df_rows count_df))
                   | shared => shared
                   end in
          inr (scalar d (nth j row CNull))
      | _ => inr PySeries
      end
  end.

(** The integer a number stands for, if it is one. *)
Definition whole (c : Count) : option Z :=
  match c with
  | NpInt n | NpUInt n | PyInt n => Some n
  | NpFloat x => x
  | _ => None
  end.

(** The integer a count answer holds: the value read by [count_read] when
    it is a number that stands for an integer, of whatever type.  The
    exceptions are those of the read; [TypeError] marks a value that is no
    integer. *)
Definition total_rows_of (count_df : DataFrame) : Exn + Z :=
  match count_read count_df with
  | inl e => inl e
  | inr total_rows =>
      match whole total_rows with
      | Some n => inr n
      | None => inl TypeError
      end
  end.

(** [total_pages]: a NumPy or Python integer, or a float. *)
Inductive PageCount :=
  | Pages (n : Z)
  | PagesInexact.

(** A Python integer that [float] can hold. *)
Definition fits_float (z : Z) : bool := Z.abs z <? 2 ^ 1024 - 2 ^ 970.

(** [(total_rows + page_size - 1) // page_size] *)
Definition page_count (total_rows : Count) (page_size : Z) : Exn + PageCount :=
  match total_rows with
  | NpInt t =>
      if in_int64 page_size then
        let s := wrap_int64 (wrap_int64 (t + page_size) - 1) in
        inr (Pages (if page_size =? 0 then 0 else wrap_int64 (s / page_size)))
      else inl OverflowError
  | NpUInt t =>
      if in_uint64 page_size then
        let s := wrap_uint64 (wrap_uint64 (t + page_size) - 1) in
        inr (Pages (if page_size =? 0 then 0 else s / page_size))
      else inl OverflowError
  | NpFloat _ =>
      if fits_float page_size then inr PagesInexact else inl OverflowError
  | PyInt t =>
      if page_size =? 0 then inl ZeroDivisionError
      else inr (Pages ((t + page_size - 1) / page_size))
  | PyStr _ | PyNone | PySeries => inl TypeError
  end.

(** [total_rows == 0] *)
Definition count_is_zero (total_rows : Count) : bool :=
  match whole total_rows with
  | Some n => n =? 0
  | None => false
  end.

(** ** Configuration and client object *)

Record MetabaseConfig := {
  url : string;
  username : string;
  password : string;
  database_name : string;
  config_database_id : option Z
}.

(** [session_header] is the entry ['X-Metabase-Session'] of
    [self.session.headers]: [None] when the key is absent, [Some v] when it
    is present with value [v] (which is Python's [None] when the login
    answer had no ['id']). *)
Record MetabaseClient := {
  config : MetabaseConfig;
  session_header : option (option string);
  session_token : option string;
  database_id : option Z
}.

(** [MetabaseClient(config)] *)
Definition new_client (cfg : MetabaseConfig) : MetabaseClient :=
  {| config := cfg;
     session_header := None;
     session_token := None;
     database_id := config_database_id cfg |}.

(** ** HTTP exchange *)

Inductive Method := GET | POST | DELETE.

Inductive Body :=
  | NoBody
  | AuthBody (user pass : string)
  | QueryBody (query : string) (database : option Z)
              (max_results max_results_bare_rows : Z).

Record Request := {
  r_method : Method;
  r_url : string;
  r_session : option (option string);
  r_body : Body;
  r_timeout : option Z
}.

Record DbEntry := {
  db_name : option string;
  db_id : option Z
}.

(** The ['data'] object of a query answer; a key that is missing has the
    default the client reads it with ([[]], [[]], [False]).  A column
    without a ['name'] is [None]. *)
Record QueryData := {
  q_rows : list (list Cell);
  q_cols : list (option string);
  q_results_truncated : bool
}.

(** The ['data'] entry of an answer: absent (or an empty object, which the
    client cannot tell apart), a list of databases, a non-empty object of
    query results, or a value that is neither a container nor text: null,
    a number or a boolean.  Text and lists of other things than objects
    are left out; the client fails on them with [AttributeError] as it
    does on the container of the wrong kind. *)
Inductive DataField :=
  | NoData
  | Databases (dbs : list DbEntry)
  | Results (d : QueryData)
  | Scalar.

(** A JSON object as the client reads it: the keys ['id'], ['status'],
    ['error'] and ['data']. *)
Record JObject := {
  j_id : option string;
  j_status : option string;
  j_error : option string;
  j_data : DataField
}.

Inductive Payload :=
  | NotJson
  | JsonOther
  | JsonObject (o : JObject).

Inductive HttpOutcome :=
  | ConnectionFailed
  | Responded (status_code : Z) (payload : Payload).

Definition Server := Request -> HttpOutcome.

(** ** Log lines and events *)

Inductive Level := INFO | WARNING | ERROR.

Inductive Message :=
  | AuthenticatedOk
  | AuthenticationFailed (e : Exn)
  | FoundDatabaseId (id : option Z)
  | DatabaseNotFound (name : string)
  | FailedToGetDatabaseId (e : Exn)
  | NotAuthenticated
  | QueryFailedWithStatus (status : option string)
  | ErrorDetails (text : string)
  | ResultsMayBeTruncated
  | QueryExecuted (nrows : Z) (ncols : nat)
  | ResultsWereTruncated
  | QueryExecutionFailed (e : Exn)
  | UnexpectedError (e : Exn)
  | PaginationStart
  | PageFetched (number : nat) (nrows : Z)
  | NoDataRetrieved
  | PaginationComplete (nrows : Z)
  | ParallelStart (max_workers : Z)
  | FailedToGetTotalRowCount
  | TotalsComputed (total_rows total_pages page_size : Z)
  | TotalsInexact (total_rows : option Z) (page_size : Z)
  | ErrorFetchingPage (page_num : nat) (e : Exn)
  | ParallelPageFetched (page_no : nat) (total_pages : Z) (nrows : Z)
  | ParallelPageFailed (page_no : nat)
  | NoDataFromAnyPage
  | ParallelComplete (nrows : Z) (successful_pages : nat) (total_pages : Z)
  | CouldNotEstimate
  | EstimatedRows (total_rows : Z)
  | EstimatedNaN
  | AutoSelected (mode : string)
  | LoggedOut
  | LogoutWarning (e : Exn).

(** What a call leaves behind: requests sent, lines logged, page tasks
    handed to the pool, and the events of a pool worker, tagged with the
    page it works on. *)
Inductive Event :=
  | Sent (r : Request)
  | Logged (l : Level) (m : Message)
  | Submitted (page_num : nat)
  | InWorker (page_num : nat) (e : Event).

(** ** Computations on a client *)

Inductive Res (A : Type) :=
  | Ok (a : A)
  | Raise (e : Exn)
  | OutOfFuel.
Arguments Ok {A} a.
Arguments Raise {A} e.
Arguments OutOfFuel {A}.

Definition Run (A : Type) : Type := Res A * MetabaseClient * list Event.

Definition M (A : Type) : Type := MetabaseClient -> Run A.

Definition value {A} (r : Run A) : Res A := fst (fst r).
Definition client_after {A} (r : Run A) : MetabaseClient := snd (fst r).
Definition events {A} (r : Run A) : list Event := snd r.

(** [after evs r]: the run [r] preceded by the events [evs]. *)
Definition after {A} (evs : list Event) (r : Run A) : Run A :=
  (value r, client_after r, evs ++ events r).

Definition ret {A} (a : A) : M A := fun self => (Ok a, self, []).

Definition raise {A} (e : Exn) : M A := fun self => (Raise e, self, []).

Definition out_of_fuel {A} : M A := fun self => (OutOfFuel, self, []).

Definition bind {A B} (m : M A) (f : A -> M B) : M B :=
  fun self =>
    match m self with
    | (Ok a, self', evs) => after evs (f a self')
    | (Raise e, self', evs) => (Raise e, self', evs)
    | (OutOfFuel, self', evs) => (OutOfFuel, self', evs)
    end.

Notation "'let*' x ':=' m 'in' k" := (bind m (fun x => k))
  (at level 10, x name, m at level 100, k at level 200).

(** [try: body except <kinds>: handler]; state changes and events of the
    body stay when the exception is caught. *)
Definition try_except {A} (body : M A) (caught : Exn -> bool)
    (handler : Exn -> M A) : M A :=
  fun self =>
    match body self with
    | (Raise e, self', evs) =>
        if caught e then after evs (handler e self') else (Raise e, self', evs)
    | r => r
    end.

(** [try: body finally: cleanup] *)
Definition try_finally {A} (body : M A) (cleanup : M unit) : M A :=
  fun self =>
    match body self with
    | (r, self', evs) =>
        match cleanup self' with
        | (Ok _, self'', evs') => (r, self'', evs ++ evs')
        | (Raise e, self'', evs') => (Raise e, self'', evs ++ evs')
        | (OutOfFuel, self'', evs') => (OutOfFuel, self'', evs ++ evs')
        end
    end.

Definition lift {A} (r : Exn + A) : M A :=
  match r with
  | inl e => raise e
  | inr a => ret a
  end.

Definition get_self : M MetabaseClient := fun self => (Ok self, self, []).

Definition log (l : Level) (m : Message) : M unit :=
  fun self => (Ok tt, self, [Logged l m]).

Definition with_session_token (self : MetabaseClient) (t : option string)
  : MetabaseClient :=
  {| config := config self;
     session_header := session_header self;
     session_token := t;
     database_id := database_id self |}.

Definition with_session_header (self : MetabaseClient) (h : option (option string))
  : MetabaseClient :=
  {| config := config self;
     session_header := h;
     session_token := session_token self;
     database_id := database_id self |}.

Definition with_database_id (self : MetabaseClient) (i : option Z)
  : MetabaseClient :=
  {| config := config self;
     session_header := session_header self;
     session_token := session_token self;
     database_id := i |}.

Definition set_session_token (t : option string) : M unit :=
  fun self => (Ok tt, with_session_token self t, []).

Definition set_session_header (h : option (option string)) : M unit :=
  fun self => (Ok tt, with_session_header self h, []).

Definition set_database_id (i : option Z) : M unit :=
  fun self => (Ok tt, with_database_id self i, []).

(** [self.session.<method>(f"{self.config.url}<path>", json=body,
    timeout=timeout)]: the request carries the session header of the
    client; a transport failure raises. *)
Definition send (srv : Server) (m : Method) (path : string) (body : Body)
    (timeout : option Z) : M (Z * Payload) :=
  fun self =>
    let r := {| r_method := m;
                r_url := (url (config self) ++ path)%string;
                r_session := session_header self;
                r_body := body;
                r_timeout := timeout |} in
    match srv r with
    | ConnectionFailed => (Raise RequestException, self, [Sent r])
    | Responded code payload => (Ok (code, payload), self, [Sent r])
    end.

(** [response.raise_for_status()]: 4xx and 5xx raise [HTTPError]. *)
Definition http_error (status_code : Z) : bool :=
  (400 <=? status_code) && (status_code <? 600).

Definition raise_for_status (response : Z * Payload) : M unit :=
  if http_error (fst response) then raise RequestException else ret tt.

(** [response.json()] *)
Definition json (response : Z * Payload) : M Payload :=
  match snd response with
  | NotJson => raise RequestException
  | p => ret p
  end.

(** The receiver of a [.get(...)]: anything but an object has no [get]. *)
Definition as_object (p : Payload) : M JObject :=
  match p with
  | JsonObject o => ret o
  | _ => raise AttributeError
  end.

(** ** Session calls *)

(** [MetabaseClient.authenticate] *)
Definition authenticate (srv : Server) : M bool :=
  try_except
    (let* self := get_self in
     let auth_data := AuthBody (username (config self)) (password (config self)) in
     let* response := send srv POST "/api/session" auth_data None in
     let* _ := raise_for_status response in
     let* auth_result := json response in
     let* obj := as_object auth_result in
     let* _ := set_session_token (j_id obj) in
     let* _ := set_session_header (Some (j_id obj)) in
     let* _ := log INFO AuthenticatedOk in
     ret true)
    is_request_exception
    (fun e =>
       let* _ := log ERROR (AuthenticationFailed e) in
       ret false).

(** [MetabaseClient.logout] *)
Definition logout (srv : Server) : M unit :=
  let* self := get_self in
  if token_truthy (session_token self) then
    try_finally
      (try_except
         (let* _ := send srv DELETE "/api/session" NoBody None in
          log INFO LoggedOut)
         (fun _ => true)
         (fun e => log WARNING (LogoutWarning e)))
      (let* _ := set_session_token None in
       set_session_header None)
  else ret tt.

(** ** Database lookup *)

Definition name_is (db : DbEntry) (name : string) : bool :=
  match db_name db with
  | Some n => String.eqb n name
  | None => false
  end.

(** The [for db in databases] loop of [get_database_id]. *)
Fixpoint find_database (name : string) (databases : list DbEntry) : M (option Z) :=
  match databases with
  | [] =>
      let* _ := log ERROR (DatabaseNotFound name) in
      ret None
  | db :: rest =>
      if name_is db name then
        let* _ := set_database_id (db_id db) in
        let* _ := log INFO (FoundDatabaseId (db_id db)) in
        ret (db_id db)
      else find_database name rest
  end.

(** [response.json().get('data', [])] iterated as a list of databases.  A
    non-empty object under ['data'] iterates over its keys, which are
    strings and have no [get]; null, a number or a boolean cannot be
    iterated over at all. *)
Definition databases_of (obj : JObject) : M (list DbEntry) :=
  match j_data obj with
  | NoData => ret []
  | Databases dbs => ret dbs
  | Results _ => raise AttributeError
  | Scalar => raise TypeError
  end.

(** [MetabaseClient.get_database_id] *)
Definition get_database_id (srv : Server) : M (option Z) :=
  let* self := get_self in
  if id_truthy (database_id self) then ret (database_id self)
  else
    try_except
      (let* response := send srv GET "/api/database" NoBody None in
       let* _ := raise_for_status response in
       let* body := json response in
       let* obj := as_object body in
       let* databases := databases_of obj in
       find_database (database_name (config self)) databases)
      is_request_exception
      (fun e =>
         let* _ := log ERROR (FailedToGetDatabaseId e) in
         ret None).

(** ** Single-page executor *)

(** [result.get('data', {})] read with [data.get(...)]: a list has no
    [get], nor has null, a number or a boolean. *)
Definition query_data_of (obj : JObject) : M QueryData :=
  match j_data obj with
  | NoData => ret {| q_rows := []; q_cols := []; q_results_truncated := false |}
  | Results d => ret d
  | Databases _ | Scalar => raise AttributeError
  end.

(** [[col['name'] for col in data.get('cols', [])]] *)
Fixpoint column_names (cols : list (option string)) : M (list string) :=
  match cols with
  | [] => ret []
  | None :: _ => raise KeyError
  | Some n :: rest =>
      let* names := column_names rest in
      ret (n :: names)
  end.

(** The [try] block of [execute_query] with its two [except] clauses. *)
Definition submit_query (srv : Server) (sql_query : string) (timeout : Z)
    (max_results : option Z) : M (option DataFrame) :=
  try_except
    (let* self := get_self in
     let limit := or_default max_results 100000 in
     let query_payload := QueryBody sql_query (database_id self) limit limit in
     let* response := send srv POST "/api/dataset" query_payload (Some timeout) in
     let* _ := raise_for_status response in
     let* result := json response in
     let* obj := as_object result in
     if negb (bool_decide (j_status obj = Some "completed")) then
       let* _ := log ERROR (QueryFailedWithStatus (j_status obj)) in
       let* _ := (match j_error obj with
                  | Some text => log ERROR (ErrorDetails text)
                  | None => ret tt
                  end) in
       ret None
     else
       let* data := query_data_of obj in
       let rows := q_rows data in
       let* columns := column_names (q_cols data) in
       let is_truncated := q_results_truncated data in
       let* _ := (if is_truncated then log WARNING ResultsMayBeTruncated
                  else ret tt) in
       let* df := lift (pd_DataFrame rows columns) in
       let* _ := log INFO (QueryExecuted (len df) (length (df_columns df))) in
       let* _ := (if is_truncated then log WARNING ResultsWereTruncated
                  else ret tt) in
       ret (Some df))
    (fun _ => true)
    (fun e =>
       if is_request_exception e then
         let* _ := log ERROR (QueryExecutionFailed e) in
         ret None
       else
         let* _ := log ERROR (UnexpectedError e) in
         ret None).

(** [if not self.database_id: self.database_id = self.get_database_id()],
    returning whether [self.database_id] is truthy afterwards. *)
Definition ensure_database_id (srv : Server) : M bool :=
  let* self := get_self in
  if negb (id_truthy (database_id self)) then
    let* id := get_database_id srv in
    let* _ := set_database_id id in
    ret (id_truthy id)
  else ret true.

(** [MetabaseClient.execute_query] *)
Definition execute_query (srv : Server) (sql_query : string) (timeout : Z)
    (max_results : option Z) : M (option DataFrame) :=
  let* self := get_self in
  if negb (token_truthy (session_token self)) then
    let* _ := log ERROR NotAuthenticated in
    ret None
  else
    let* resolved := ensure_database_id srv in
    if negb resolved then ret None
    else submit_query srv sql_query timeout max_results.

(** ** Query texts *)

(** [f"{sql_query.rstrip(';')} LIMIT {page_size} OFFSET {offset}"] *)
Definition paginated_query (sql_query : string) (page_size offset : Z) : string :=
  (rstrip_semicolon sql_query ++ " LIMIT " ++ str page_size
     ++ " OFFSET " ++ str offset)%string.

(** The triple-quoted count query; [indent] is the indentation the literal
    has at its place in the source (eight blanks in the parallel engine,
    twelve in the selector). *)
Definition count_query (indent : string) (sql_query : string) : string :=
  (newline ++ indent ++ "SELECT COUNT(*) as total_rows"
     ++ newline ++ indent ++ "FROM (" ++ rstrip_semicolon sql_query ++ ") as subquery"
     ++ newline ++ indent)%string.

Definition indent8 : string := "        ".
Definition indent12 : string := "            ".

(** ** Sequential pagination *)

(** The [while True] loop of [execute_query_with_pagination]; [fuel] bounds
    the number of pages requested. *)
Fixpoint pagination_loop (fuel : nat) (srv : Server) (sql_query : string)
    (page_size : Z) (all_dataframes : list DataFrame) (offset : Z)
  : M (list DataFrame) :=
  match fuel with
  | O => out_of_fuel
  | S fuel' =>
      let query := paginated_query sql_query page_size offset in
      let* df := execute_query srv query 300 (Some page_size) in
      match df with
      | None => ret all_dataframes
      | Some page =>
          if len page =? 0 then ret all_dataframes
          else
            let all_dataframes := all_dataframes ++ [page] in
            let* _ := log INFO (PageFetched (length all_dataframes) (len page)) in
            if len page <? page_size then ret all_dataframes
            else pagination_loop fuel' srv sql_query page_size all_dataframes
                   (offset + page_size)
      end
  end.

(** [MetabaseClient.execute_query_with_pagination] *)
Definition execute_query_with_pagination (fuel : nat) (srv : Server)
    (sql_query : string) (page_size : Z) : M (option DataFrame) :=
  let* _ := log INFO PaginationStart in
  let* all_dataframes := pagination_loop fuel srv sql_query page_size [] 0 in
  match all_dataframes with
  | [] =>
      let* _ := log ERROR NoDataRetrieved in
      ret None
  | _ =>
      let* final_df := lift (pd_concat all_dataframes) in
      let* _ := log INFO (PaginationComplete (len final_df)) in
      ret (Some final_df)
  end.

(** ** Parallel pagination *)

(** The body of the nested [fetch_page], run on its dedicated client. *)
Definition fetch_page_on_thread_client (srv : Server) (sql_query : string)
    (page_size : Z) (page_num : nat) : M (option DataFrame * nat) :=
  try_except
    (let* authenticated := authenticate srv in
     if negb authenticated then ret (None, page_num)
     else
       let offset := Z.of_nat page_num * page_size in
       let query := paginated_query sql_query page_size offset in
       let* df := execute_query srv query 300 (Some page_size) in
       let* _ := logout srv in
       match df with
       | Some page =>
           if 0 <? len page then ret (Some page, page_num)
           else ret (None, page_num)
       | None => ret (None, page_num)
       end)
    (fun _ => true)
    (fun e =>
       let* _ := log ERROR (ErrorFetchingPage page_num e) in
       ret (None, page_num)).

(** [fetch_page(page_num)]: the run of the task on
    [thread_client = MetabaseClient(self.config)]; its client component is
    the state the thread client is left in. *)
Definition fetch_page (srv : Server) (self : MetabaseClient) (sql_query : string)
    (page_size : Z) (page_num : nat) : Run (option DataFrame * nat) :=
  fetch_page_on_thread_client srv sql_query page_size page_num
    (new_client (config self)).

(** A pool schedule: for [n] submitted tasks, the order in which their
    futures complete, as indices into the submission order. *)
Definition Scheduler := nat -> list nat.

Definition fair (as_completed : Scheduler) : Prop :=
  forall n, Permutation (as_completed n) (seq 0 n).

Definition emit (evs : list Event) : M unit := fun self => (Ok tt, self, evs).

(** [ThreadPoolExecutor(max_workers=...)] refuses a pool without workers. *)
Definition thread_pool (max_workers : Z) : M unit :=
  if max_workers <=? 0 then raise ValueError else ret tt.

(** [all_dataframes[page_num] = df] *)
Definition store (all_dataframes : list (option DataFrame)) (page_num : nat)
    (df : DataFrame) : M (list (option DataFrame)) :=
  if (page_num <? length all_dataframes)%nat
  then ret (<[page_num := Some df]> all_dataframes)
  else raise IndexError.

(** The [for future in as_completed(...)] loop; a future is the run of its
    task, whose events are recorded under the page the task was given. *)
Fixpoint collect (total_pages : Z)
    (completed : list (nat * Run (option DataFrame * nat)))
    (all_dataframes : list (option DataFrame)) (successful_pages : nat)
  : M (list (option DataFrame) * nat) :=
  match completed with
  | [] => ret (all_dataframes, successful_pages)
  | (task, future) :: rest =>
      let* _ := emit (map (InWorker task) (events future)) in
      match value future with
      | Ok (Some df, page_num) =>
          let* all_dataframes := store all_dataframes page_num df in
          let* _ := log INFO (ParallelPageFetched (page_num + 1) total_pages (len df)) in
          collect total_pages rest all_dataframes (S successful_pages)
      | Ok (None, page_num) =>
          let* _ := log WARNING (ParallelPageFailed (page_num + 1)) in
          collect total_pages rest all_dataframes successful_pages
      | Raise e => raise e
      | OutOfFuel => out_of_fuel
      end
  end.

(** [[df for df in all_dataframes if df is not None]] *)
Definition valid_frames (all_dataframes : list (option DataFrame)) : list DataFrame :=
  omap id all_dataframes.

(** The second half of [execute_query_with_parallel_pagination], from the
    slot array to the final concatenation: the page tasks are submitted in
    page order, their futures are collected in the order the scheduler
    completes them, and the filled slots are concatenated.  A negative
    [total_pages] gives no slot and no task, as [[None] * total_pages] and
    [range(total_pages)] do; the memory the slot array takes is not
    modelled. *)
Definition fetch_all_pages (srv : Server) (as_completed : Scheduler)
    (sql_query : string) (page_size : Z) (max_workers : Z) (total_pages : Z)
  : M (option DataFrame) :=
  let* self := get_self in
  let page_nums := seq 0 (Z.to_nat total_pages) in
  let all_dataframes := replicate (Z.to_nat total_pages) (@None DataFrame) in
  let* _ := thread_pool max_workers in
  let future_to_page :=
    map (fun page_num => (page_num, fetch_page srv self sql_query page_size page_num))
        page_nums in
  let* _ := emit (map Submitted page_nums) in
  let completed :=
    omap (fun i => future_to_page !! i) (as_completed (length future_to_page)) in
  let* collected := collect total_pages completed all_dataframes 0 in
  let valid_dataframes := valid_frames (fst collected) in
  match valid_dataframes with
  | [] =>
      let* _ := log ERROR NoDataFromAnyPage in
      ret None
  | _ =>
      let* final_df := lift (pd_concat valid_dataframes) in
      let* _ := log INFO (ParallelComplete (len final_df) (snd collected) total_pages) in
      ret (Some final_df)
  end.

(** The line logged with the totals.  The formats of the line accept
    every number; of a float count only the count itself is recorded. *)
Definition totals_line (total_rows : Count) (total_pages : PageCount)
    (page_size : Z) : Message :=
  match total_rows, total_pages with
  | NpFloat x, _ => TotalsInexact x page_size
  | _, Pages n =>
      match whole total_rows with
      | Some t => TotalsComputed t n page_size
      | None => TotalsInexact None page_size
      end
  | _, PagesInexact => TotalsInexact (whole total_rows) page_size
  end.

(** [MetabaseClient.execute_query_with_parallel_pagination].  The sum and
    the quotient of the page count are those of the type of [total_rows];
    a value that is no number fails in the sum ([TypeError]), a Series at
    the latest in the format of the log line ([TypeError] as well); a
    float page count cannot size the slot array ([TypeError]). *)
Definition execute_query_with_parallel_pagination (srv : Server)
    (as_completed : Scheduler) (sql_query : string) (page_size : Z)
    (max_workers : Z) : M (option DataFrame) :=
  let* _ := log INFO (ParallelStart max_workers) in
  let* count_df := execute_query srv (count_query indent8 sql_query) 300 (Some 1) in
  match count_df with
  | None =>
      let* _ := log ERROR FailedToGetTotalRowCount in
      ret None
  | Some count_df =>
      let* total_rows := lift (count_read count_df) in
      let* total_pages := lift (page_count total_rows page_size) in
      let* _ := log INFO (totals_line total_rows total_pages page_size) in
      if count_is_zero total_rows then ret (Some empty_frame)
      else
        match total_pages with
        | Pages n =>
            fetch_all_pages srv as_completed sql_query page_size max_workers n
        | PagesInexact => raise TypeError
        end
  end.

(** What the task of page [page_num] hands back: its frame, or [None]. *)
Definition page_outcome (srv : Server) (self : MetabaseClient) (sql_query : string)
    (page_size : Z) (page_num : nat) : option DataFrame :=
  match value (fetch_page srv self sql_query page_size page_num) with
  | Ok (df, _) => df
  | _ => None
  end.

(** The page numbers handed to the pool, in submission order. *)
Definition submitted (evs : list Event) : list nat :=
  omap (fun e => match e with Submitted k => Some k | _ => None end) evs.

(** ** Strategy selector *)

(** The threshold chain of the ["auto"] mode. *)
Definition auto_mode (total_rows : Z) : string :=
  if total_rows <=? 50000 then "single"
  else if total_rows <=? 500000 then "pagination"
  else "parallel".

(** [f"Estimated rows: {total_rows:,}"]: the format [,] accepts every
    number, raises [ValueError] for text and [TypeError] for [None] and
    for a Series. *)
Definition estimate_line (total_rows : Count) : Exn + Message :=
  match total_rows with
  | PyStr _ => inl ValueError
  | PyNone | PySeries => inl TypeError
  | NpFloat None => inr EstimatedNaN
  | _ =>
      match whole total_rows with
      | Some n => inr (EstimatedRows n)
      | None => inr EstimatedNaN
      end
  end.

(** The threshold chain on the number read; every comparison with NaN is
    false. *)
Definition mode_for (total_rows : Count) : string :=
  match whole total_rows with
  | Some n => auto_mode n
  | None => "parallel"
  end.

(** [MetabaseClient.execute_query_optimized] *)
Definition execute_query_optimized (fuel : nat) (srv : Server)
    (as_completed : Scheduler) (sql_query : string) (optimization_mode : string)
  : M (option DataFrame) :=
  let* optimization_mode :=
    (if String.eqb optimization_mode "auto" then
       let* count_df := execute_query srv (count_query indent12 sql_query) 300 (Some 1) in
       match count_df with
       | None =>
           let* _ := log WARNING CouldNotEstimate in
           ret "parallel"
       | Some count_df =>
           let* total_rows := lift (count_read count_df) in
           let* line := lift (estimate_line total_rows) in
           let* _ := log INFO line in
           let optimization_mode := mode_for total_rows in
           let* _ := log INFO (AutoSelected optimization_mode) in
           ret optimization_mode
       end
     else ret optimization_mode) in
  if String.eqb optimization_mode "single" then
    execute_query srv sql_query 300 (Some 100000)
  else if String.eqb optimization_mode "pagination" then
    execute_query_with_pagination fuel srv sql_query 25000
  else if String.eqb optimization_mode "parallel" then
    execute_query_with_parallel_pagination srv as_completed sql_query 50000 6
  else
    execute_query_with_parallel_pagination srv as_completed sql_query 50000 6.

(** ** Team configurations *)

(** [c.lower()] on one character of an ASCII string. *)
Definition lower_ascii (a : ascii) : ascii :=
  let n := nat_of_ascii a in
  if ((65 <=? n) && (n <=? 90))%nat then ascii_of_nat (n + 32) else a.

(** [s.lower()].  Bytes outside ASCII are left alone; no character outside
    ASCII lowers to a letter of the three team names, so the membership
    test below answers as Python's. *)
Fixpoint lower (s : string) : string :=
  match s with
  | EmptyString => EmptyString
  | String a rest => String (lower_ascii a) (lower rest)
  end.

(** The dictionary [team_databases] of [create_with_team_db]. *)
Definition team_databases : list (string * string) :=
  [ ("growth", "Growth Team Clickhouse Connection");
    ("data", "Data Team Clickhouse Connection");
    ("product", "Product Team Clickhouse Connection") ].

(** [d[key]] / [key in d] on a dictionary given by its items. *)
Fixpoint dict_get (key : string) (items : list (string * string)) : option string :=
  match items with
  | [] => None
  | (k, v) :: rest => if String.eqb k key then Some v else dict_get key rest
  end.

(** [MetabaseConfig.create_with_team_db] *)
Definition create_with_team_db (url username password team : string)
  : Exn + MetabaseConfig :=
  match dict_get (lower team) team_databases with
  | None => inl ValueError
  | Some name =>
      inr {| url := url;
             username := username;
             password := password;
             database_name := name;
             config_database_id := None |}
  end.

(** ** Warehouse dispatch *)

(** [VendorDataExtractor.execute_query_from_warehouse] on the extractor of
    the client; [query_func] is the outcome of [query_func( **kwargs)], the
    query text or the exception the call raises. *)
Definition execute_query_from_warehouse (fuel : nat) (srv : Server)
    (as_completed : Scheduler) (query_func : Exn + string)
    (use_pagination : bool) (optimization_mode : string) : M (option DataFrame) :=
  let* query := lift query_func in
  if String.eqb optimization_mode "fast" || String.eqb optimization_mode "parallel" then
    execute_query_with_parallel_pagination srv as_completed query 50000 6
  else if String.eqb optimization_mode "auto" then
    execute_query_optimized fuel srv as_completed query "auto"
  else if use_pagination then
    execute_query_with_pagination fuel srv query 25000
  else
    execute_query srv query 300 (Some 100000).

(** ** Saved questions

    The card endpoints answer with JSON the client reads in two ways: as
    the details of a question ([name], [dataset_query]) and as a result
    envelope ([status], [data]).  [CardObject] is a non-empty JSON object
    under both readings. *)

Record DatasetQuery := {
  dq_type : option string;
  dq_native_query : option string
}.

Record CardObject := {
  card_name : option string;
  card_dataset_query : option DatasetQuery;
  card_envelope : JObject
}.

(** A body that is not JSON; the empty object; another falsy value
    ([null], [[]], [0], the empty string, [false]); a truthy value that is
    not an object; a non-empty object. *)
Inductive CardPayload :=
  | CardNotJson
  | CardEmptyObject
  | CardFalsyValue
  | CardTruthyValue
  | CardJson (o : CardObject).

Inductive CardOutcome :=
  | CardConnectionFailed
  | CardResponded (status_code : Z) (payload : CardPayload).

(** [GET /api/card/<id>] and [POST /api/card/<id>/query] with its JSON
    body: the parameters when some were given, the empty object
    otherwise. *)
Inductive CardCall :=
  | GetCard (question_id : Z)
  | RunCard (question_id : Z) (parameters : option (list (string * string))).

Record CardRequest := {
  c_call : CardCall;
  c_url : string;
  c_session : option (option string);
  c_timeout : option Z
}.

Definition CardServer := CardRequest -> CardOutcome.

Inductive CardMessage :=
  | ExecutingSavedQuestion (question_id : Z)
  | QuestionFailedWithStatus (question_id : Z) (status : option string)
  | QuestionExecuted (question_id : Z) (nrows : Z) (ncols : nat)
  | FailedToExecuteQuestion (question_id : Z) (e : Exn)
  | FailedToGetQuestionDetails (question_id : Z) (e : Exn)
  | QuestionName (name : string)
  | FoundNativeQuery
  | UsingDirectExecution.

(** Lines the front end of [ofood_data] prints. *)
Inductive Printed :=
  | PrintAuthenticationFailed
  | PrintErrorExecutingQuery (e : Exn)
  | PrintErrorExecutingQuestion (e : Exn).

(** Events of the wider application: those of the client, the card
    requests and log lines, and the lines printed. *)
Inductive AppEvent :=
  | OfClient (e : Event)
  | CardSent (r : CardRequest)
  | CardLogged (l : Level) (m : CardMessage)
  | Shown (line : Printed).

Definition AppRun (A : Type) : Type := Res A * MetabaseClient * list AppEvent.

Definition App (A : Type) : Type := MetabaseClient -> AppRun A.

Definition app_value {A} (r : AppRun A) : Res A := fst (fst r).
Definition app_client {A} (r : AppRun A) : MetabaseClient := snd (fst r).
Definition app_events {A} (r : AppRun A) : list AppEvent := snd r.

Definition app_after {A} (evs : list AppEvent) (r : AppRun A) : AppRun A :=
  (app_value r, app_client r, evs ++ app_events r).

Definition app_ret {A} (a : A) : App A := fun self => (Ok a, self, []).

Definition app_raise {A} (e : Exn) : App A := fun self => (Raise e, self, []).

Definition app_bind {A B} (m : App A) (f : A -> App B) : App B :=
  fun self =>
    match m self with
    | (Ok a, self', evs) => app_after evs (f a self')
    | (Raise e, self', evs) => (Raise e, self', evs)
    | (OutOfFuel, self', evs) => (OutOfFuel, self', evs)
    end.

Notation "'let+' x ':=' m 'in' k" := (app_bind m (fun x => k))
  (at level 10, x name, m at level 100, k at level 200).

(** A method of the client run inside the application. *)
Definition of_client {A} (m : M A) : App A :=
  fun self =>
    match m self with
    | (r, self', evs) => (r, self', map OfClient evs)
    end.

Definition app_try_except {A} (body : App A) (caught : Exn -> bool)
    (handler : Exn -> App A) : App A :=
  fun self =>
    match body self with
    | (Raise e, self', evs) =>
        if caught e then app_after evs (handler e self') else (Raise e, self', evs)
    | r => r
    end.

(** [try: body finally: cleanup]; a body that has not returned does not
    reach the cleanup. *)
Definition app_try_finally {A} (body : App A) (cleanup : App unit) : App A :=
  fun self =>
    match body self with
    | (OutOfFuel, self', evs) => (OutOfFuel, self', evs)
    | (r, self', evs) =>
        match cleanup self' with
        | (Ok _, self'', evs') => (r, self'', evs ++ evs')
        | (Raise e, self'', evs') => (Raise e, self'', evs ++ evs')
        | (OutOfFuel, self'', evs') => (OutOfFuel, self'', evs ++ evs')
        end
    end.

Definition card_log (l : Level) (m : CardMessage) : App unit :=
  fun self => (Ok tt, self, [CardLogged l m]).

Definition print_line (line : Printed) : App unit :=
  fun self => (Ok tt, self, [Shown line]).

Definition card_url (self : MetabaseClient) (call : CardCall) : string :=
  match call with
  | GetCard question_id =>
      (url (config self) ++ "/api/card/" ++ str question_id)%string
  | RunCard question_id _ =>
      (url (config self) ++ "/api/card/" ++ str question_id ++ "/query")%string
  end.

Definition card_request (self : MetabaseClient) (call : CardCall)
    (timeout : option Z) : CardRequest :=
  {| c_call := call;
     c_url := card_url self call;
     c_session := session_header self;
     c_timeout := timeout |}.

Definition send_card (cards : CardServer) (call : CardCall) (timeout : option Z)
  : App (Z * CardPayload) :=
  fun self =>
    let r := card_request self call timeout in
    match cards r with
    | CardConnectionFailed => (Raise RequestException, self, [CardSent r])
    | CardResponded code payload => (Ok (code, payload), self, [CardSent r])
    end.

Definition card_raise_for_status (response : Z * CardPayload) : App unit :=
  if http_error (fst response) then app_raise RequestException else app_ret tt.

Definition card_json (response : Z * CardPayload) : App CardPayload :=
  match snd response with
  | CardNotJson => app_raise RequestException
  | p => app_ret p
  end.

(** The envelope [result.get(...)] reads: an empty object has no key, a
    value that is not an object has no [get]. *)
Definition envelope_of (p : CardPayload) : App JObject :=
  match p with
  | CardJson o => app_ret (card_envelope o)
  | CardEmptyObject =>
      app_ret {| j_id := None; j_status := None; j_error := None; j_data := NoData |}
  | _ => app_raise AttributeError
  end.

(** [if parameters: payload["parameters"] = parameters] *)
Definition card_parameters (parameters : option (list (string * string)))
  : option (list (string * string)) :=
  match parameters with
  | Some (p :: ps) => Some (p :: ps)
  | _ => None
  end.

(** [MetabaseClient.execute_saved_question] *)
Definition execute_saved_question (cards : CardServer) (question_id : Z)
    (parameters : option (list (string * string))) : App (option DataFrame) :=
  let+ self := of_client get_self in
  if negb (token_truthy (session_token self)) then
    let+ _ := of_client (log ERROR NotAuthenticated) in
    app_ret None
  else
    app_try_except
      (let call := RunCard question_id (card_parameters parameters) in
       let+ _ := card_log INFO (ExecutingSavedQuestion question_id) in
       let+ response := send_card cards call (Some 300) in
       let+ _ := card_raise_for_status response in
       let+ result := card_json response in
       let+ obj := envelope_of result in
       if negb (bool_decide (j_status obj = Some "completed")) then
         let+ _ := card_log ERROR (QuestionFailedWithStatus question_id (j_status obj)) in
         app_ret None
       else
         let+ data := of_client (query_data_of obj) in
         let rows := q_rows data in
         let+ columns := of_client (column_names (q_cols data)) in
         let+ df := of_client (lift (pd_DataFrame rows columns)) in
         let+ _ := card_log INFO
                     (QuestionExecuted question_id (len df) (length (df_columns df))) in
         app_ret (Some df))
      is_request_exception
      (fun e =>
         let+ _ := card_log ERROR (FailedToExecuteQuestion question_id e) in
         app_ret None).

(** [MetabaseClient.get_question_details]: the JSON of the answer, or
    [None]. *)
Definition get_question_details (cards : CardServer) (question_id : Z)
  : App (option CardPayload) :=
  let+ self := of_client get_self in
  if negb (token_truthy (session_token self)) then app_ret None
  else
    app_try_except
      (let+ response := send_card cards (GetCard question_id) None in
       let+ _ := card_raise_for_status response in
       let+ details := card_json response in
       app_ret (Some details))
      is_request_exception
      (fun e =>
         let+ _ := card_log ERROR (FailedToGetQuestionDetails question_id e) in
         app_ret None).

(** Truth value of what [get_question_details] returned. *)
Definition details_truthy (details : option CardPayload) : bool :=
  match details with
  | Some (CardJson _) | Some CardTruthyValue => true
  | _ => false
  end.

(** [x or default] on an optional string read with [get(key, default)]. *)
Definition get_default (x : option string) (default : string) : string :=
  match x with
  | Some v => v
  | None => default
  end.

(** The [if question_details:] block of [execute_saved_question_optimized]:
    [Some result] when the block returns [result], [None] when control
    falls through to the direct execution. *)
Definition try_native_query (fuel : nat) (srv : Server) (as_completed : Scheduler)
    (details : option CardPayload) (optimization_mode : string)
  : App (option (option DataFrame)) :=
  if details_truthy details then
    match details with
    | Some (CardJson o) =>
        let+ _ := card_log INFO (QuestionName (get_default (card_name o) "Unknown")) in
        let dataset_query :=
          match card_dataset_query o with
          | Some dq => dq
          | None => {| dq_type := None; dq_native_query := None |}
          end in
        if bool_decide (dq_type dataset_query = Some "native") then
          let sql_query := get_default (dq_native_query dataset_query) "" in
          if negb (String.eqb sql_query "") then
            let+ _ := card_log INFO FoundNativeQuery in
            let+ result :=
              of_client (execute_query_optimized fuel srv as_completed sql_query
                           optimization_mode) in
            app_ret (Some result)
          else app_ret None
        else app_ret None
    | _ => app_raise AttributeError
    end
  else app_ret None.

(** [MetabaseClient.execute_saved_question_optimized] *)
Definition execute_saved_question_optimized (fuel : nat) (srv : Server)
    (cards : CardServer) (as_completed : Scheduler) (question_id : Z)
    (optimization_mode : string) : App (option DataFrame) :=
  let+ question_details := get_question_details cards question_id in
  let+ returned :=
    try_native_query fuel srv as_completed question_details optimization_mode in
  match returned with
  | Some result => app_ret result
  | None =>
      let+ _ := card_log INFO UsingDirectExecution in
      execute_saved_question cards question_id None
  end.

(** ** The front end of [ofood_data] *)

(** What [OFoodConfig] reads: its class attributes [DEFAULT_TEAM] and
    [DEFAULT_PASSWORD] and the environment variable [METABASE_PASSWORD]. *)
Record OFoodEnv := {
  default_team : string;
  default_password : option string;
  env_password : option string
}.

Definition DEFAULT_URL : string := "https://metabase.ofood.cloud".
Definition DEFAULT_USERNAME : string := "a.mehmandoost@OFOOD.CLOUD".

(** The module as it is loaded, with the environment variable as found. *)
Definition loaded (env_password : option string) : OFoodEnv :=
  {| default_team := "growth";
     default_password := None;
     env_password := env_password |}.

(** [a or b] on optional strings: [None] and the empty string are falsy. *)
Definition or_else (a b : option string) : option string :=
  if token_truthy a then a else b.

(** [OFoodConfig.get_config] *)
Definition get_config (env : OFoodEnv) (team password : option string)
  : Exn + MetabaseConfig :=
  let team := or_else team (Some (default_team env)) in
  let password := or_else (or_else password (default_password env)) (env_password env) in
  if negb (token_truthy password) then inl ValueError
  else
    create_with_team_db DEFAULT_URL DEFAULT_USERNAME
      (get_default password "") (get_default team "").

(** [setup_credentials]: the two assignments; the line it prints is left
    out. *)
Definition setup_credentials (env : OFoodEnv) (password team : string) : OFoodEnv :=
  {| default_team := team;
     default_password := default_password env;
     env_password := Some password |}.

(** The [try] statement shared by [_execute_query] and
    [get_question_data]: [work] when the login succeeds, a printed line
    and [None] when it fails or when anything raises, and the logout in
    every case. *)
Definition with_session (srv : Server) (work : App (option DataFrame))
    (denied : Printed) (failed : Exn -> Printed) : App (option DataFrame) :=
  app_try_finally
    (app_try_except
       (let+ authenticated := of_client (authenticate srv) in
        if authenticated then work
        else
          let+ _ := print_line denied in
          app_ret None)
       (fun _ => true)
       (fun e =>
          let+ _ := print_line (failed e) in
          app_ret None))
    (of_client (logout srv)).

(** [_execute_query]: [inl] when [get_config] raises, before any client
    exists; otherwise the run on the new client. *)
Definition _execute_query (env : OFoodEnv) (fuel : nat) (srv : Server)
    (as_completed : Scheduler) (query_func : Exn + string)
    (team password : option string) (use_pagination : bool)
    (optimization_mode : string) : Exn + AppRun (option DataFrame) :=
  match get_config env team password with
  | inl e => inl e
  | inr config =>
      inr (with_session srv
             (of_client (execute_query_from_warehouse fuel srv as_completed query_func
                           use_pagination optimization_mode))
             PrintAuthenticationFailed PrintErrorExecutingQuery
             (new_client config))
  end.

(** [get_question_data] *)
Definition get_question_data (env : OFoodEnv) (fuel : nat) (srv : Server)
    (cards : CardServer) (as_completed : Scheduler) (question_id : Z)
    (team password : option string) (fast : bool)
  : Exn + AppRun (option DataFrame) :=
  match get_config env team password with
  | inl e => inl e
  | inr config =>
      inr (with_session srv
             (if fast
              then execute_saved_question_optimized fuel srv cards as_completed
                     question_id "auto"
              else execute_saved_question cards question_id None)
             PrintAuthenticationFailed PrintErrorExecutingQuestion
             (new_client config))
  end.

(** ** Sample servers

    Small concrete servers on which the statements below are run. *)

Module Sample.

Definition cfg : MetabaseConfig :=
  {| url := "http://metabase.local";
     username := "analyst";
     password := "secret";
     database_name := "Growth Team Clickhouse Connection";
     config_database_id := None |}.

Definition completed (columns : list string) (rows : list (list Cell)) : HttpOutcome :=
  Responded 200
    (JsonObject
       {| j_id := None;
          j_status := Some "completed";
          j_error := None;
          j_data := Results {| q_rows := rows;
                               q_cols := map Some columns;
                               q_results_truncated := false |} |}).

Definition failed (text : string) : HttpOutcome :=
  Responded 200
    (JsonObject
       {| j_id := None;
          j_status := Some "failed";
          j_error := Some text;
          j_data := NoData |}).

Definition session_granted : HttpOutcome :=
  Responded 200
    (JsonObject
       {| j_id := Some "5f3c-token";
          j_status := None;
          j_error := None;
          j_data := NoData |}).

Definition database_listing : HttpOutcome :=
  Responded 200
    (JsonObject
       {| j_id := None;
          j_status := None;
          j_error := None;
          j_data := Databases
            [ {| db_name := Some "Data Team Clickhouse Connection"; db_id := Some 3 |};
              {| db_name := Some "Growth Team Clickhouse Connection"; db_id := Some 7 |} ] |}).

(** A server that grants sessions, lists the databases as [listing] says,
    answers queries as [answer] says and accepts every logout. *)
Definition server (listing : HttpOutcome) (answer : string -> HttpOutcome) : Server :=
  fun r =>
    match r_method r, r_body r with
    | POST, AuthBody _ _ => session_granted
    | POST, QueryBody q _ _ _ => answer q
    | GET, _ => listing
    | DELETE, _ => Responded 204 NotJson
    | _, _ => Responded 404 NotJson
    end.

Definition sql : string := "SELECT id FROM orders;".

Definition ids (first count : nat) : list (list Cell) :=
  map (fun i => [CInt (Z.of_nat i)]) (seq first count).

Definition is_count_query (q : string) : bool :=
  String.eqb q (count_query indent8 sql) || String.eqb q (count_query indent12 sql).

(** The table [orders] with [total] rows as a paginated endpoint: the
    page at offset [k * page_size] is looked up among the first [total + 1]
    offsets. *)
Definition orders (total : nat) (page_size : Z) : string -> HttpOutcome :=
  fun q =>
    if is_count_query q then completed ["total_rows"] [[CInt (Z.of_nat total)]]
    else
      match find (fun k => String.eqb q (paginated_query sql page_size (Z.of_nat k * page_size)))
                 (seq 0 (S total)) with
      | Some k =>
          let offset := Z.to_nat (Z.of_nat k * page_size) in
          completed ["id"] (ids offset (Nat.min (Z.to_nat page_size) (total - offset)))
      | None => completed ["id"] (ids 0 total)
      end.

(** The same endpoint with the page [lost] answered by a transport error. *)
Definition orders_without (lost : nat) (total : nat) (page_size : Z)
  : string -> HttpOutcome :=
  fun q =>
    if String.eqb q (paginated_query sql page_size (Z.of_nat lost * page_size))
    then ConnectionFailed
    else orders total page_size q.

(** An endpoint that only answers the count queries, with [n]. *)
Definition counting (n : Z) : string -> HttpOutcome :=
  fun q =>
    if is_count_query q then completed ["total_rows"] [[CInt n]]
    else failed "Code: 60. Table orders does not exist".

Definition logged_in : MetabaseClient :=
  {| config := cfg;
     session_header := Some (Some "5f3c-token");
     session_token := Some "5f3c-token";
     database_id := Some 7 |}.

(** Futures complete in reverse submission order. *)
Definition last_first : Scheduler := fun n => rev (seq 0 n).

(** Futures complete in submission order. *)
Definition in_order : Scheduler := fun n => seq 0 n.

End Sample.

(** ** Sample card servers *)

Module Cards.

Definition no_envelope : JObject :=
  {| j_id := None; j_status := None; j_error := None; j_data := NoData |}.

(** The details of a question written in SQL. *)
Definition native_card (sql : string) : CardPayload :=
  CardJson {| card_name := Some "x-net";
              card_dataset_query :=
                Some {| dq_type := Some "native"; dq_native_query := Some sql |};
              card_envelope := no_envelope |}.

(** The details of a question built in the query editor. *)
Definition built_card : CardPayload :=
  CardJson {| card_name := Some "orders by city";
              card_dataset_query :=
                Some {| dq_type := Some "query"; dq_native_query := None |};
              card_envelope := no_envelope |}.

(** The result envelope of a run: [rows] under the column ["id"]. *)
Definition result (rows : list (list Cell)) : CardPayload :=
  CardJson {| card_name := None;
              card_dataset_query := None;
              card_envelope :=
                {| j_id := None;
                   j_status := Some "completed";
                   j_error := None;
                   j_data := Results {| q_rows := rows;
                                        q_cols := [Some "id"];
                                        q_results_truncated := false |} |} |}.

(** A card server that describes every question by [details] and answers
    every run with [run]. *)
Definition server (details run : CardPayload) : CardServer :=
  fun r =>
    match c_call r with
    | GetCard _ => CardResponded 200 details
    | RunCard _ _ => CardResponded 200 run
    end.

(** A scheduler that hands the first future over again and again. *)
Definition stuck_on_first : Scheduler := fun n => repeat 0%nat n.

End Cards.

(** ** Observations

    What the statements below read off a run, and the predicates they are
    phrased with. *)

(** [preserves P m]: the client [m] leaves is related by [P] to the one it
    was called on. *)
Definition preserves (P : MetabaseClient -> MetabaseClient -> Prop) {A} (m : M A)
  : Prop :=
  forall self, P self (client_after (m self)).

(** Events of the calling thread: a request or a log line, as opposed to a
    page task handed to the pool or an event of a worker. *)
Definition plain (e : Event) : bool :=
  match e with
  | Sent _ | Logged _ _ => true
  | Submitted _ | InWorker _ _ => false
  end.

(** A computation is [tame] when it always returns or raises (it has no
    unbounded loop) and leaves only requests and log lines behind. *)
Definition tame {A} (m : M A) : Prop :=
  forall self,
    value (m self) <> OutOfFuel
    /\ Forall (fun e => plain e = true) (events (m self)).

(** Computations that leave the client as it is. *)
Abbreviation keeps_client := (preserves eq).

(** Two client states with the same configuration and session; the
    database id may differ. *)
Definition same_session (a b : MetabaseClient) : Prop :=
  config b = config a /\ session_header b = session_header a
  /\ session_token b = session_token a.

(** The request [execute_query] posts for a query. *)
Definition dataset_request (self : MetabaseClient) (sql_query : string)
    (timeout : Z) (max_results : option Z) : Request :=
  {| r_method := POST;
     r_url := (url (config self) ++ "/api/dataset")%string;
     r_session := session_header self;
     r_body := QueryBody sql_query (database_id self)
                 (or_default max_results 100000) (or_default max_results 100000);
     r_timeout := Some timeout |}.

(** The query text of an event, when the event is a query posted to the
    dataset endpoint. *)
Definition dataset_query_of (e : Event) : option string :=
  match e with
  | Sent r =>
      match r_method r, r_body r with
      | POST, QueryBody q _ _ _ => Some q
      | _, _ => None
      end
  | _ => None
  end.

(** The query texts posted to the dataset endpoint, in order. *)
Definition dataset_queries (evs : list Event) : list string :=
  omap dataset_query_of evs.

(** The event is a log line. *)
Definition is_logged (e : Event) : Prop :=
  match e with Logged _ _ => True | _ => False end.

(** [column_names] without the client: the names, or [KeyError]. *)
Fixpoint names_of (cols : list (option string)) : Exn + list string :=
  match cols with
  | [] => inr []
  | None :: _ => inl KeyError
  | Some n :: rest =>
      match names_of rest with
      | inr names => inr (n :: names)
      | inl e => inl e
      end
  end.

(** The event is not a query posted to the dataset endpoint. *)
Definition no_query (e : Event) : Prop := dataset_query_of e = None.

(** The request [logout] sends. *)
Definition logout_request (self : MetabaseClient) : Request :=
  {| r_method := DELETE;
     r_url := (url (config self) ++ "/api/session")%string;
     r_session := session_header self;
     r_body := NoBody;
     r_timeout := None |}.

(** Every value [m] returns satisfies [P]. *)
Definition returns_only {A} (P : A -> Prop) (m : M A) : Prop :=
  forall self a, value (m self) = Ok a -> P a.

(** What one completed future does to the slot array. *)
Definition place (slots : list (option DataFrame))
    (done : nat * Run (option DataFrame * nat)) : list (option DataFrame) :=
  match value (snd done) with
  | Ok (Some df, page_num) => <[page_num := Some df]> slots
  | _ => slots
  end.

(** The sum of the [len]s of a list of frames. *)
Definition total_len (frames : list DataFrame) : Z :=
  fold_right (fun d acc => len d + acc) 0 frames.

(** The text of the request for page [k]. *)
Definition page_query (sql_query : string) (page_size : Z) (k : nat) : string :=
  paginated_query sql_query page_size (Z.of_nat k * page_size).

(** What [execute_query] returns for page [k] on the client [self]. *)
Definition fetched (srv : Server) (self : MetabaseClient) (sql_query : string)
    (page_size : Z) (k : nat) : Res (option DataFrame) :=
  value (execute_query srv (page_query sql_query page_size k) 300 (Some page_size) self).

(** What the loop keeps of the page it stops at. *)
Definition kept_of_last (last : option DataFrame) : list DataFrame :=
  match last with
  | Some page => if len page =? 0 then [] else [page]
  | None => []
  end.

(** The page the loop stops at: a failure, an empty page or a short one. *)
Definition ends_data (page_size : Z) (last : option DataFrame) : Prop :=
  match last with
  | Some page => len page = 0 \/ len page < page_size
  | None => True
  end.

(** The method of a request sent. *)
Definition sent_method (e : Event) : option Method :=
  match e with
  | Sent r => Some (r_method r)
  | _ => None
  end.

(** The request [authenticate] sends. *)
Definition login_request (self : MetabaseClient) : Request :=
  {| r_method := POST;
     r_url := (url (config self) ++ "/api/session")%string;
     r_session := session_header self;
     r_body := AuthBody (username (config self)) (password (config self));
     r_timeout := None |}.

(** The request [get_database_id] sends. *)
Definition listing_request (self : MetabaseClient) : Request :=
  {| r_method := GET;
     r_url := (url (config self) ++ "/api/database")%string;
     r_session := session_header self;
     r_body := NoBody;
     r_timeout := None |}.

(** The id the database listing [dbs] gives for [name]: that of the first
    entry with this name. *)
Definition listed_id (name : string) (dbs : list DbEntry) : option Z :=
  match find (fun db => name_is db name) dbs with
  | Some db => db_id db
  | None => None
  end.

(** The methods of the requests sent, in order. *)
Definition sent_methods (evs : list Event) : list Method := omap sent_method evs.

(** The ['data'] object a query answer is read as: the object itself, or
    the defaults when the key is absent. *)
Definition data_read (obj : JObject) : option QueryData :=
  match j_data obj with
  | NoData => Some {| q_rows := []; q_cols := []; q_results_truncated := false |}
  | Results d => Some d
  | Databases _ | Scalar => None
  end.

(** The frame an answer envelope is read as: [AttributeError] when the
    ['data'] entry is a list, [KeyError] when a column has no name,
    [ValueError] when the rows do not fit the columns. *)
Definition frame_read (obj : JObject) : Exn + DataFrame :=
  match data_read obj with
  | None => inl AttributeError
  | Some data =>
      match names_of (q_cols data) with
      | inl e => inl e
      | inr names => pd_DataFrame (q_rows data) names
      end
  end.

Definition card_request_of (e : AppEvent) : option CardRequest :=
  match e with
  | CardSent r => Some r
  | _ => None
  end.

(** The card requests sent, in order. *)
Definition card_requests (evs : list AppEvent) : list CardRequest :=
  omap card_request_of evs.

Definition client_request_of (e : AppEvent) : option Request :=
  match e with
  | OfClient (Sent r) => Some r
  | _ => None
  end.

(** The requests sent by the methods of the client, in order. *)
Definition client_requests (evs : list AppEvent) : list Request :=
  omap client_request_of evs.

(** The SQL text of a question written in SQL, when it has one. *)
Definition native_sql (o : CardObject) : option string :=
  match card_dataset_query o with
  | Some dq =>
      if bool_decide (dq_type dq = Some "native") then
        match dq_native_query dq with
        | Some sql => if String.eqb sql "" then None else Some sql
        | None => None
        end
      else None
  | None => None
  end.

(** The line logged with the name of a question, when its details are an
    object. *)
Definition name_line (details : option CardPayload) : list AppEvent :=
  match details with
  | Some (CardJson o) =>
      [CardLogged INFO (QuestionName (get_default (card_name o) "Unknown"))]
  | _ => []
  end.

(** The first of the candidates that is neither [None] nor empty. *)
Fixpoint first_truthy (candidates : list (option string)) : option string :=
  match candidates with
  | [] => None
  | c :: rest => if token_truthy c then c else first_truthy rest
  end.

(** The run [r] followed by [client.logout()]. *)
Definition then_logout {A} (srv : Server) (r : AppRun A) : AppRun A :=
  (app_value r,
   client_after (logout srv (app_client r)),
   app_events r ++ map OfClient (events (logout srv (app_client r)))).

(** The computation changes neither the configuration nor the session of
    the client. *)
Definition keeps_session {A} (m : App A) : Prop :=
  forall self, same_session self (app_client (m self)).

(** The count answer reads as the 64-bit integer [t]: the frame has the
    single column [total_rows], typed [int64], with [t] in its first
    row. *)
Definition counts (count_df : DataFrame) (t : Z) : Prop :=
  df_columns count_df = ["total_rows"] /\ count_read count_df = inr (NpInt t).

(** What the concatenation at the end of a paginated fetch comes to:
    [None] when no frame was kept, otherwise what [pd.concat] returns or
    raises. *)
Definition concat_outcome (frames : list DataFrame) : Res (option DataFrame) :=
  match frames with
  | [] => Ok None
  | _ =>
      match pd_concat frames with
      | inr df => Ok (Some df)
      | inl e => Raise e
      end
  end.

(** The frames carry the same columns. *)
Definition uniform (frames : list DataFrame) : Prop :=
  forall a b, In a frames -> In b frames -> df_columns a = df_columns b.

(** * Properties *)

(** ** Runs and their composition *)

Lemma after_nil {A} (r : Run A) : after [] r = r.
Proof. destruct r as [[v c] evs]. reflexivity. Qed.

Lemma after_after {A} (e1 e2 : list Event) (r : Run A) :
  after e1 (after e2 r) = after (e1 ++ e2) r.
Proof. destruct r as [[v c] evs]. unfold after. simpl. by rewrite app_assoc. Qed.

Lemma value_after {A} evs (r : Run A) : value (after evs r) = value r.
Proof. reflexivity. Qed.

Lemma client_after_after {A} evs (r : Run A) :
  client_after (after evs r) = client_after r.
Proof. reflexivity. Qed.

Lemma events_after {A} evs (r : Run A) : events (after evs r) = evs ++ events r.
Proof. reflexivity. Qed.

Lemma run_eta {A} (r : Run A) : r = (value r, client_after r, events r).
Proof. by destruct r as [[v c] evs]. Qed.

Lemma bind_ok {A B} (m : M A) (f : A -> M B) self a self' evs :
  m self = (Ok a, self', evs) -> bind m f self = after evs (f a self').
Proof. intros H. unfold bind. by rewrite H. Qed.

Lemma bind_raise {A B} (m : M A) (f : A -> M B) self e self' evs :
  m self = (Raise e, self', evs) -> bind m f self = (Raise e, self', evs).
Proof. intros H. unfold bind. by rewrite H. Qed.

Lemma bind_get_self {B} (f : MetabaseClient -> M B) self :
  bind get_self f self = f self self.
Proof. unfold bind, get_self. apply after_nil. Qed.

Lemma bind_log {B} l msg (f : unit -> M B) self :
  bind (log l msg) f self = after [Logged l msg] (f tt self).
Proof. reflexivity. Qed.

Lemma bind_ret {A B} (a : A) (f : A -> M B) self :
  bind (ret a) f self = f a self.
Proof. unfold bind, ret. apply after_nil. Qed.

Lemma bind_send {B} srv m path body timeout (f : Z * Payload -> M B) self :
  bind (send srv m path body timeout) f self =
  let r := {| r_method := m;
              r_url := (url (config self) ++ path)%string;
              r_session := session_header self;
              r_body := body;
              r_timeout := timeout |} in
  match srv r with
  | ConnectionFailed => (Raise RequestException, self, [Sent r])
  | Responded code payload => after [Sent r] (f (code, payload) self)
  end.
Proof. unfold bind, send. cbn zeta. by destruct (srv _). Qed.

Lemma after_ret {A} evs (a : A) self : after evs (ret a self) = (Ok a, self, evs).
Proof. unfold after, ret. cbn. by rewrite app_nil_r. Qed.

Lemma bind_lift_inr {A B} (x : Exn + A) a (f : A -> M B) self :
  x = inr a -> bind (lift x) f self = f a self.
Proof. intros ->. apply bind_ret. Qed.

(** ** Computations that stay on the calling thread

    The session calls, the database lookup and the single-page executor
    are tame: they have no loop without bound, submit no page task and run
    no worker. *)

Lemma tame_ret {A} (a : A) : tame (ret a).
Proof. intros c. split; [discriminate | constructor]. Qed.

Lemma tame_raise {A} e : tame (@raise A e).
Proof. intros c. split; [discriminate | constructor]. Qed.

Lemma tame_log l msg : tame (log l msg).
Proof. intros c. split; [discriminate | repeat constructor]. Qed.

Lemma tame_get_self : tame get_self.
Proof. intros c. split; [discriminate | constructor]. Qed.

Lemma tame_set_session_token t : tame (set_session_token t).
Proof. intros c. split; [discriminate | constructor]. Qed.

Lemma tame_set_session_header h : tame (set_session_header h).
Proof. intros c. split; [discriminate | constructor]. Qed.

Lemma tame_set_database_id i : tame (set_database_id i).
Proof. intros c. split; [discriminate | constructor]. Qed.

Lemma tame_lift {A} (x : Exn + A) : tame (lift x).
Proof. destruct x; [apply tame_raise | apply tame_ret]. Qed.

Lemma tame_send srv m path body timeout : tame (send srv m path body timeout).
Proof.
  intros c. unfold send.
  destruct (srv _); split; try discriminate; repeat constructor.
Qed.

Lemma tame_bind {A B} (m : M A) (f : A -> M B) :
  tame m -> (forall a, tame (f a)) -> tame (bind m f).
Proof.
  intros Hm Hf c. unfold bind.
  destruct (Hm c) as [Hv He].
  destruct (m c) as [[[a|e|] c'] evs]; cbn [value client_after events fst snd] in *.
  - destruct (Hf a c') as [Hv' He']. split; [exact Hv'|].
    rewrite events_after. apply Forall_app. by split.
  - split; [discriminate | exact He].
  - by destruct Hv.
Qed.

Lemma tame_try_except {A} (body : M A) caught handler :
  tame body -> (forall e, tame (handler e)) -> tame (try_except body caught handler).
Proof.
  intros Hb Hh c. unfold try_except.
  destruct (Hb c) as [Hv He].
  destruct (body c) as [[[a|e|] c'] evs]; cbn [value client_after events fst snd] in *.
  - split; [discriminate | exact He].
  - destruct (caught e).
    + destruct (Hh e c') as [Hv' He']. split; [exact Hv'|].
      rewrite events_after. by apply Forall_app.
    + split; [discriminate | exact He].
  - by destruct Hv.
Qed.

Lemma tame_try_finally {A} (body : M A) cleanup :
  tame body -> tame cleanup -> tame (try_finally body cleanup).
Proof.
  intros Hb Hc c. unfold try_finally.
  destruct (Hb c) as [Hv He].
  destruct (body c) as [[r c'] evs]; cbn [value client_after events fst snd] in *.
  destruct (Hc c') as [Hv' He'].
  destruct (cleanup c') as [[[u|e|] c''] evs']; cbn [value client_after events fst snd] in *.
  - split; [exact Hv | apply Forall_app; by split].
  - split; [discriminate | apply Forall_app; by split].
  - by destruct Hv'.
Qed.

Create HintDb tame discriminated.
#[local] Hint Resolve tame_ret tame_raise tame_log tame_get_self tame_set_session_token
  tame_set_session_header tame_set_database_id tame_lift tame_send : tame.

Ltac tame_step :=
  match goal with
  | |- tame (bind _ _) => apply tame_bind; [ | intros ? ]
  | |- tame (try_except _ _ _) => apply tame_try_except; [ | intros ? ]
  | |- tame (try_finally _ _) => apply tame_try_finally
  | |- tame (if ?b then _ else _) => destruct b
  | |- tame (match ?x with _ => _ end) => destruct x
  | |- tame _ => solve [ eauto with tame ]
  end.

Ltac tame_solve := repeat tame_step.

Lemma tame_raise_for_status response : tame (raise_for_status response).
Proof. unfold raise_for_status. tame_solve. Qed.

Lemma tame_json response : tame (json response).
Proof. unfold json. tame_solve. Qed.

Lemma tame_as_object p : tame (as_object p).
Proof. unfold as_object. tame_solve. Qed.

Lemma tame_databases_of obj : tame (databases_of obj).
Proof. unfold databases_of. tame_solve. Qed.

Lemma tame_query_data_of obj : tame (query_data_of obj).
Proof. unfold query_data_of. tame_solve. Qed.

Lemma tame_column_names cols : tame (column_names cols).
Proof. induction cols as [|[n|] rest IH]; simpl; tame_solve. Qed.

Lemma tame_find_database name dbs : tame (find_database name dbs).
Proof. induction dbs as [|db rest IH]; simpl; tame_solve. Qed.

#[local] Hint Resolve tame_raise_for_status tame_json tame_as_object tame_databases_of
  tame_query_data_of tame_column_names tame_find_database : tame.

Lemma tame_authenticate srv : tame (authenticate srv).
Proof. unfold authenticate. tame_solve. Qed.

Lemma tame_logout srv : tame (logout srv).
Proof. unfold logout. tame_solve. Qed.

Lemma tame_get_database_id srv : tame (get_database_id srv).
Proof. unfold get_database_id. tame_solve. Qed.

#[local] Hint Resolve tame_authenticate tame_logout tame_get_database_id : tame.

Lemma tame_submit_query srv q t mr : tame (submit_query srv q t mr).
Proof. unfold submit_query. tame_solve. Qed.

Lemma tame_ensure_database_id srv : tame (ensure_database_id srv).
Proof. unfold ensure_database_id. tame_solve. Qed.

#[local] Hint Resolve tame_submit_query tame_ensure_database_id : tame.

Lemma tame_execute_query srv q t mr : tame (execute_query srv q t mr).
Proof. unfold execute_query. tame_solve. Qed.

#[local] Hint Resolve tame_execute_query : tame.

(** ** What a computation keeps of the client *)

Section Frame.

Variable P : MetabaseClient -> MetabaseClient -> Prop.
Hypothesis P_refl : forall c, P c c.
Hypothesis P_trans : forall a b c, P a b -> P b c -> P a c.

Abbreviation preserves := (preserves P).

Lemma preserves_ret {A} (a : A) : preserves (ret a).
Proof using P_refl. intros c. apply P_refl. Qed.

Lemma preserves_raise {A} e : preserves (@raise A e).
Proof using P_refl. intros c. apply P_refl. Qed.

Lemma preserves_log l msg : preserves (log l msg).
Proof using P_refl. intros c. apply P_refl. Qed.

Lemma preserves_get_self : preserves get_self.
Proof using P_refl. intros c. apply P_refl. Qed.

Lemma preserves_lift {A} (x : Exn + A) : preserves (lift x).
Proof using P_refl. destruct x; [apply preserves_raise | apply preserves_ret]. Qed.

Lemma preserves_send srv m path body timeout :
  preserves (send srv m path body timeout).
Proof using P_refl. intros c. unfold send. destruct (srv _); apply P_refl. Qed.

Lemma preserves_bind {A B} (m : M A) (f : A -> M B) :
  preserves m -> (forall a, preserves (f a)) -> preserves (bind m f).
Proof using P_trans.
  intros Hm Hf c. unfold bind. specialize (Hm c).
  destruct (m c) as [[[a|e|] c'] evs]; cbn [client_after fst snd] in *; try exact Hm.
  rewrite client_after_after. eapply P_trans; [exact Hm | apply Hf].
Qed.

Lemma preserves_try_except {A} (body : M A) caught handler :
  preserves body -> (forall e, preserves (handler e)) ->
  preserves (try_except body caught handler).
Proof using P_trans.
  intros Hb Hh c. unfold try_except. specialize (Hb c).
  destruct (body c) as [[[a|e|] c'] evs]; cbn [client_after fst snd] in *; try exact Hb.
  destruct (caught e); [|exact Hb].
  rewrite client_after_after. eapply P_trans; [exact Hb | apply Hh].
Qed.

Lemma preserves_try_finally {A} (body : M A) cleanup :
  preserves body -> preserves cleanup -> preserves (try_finally body cleanup).
Proof using P_trans.
  intros Hb Hc c. unfold try_finally. specialize (Hb c).
  destruct (body c) as [[r c'] evs]; cbn [client_after fst snd] in *.
  specialize (Hc c').
  destruct (cleanup c') as [[[u|e|] c''] evs']; cbn [client_after fst snd] in *;
    eapply P_trans; eauto.
Qed.

End Frame.

Ltac preserves_step :=
  match goal with
  | |- preserves _ (bind _ _) => apply preserves_bind; [ solve [eauto] | | intros ? ]
  | |- preserves _ (try_except _ _ _) =>
      apply preserves_try_except; [ solve [eauto] | | intros ? ]
  | |- preserves _ (try_finally _ _) => apply preserves_try_finally; [ solve [eauto] | | ]
  | |- preserves _ (if ?b then _ else _) => destruct b
  | |- preserves _ (match ?x with _ => _ end) => destruct x
  | |- preserves _ (ret _) => apply preserves_ret; solve [eauto]
  | |- preserves _ (raise _) => apply preserves_raise; solve [eauto]
  | |- preserves _ (log _ _) => apply preserves_log; solve [eauto]
  | |- preserves _ get_self => apply preserves_get_self; solve [eauto]
  | |- preserves _ (lift _) => apply preserves_lift; solve [eauto]
  | |- preserves _ (send _ _ _ _ _) => apply preserves_send; solve [eauto]
  | |- preserves _ _ => solve [ eauto ]
  end.

Ltac preserves_solve := repeat preserves_step.

Lemma eq_client_trans (a b c : MetabaseClient) : a = b -> b = c -> a = c.
Proof. congruence. Qed.

#[local] Hint Resolve eq_client_trans : core.

Lemma keeps_raise_for_status response : keeps_client (raise_for_status response).
Proof. unfold raise_for_status. preserves_solve. Qed.

Lemma keeps_json response : keeps_client (json response).
Proof. unfold json. preserves_solve. Qed.

Lemma keeps_as_object p : keeps_client (as_object p).
Proof. unfold as_object. preserves_solve. Qed.

Lemma keeps_databases_of obj : keeps_client (databases_of obj).
Proof. unfold databases_of. preserves_solve. Qed.

Lemma keeps_query_data_of obj : keeps_client (query_data_of obj).
Proof. unfold query_data_of. preserves_solve. Qed.

Lemma keeps_column_names cols : keeps_client (column_names cols).
Proof.
  induction cols as [|[n|] rest IH]; simpl; preserves_solve.
Qed.

#[local] Hint Resolve keeps_raise_for_status keeps_json keeps_as_object keeps_databases_of
  keeps_query_data_of keeps_column_names : core.

Lemma keeps_submit_query srv q t mr : keeps_client (submit_query srv q t mr).
Proof. unfold submit_query. preserves_solve. Qed.

Lemma same_session_refl c : same_session c c.
Proof. by repeat split. Qed.

Lemma same_session_trans a b c :
  same_session a b -> same_session b c -> same_session a c.
Proof. unfold same_session. intros (?&?&?) (?&?&?). repeat split; congruence. Qed.

Lemma eq_same_session {A} (m : M A) : keeps_client m -> preserves same_session m.
Proof. intros H c. rewrite <- (H c). apply same_session_refl. Qed.

#[local] Hint Resolve same_session_refl same_session_trans : core.

Lemma session_set_database_id i : preserves same_session (set_database_id i).
Proof. intros c. by repeat split. Qed.

#[local] Hint Resolve session_set_database_id : core.

Lemma session_find_database name dbs : preserves same_session (find_database name dbs).
Proof. induction dbs as [|db rest IH]; simpl; preserves_solve. Qed.

#[local] Hint Resolve session_find_database : core.

Lemma session_get_database_id srv : preserves same_session (get_database_id srv).
Proof.
  unfold get_database_id. preserves_solve; apply eq_same_session; eauto.
Qed.

#[local] Hint Resolve session_get_database_id : core.

Lemma session_ensure_database_id srv : preserves same_session (ensure_database_id srv).
Proof. unfold ensure_database_id. preserves_solve. Qed.

#[local] Hint Resolve session_ensure_database_id : core.

Lemma session_execute_query srv q t mr :
  preserves same_session (execute_query srv q t mr).
Proof.
  unfold execute_query. preserves_solve.
  apply eq_same_session, keeps_submit_query.
Qed.

(** ** Resolving the database id *)

Lemma with_database_id_same c : with_database_id c (database_id c) = c.
Proof. by destruct c. Qed.

Lemma with_database_id_twice c a b :
  with_database_id (with_database_id c a) b = with_database_id c b.
Proof. reflexivity. Qed.

Lemma find_database_run name dbs self :
  find_database name dbs self =
  match find (fun db => name_is db name) dbs with
  | Some db => (Ok (db_id db), with_database_id self (db_id db),
                [Logged INFO (FoundDatabaseId (db_id db))])
  | None => (Ok None, self, [Logged ERROR (DatabaseNotFound name)])
  end.
Proof.
  induction dbs as [|db rest IH]; simpl; [reflexivity|].
  destruct (name_is db name); [reflexivity | exact IH].
Qed.

(** On a client whose database id is not set, the lookup does not depend
    on the falsy value stored: it answers the same, logs the same, and
    either stores the id it returns or leaves the client alone. *)
Lemma get_database_id_unset srv self x :
  id_truthy (database_id self) = false ->
  id_truthy x = false ->
  let r := get_database_id srv self in
  let r' := get_database_id srv (with_database_id self x) in
  value r' = value r /\ events r' = events r /\
  ((client_after r = self /\ client_after r' = with_database_id self x) \/
   (exists id, value r = Ok id /\ client_after r = with_database_id self id
               /\ client_after r' = with_database_id self id)).
Proof.
  intros Hdb Hx. destruct self as [cfg hdr tok db]. cbn in Hdb.
  unfold get_database_id. rewrite !bind_get_self.
  cbn [database_id with_database_id config session_header session_token].
  rewrite Hdb, Hx.
  unfold try_except, bind, send.
  cbn [database_id with_database_id config session_header session_token].
  destruct (srv _) as [|code pl]; [cbn; auto|].
  unfold raise_for_status, json, as_object, databases_of.
  cbn [fst snd].
  destruct (http_error code); [cbn; auto|].
  destruct pl as [| |obj]; [cbn; auto | cbn; auto |].
  cbn.
  destruct (j_data obj) as [|dbs|d|]; cbn; auto.
  rewrite !find_database_run.
  destruct (find _ dbs) as [db'|]; cbn; auto.
  split; [reflexivity|]. split; [reflexivity|].
  right. exists (db_id db'). auto.
Qed.

Lemma ensure_database_id_settled srv self :
  id_truthy (database_id self) = true ->
  ensure_database_id srv self = (Ok true, self, []).
Proof.
  intros H. unfold ensure_database_id. rewrite bind_get_self. by rewrite H.
Qed.

Lemma ensure_database_id_unset srv self :
  id_truthy (database_id self) = false ->
  ensure_database_id srv self =
  match get_database_id srv self with
  | (Ok id, c, evs) => (Ok (id_truthy id), with_database_id c id, evs)
  | (Raise e, c, evs) => (Raise e, c, evs)
  | (OutOfFuel, c, evs) => (OutOfFuel, c, evs)
  end.
Proof.
  intros H. unfold ensure_database_id. rewrite bind_get_self. rewrite H.
  cbn [negb]. unfold bind at 1.
  destruct (get_database_id srv self) as [[[id|e|] c] evs]; try reflexivity.
  unfold bind, set_database_id, ret, after. cbn. by rewrite !app_nil_r.
Qed.

(** Resolving twice is resolving once: on the client a first resolution
    leaves, a second one answers the same and changes nothing. *)
Lemma ensure_database_id_again srv self :
  let r := ensure_database_id srv self in
  let r' := ensure_database_id srv (client_after r) in
  value r' = value r /\ client_after r' = client_after r /\
  (value r = Ok true -> r' = (Ok true, client_after r, [])).
Proof.
  cbn zeta. destruct (id_truthy (database_id self)) eqn:Hdb.
  { rewrite (ensure_database_id_settled _ _ Hdb).
    cbn [value client_after events fst snd].
    rewrite (ensure_database_id_settled _ _ Hdb). by repeat split. }
  rewrite (ensure_database_id_unset _ _ Hdb).
  pose proof (get_database_id_unset srv self (database_id self) Hdb Hdb) as Hsame.
  rewrite with_database_id_same in Hsame. cbn zeta in Hsame.
  destruct (get_database_id srv self) as [[[id|e|] c] evs] eqn:Hrun;
    cbn [value client_after events fst snd] in *.
  - assert (Hc : with_database_id c id = with_database_id self id).
    { destruct Hsame as (_ & _ & [[-> _] | (id' & _ & -> & _)]); reflexivity. }
    rewrite Hc.
    destruct (id_truthy id) eqn:Hid.
    + rewrite ensure_database_id_settled by exact Hid. by cbn.
    + rewrite ensure_database_id_unset by exact Hid.
      pose proof (get_database_id_unset srv self id Hdb Hid) as Hx.
      cbn zeta in Hx. rewrite Hrun in Hx.
      cbn [value client_after events fst snd] in Hx.
      destruct Hx as (Hv & _ & Hcl).
      destruct (get_database_id srv (with_database_id self id)) as [[v' c'] evs'].
      cbn [value client_after events fst snd] in *. subst v'.
      assert (Hc' : with_database_id c' id = with_database_id self id).
      { destruct Hcl as [[_ ->] | (id' & _ & _ & ->)]; reflexivity. }
      rewrite Hc', Hid. cbn. by repeat split.
  - assert (c = self) as ->.
    { destruct Hsame as (_ & _ & [[-> _] | (id' & Habs & _)]); [reflexivity | discriminate]. }
    rewrite ensure_database_id_unset by exact Hdb. rewrite Hrun. cbn.
    by repeat split.
  - assert (c = self) as ->.
    { destruct Hsame as (_ & _ & [[-> _] | (id' & Habs & _)]); [reflexivity | discriminate]. }
    rewrite ensure_database_id_unset by exact Hdb. rewrite Hrun. cbn.
    by repeat split.
Qed.

(** ** The single-page executor, case by case *)

Lemma column_names_run cols self :
  column_names cols self = lift (names_of cols) self.
Proof.
  induction cols as [|[n|] rest IH]; simpl; try reflexivity.
  unfold bind. rewrite IH. by destruct (names_of rest).
Qed.

Lemma submit_query_run srv q t mr self :
  let req := dataset_request self q t mr in
  let run := submit_query srv q t mr self in
  match srv req with
  | ConnectionFailed =>
      run = (Ok None, self, [Sent req; Logged ERROR (QueryExecutionFailed RequestException)])
  | Responded code payload =>
      if http_error code then
        run = (Ok None, self, [Sent req; Logged ERROR (QueryExecutionFailed RequestException)])
      else
        match payload with
        | NotJson =>
            run = (Ok None, self,
                   [Sent req; Logged ERROR (QueryExecutionFailed RequestException)])
        | JsonOther =>
            run = (Ok None, self, [Sent req; Logged ERROR (UnexpectedError AttributeError)])
        | JsonObject obj =>
            if bool_decide (j_status obj = Some "completed") then
              exists v logs, run = (Ok v, self, Sent req :: logs) /\ Forall is_logged logs
            else
              run = (Ok None, self,
                     [Sent req; Logged ERROR (QueryFailedWithStatus (j_status obj))]
                     ++ match j_error obj with
                        | Some text => [Logged ERROR (ErrorDetails text)]
                        | None => []
                        end)
        end
  end.
Proof.
  cbn zeta. unfold submit_query, try_except, dataset_request. rewrite bind_get_self.
  rewrite bind_send. cbn zeta.
  destruct (srv _) as [|code payload]; [reflexivity|].
  unfold raise_for_status, json, as_object. cbn [fst snd].
  destruct (http_error code); [reflexivity|].
  destruct payload as [| |obj]; [reflexivity | reflexivity |].
  cbn -[bool_decide].
  destruct (bool_decide (j_status obj = Some "completed")).
  2:{ cbn. destruct (j_error obj); reflexivity. }
  cbn. unfold query_data_of.
  destruct (j_data obj) as [|dbs|d|]; cbn.
  - exists (Some {| df_columns := []; df_rows := [] |}). eexists. split; [reflexivity|].
    repeat constructor.
  - exists None. eexists. split; [reflexivity|]. repeat constructor.
  - unfold bind. rewrite column_names_run.
    destruct (names_of (q_cols d)) as [e|names]; cbn.
    { destruct (is_request_exception e); exists None; eexists;
        (split; [reflexivity|]); repeat constructor. }
    destruct (q_results_truncated d); cbn;
      (destruct (pd_DataFrame (q_rows d) names) as [e|df]; cbn;
       [ destruct (is_request_exception e); exists None | exists (Some df) ];
       eexists; (split; [reflexivity|]); repeat constructor).
  - exists None. eexists. split; [reflexivity|]. repeat constructor.
Qed.

Lemma dataset_queries_app e1 e2 :
  dataset_queries (e1 ++ e2) = dataset_queries e1 ++ dataset_queries e2.
Proof. apply omap_app. Qed.

Lemma dataset_queries_logged logs :
  Forall is_logged logs -> dataset_queries logs = [].
Proof.
  induction 1 as [|e logs He _ IH]; [reflexivity|].
  destruct e; try contradiction. exact IH.
Qed.

Lemma no_query_not_in evs r q db m1 m2 :
  Forall no_query evs -> r_method r = POST -> r_body r = QueryBody q db m1 m2 ->
  ~ In (Sent r) evs.
Proof.
  intros Hall Hm Hb Hin. rewrite Forall_forall in Hall.
  apply list_elem_of_In in Hin. specialize (Hall _ Hin).
  unfold no_query, dataset_query_of in Hall. rewrite Hm, Hb in Hall. discriminate.
Qed.

Lemma dataset_queries_no_query evs : Forall no_query evs -> dataset_queries evs = [].
Proof.
  induction 1 as [|e evs He _ IH]; [reflexivity|].
  unfold dataset_queries. cbn. unfold no_query in He. rewrite He. exact IH.
Qed.

Lemma get_database_id_no_query srv self :
  Forall no_query (events (get_database_id srv self)).
Proof.
  unfold get_database_id. rewrite bind_get_self.
  destruct (id_truthy (database_id self)); [constructor|].
  unfold try_except. rewrite bind_send. cbn zeta.
  destruct (srv _) as [|code pl]; [repeat constructor|].
  unfold bind, raise_for_status, json, as_object, databases_of. cbn [fst snd].
  destruct (http_error code); [repeat constructor|].
  destruct pl as [| |obj]; [repeat constructor | repeat constructor |].
  cbn. destruct (j_data obj) as [|dbs|d|]; cbn;
    [repeat constructor | | repeat constructor | repeat constructor].
  rewrite find_database_run.
  destruct (find _ dbs); repeat constructor.
Qed.

Lemma ensure_database_id_no_query srv self :
  Forall no_query (events (ensure_database_id srv self)).
Proof.
  destruct (id_truthy (database_id self)) eqn:Hdb.
  - rewrite ensure_database_id_settled by exact Hdb. constructor.
  - rewrite ensure_database_id_unset by exact Hdb.
    pose proof (get_database_id_no_query srv self) as H.
    by destruct (get_database_id srv self) as [[[id|e|] c] evs].
Qed.

Lemma execute_query_unauthenticated srv q t mr self :
  token_truthy (session_token self) = false ->
  execute_query srv q t mr self = (Ok None, self, [Logged ERROR NotAuthenticated]).
Proof. intros H. unfold execute_query. rewrite bind_get_self. by rewrite H. Qed.

Lemma execute_query_authenticated srv q t mr self :
  token_truthy (session_token self) = true ->
  execute_query srv q t mr self =
  match ensure_database_id srv self with
  | (Ok true, c, evs) => after evs (submit_query srv q t mr c)
  | (Ok false, c, evs) => (Ok None, c, evs)
  | (Raise e, c, evs) => (Raise e, c, evs)
  | (OutOfFuel, c, evs) => (OutOfFuel, c, evs)
  end.
Proof.
  intros H. unfold execute_query. rewrite bind_get_self. rewrite H. cbn [negb].
  unfold bind.
  destruct (ensure_database_id srv self) as [[[[|]|e|] c] evs]; try reflexivity.
  cbn. unfold after. cbn. by rewrite app_nil_r.
Qed.

(** A client that is logged in and knows its database goes straight to the
    request. *)
Lemma execute_query_settled srv q t mr self :
  token_truthy (session_token self) = true ->
  id_truthy (database_id self) = true ->
  execute_query srv q t mr self = submit_query srv q t mr self.
Proof.
  intros Htok Hdb. rewrite execute_query_authenticated by exact Htok.
  rewrite ensure_database_id_settled by exact Hdb. apply after_nil.
Qed.

Lemma submit_query_value srv q t mr self :
  exists v, value (submit_query srv q t mr self) = Ok v.
Proof.
  pose proof (submit_query_run srv q t mr self) as H. cbn zeta in H.
  destruct (srv _) as [|code pl]; [rewrite H; by eexists|].
  destruct (http_error code); [rewrite H; by eexists|].
  destruct pl as [| |obj]; try (rewrite H; by eexists).
  destruct (bool_decide _); [|rewrite H; by eexists].
  destruct H as (v & logs & -> & _). by eexists.
Qed.

Lemma submit_query_queries srv q t mr self :
  dataset_queries (events (submit_query srv q t mr self)) = [q].
Proof.
  pose proof (submit_query_run srv q t mr self) as H. cbn zeta in H.
  destruct (srv _) as [|code pl]; [by rewrite H|].
  destruct (http_error code); [by rewrite H|].
  destruct pl as [| |obj]; try (by rewrite H).
  destruct (bool_decide _).
  - destruct H as (v & logs & -> & Hlogs).
    cbn [events snd]. change (Sent ?r :: logs) with ([Sent r] ++ logs).
    rewrite dataset_queries_app, (dataset_queries_logged _ Hlogs). reflexivity.
  - rewrite H. by destruct (j_error obj).
Qed.

(** The value a query returns is the same on the client an earlier query
    has left as on the client before it. *)
Lemma execute_query_again srv q0 t0 mr0 q t mr self :
  value (execute_query srv q t mr (client_after (execute_query srv q0 t0 mr0 self)))
  = value (execute_query srv q t mr self).
Proof.
  destruct (token_truthy (session_token self)) eqn:Htok.
  2:{ by rewrite (execute_query_unauthenticated _ q0) by exact Htok. }
  pose proof (session_execute_query srv q0 t0 mr0 self) as (_ & _ & Htok').
  rewrite (execute_query_authenticated srv q t mr
             (client_after (execute_query srv q0 t0 mr0 self))) by congruence.
  rewrite (execute_query_authenticated _ q0), (execute_query_authenticated _ q)
    by exact Htok.
  pose proof (ensure_database_id_again srv self) as (Hv & Hc & Htrue). cbn zeta in *.
  destruct (ensure_database_id srv self) as [[[[|]|e|] c] evs];
    cbn [value client_after events fst snd] in *.
  - rewrite client_after_after, <- (keeps_submit_query srv q0 t0 mr0 c).
    rewrite Htrue by reflexivity. by rewrite after_nil, value_after.
  - destruct (ensure_database_id srv c) as [[v' c'] evs'].
    cbn [value client_after events fst snd] in *. by subst.
  - destruct (ensure_database_id srv c) as [[v' c'] evs'].
    cbn [value client_after events fst snd] in *. by subst.
  - destruct (ensure_database_id srv c) as [[v' c'] evs'].
    cbn [value client_after events fst snd] in *. by subst.
Qed.

(** A query that returns a frame has posted exactly its own text. *)
Lemma execute_query_some_queries srv q t mr self df :
  value (execute_query srv q t mr self) = Ok (Some df) ->
  dataset_queries (events (execute_query srv q t mr self)) = [q].
Proof.
  destruct (token_truthy (session_token self)) eqn:Htok.
  2:{ by rewrite execute_query_unauthenticated by exact Htok. }
  rewrite execute_query_authenticated by exact Htok.
  pose proof (ensure_database_id_no_query srv self) as Hq.
  destruct (ensure_database_id srv self) as [[[[|]|e|] c] evs]; try discriminate.
  intros _. rewrite events_after, dataset_queries_app, submit_query_queries.
  cbn in Hq. by rewrite (dataset_queries_no_query _ Hq).
Qed.

(** Any query posts its own text at most once and nothing else. *)
Lemma execute_query_queries srv q t mr self :
  dataset_queries (events (execute_query srv q t mr self)) = [] \/
  dataset_queries (events (execute_query srv q t mr self)) = [q].
Proof.
  destruct (token_truthy (session_token self)) eqn:Htok.
  { rewrite execute_query_authenticated by exact Htok.
    pose proof (ensure_database_id_no_query srv self) as Hq.
    destruct (ensure_database_id srv self) as [[[[|]|e|] c] evs]; cbn in Hq;
      try (left; exact (dataset_queries_no_query _ Hq)).
    right. rewrite events_after, dataset_queries_app, submit_query_queries.
    by rewrite (dataset_queries_no_query _ Hq). }
  left. by rewrite execute_query_unauthenticated by exact Htok.
Qed.

(** ** Logout *)

(** C10. [logout] never raises, whatever the server does with the request.
    On a client whose session token is set (truthy, the test [logout]
    itself makes) it sends the logout request, logs one line (success or
    warning) and leaves the token cleared and the session header removed,
    the configuration and database id untouched; on a client without a
    token it sends nothing and leaves the client as it is. *)
Theorem logout_leaves_client_unauthenticated srv self :
  let r := logout srv self in
  value r = Ok tt /\
  if token_truthy (session_token self)
  then session_token (client_after r) = None
       /\ session_header (client_after r) = None
       /\ config (client_after r) = config self
       /\ database_id (client_after r) = database_id self
       /\ exists line,
            events r = [Sent (logout_request self); line] /\
            line = match srv (logout_request self) with
                   | ConnectionFailed => Logged WARNING (LogoutWarning RequestException)
                   | Responded _ _ => Logged INFO LoggedOut
                   end
  else client_after r = self /\ events r = [].
Proof.
  cbn zeta. unfold logout. rewrite bind_get_self.
  destruct (token_truthy (session_token self)); [|by cbn].
  unfold try_finally, try_except. rewrite bind_send. cbn zeta.
  fold (logout_request self).
  destruct (srv (logout_request self)) as [|code pl]; cbn;
    (split; [reflexivity|]); repeat (split; [reflexivity|]); eexists; by split.
Qed.

(** [logout] against a server that cannot be reached: a warning is logged
    and the client is left without token and header all the same. *)
Example logout_when_server_unreachable :
  logout (fun _ => ConnectionFailed) Sample.logged_in
  = (Ok tt,
     {| config := Sample.cfg;
        session_header := None;
        session_token := None;
        database_id := Some 7 |},
     [Sent (logout_request Sample.logged_in);
      Logged WARNING (LogoutWarning RequestException)]).
Proof. reflexivity. Qed.

(** ** The two success conditions of the single-page executor *)

(** C7, counterexample. Three servers: two answer HTTP 200 with status
    ["failed"] and different error texts, one cannot be reached.  The call
    returns the same bare [None] in all three cases: what it returns
    carries neither an error kind nor the server's text. *)
Lemma execute_query_failure_returns_bare_none :
  value (execute_query
           (Sample.server Sample.database_listing
              (fun _ => Sample.failed "Code: 62. Syntax error near FROM"))
           Sample.sql 300 None Sample.logged_in) = Ok None
  /\ value (execute_query
              (Sample.server Sample.database_listing
                 (fun _ => Sample.failed "Code: 60. Table orders does not exist"))
              Sample.sql 300 None Sample.logged_in) = Ok None
  /\ value (execute_query (fun _ => ConnectionFailed)
              Sample.sql 300 None Sample.logged_in) = Ok None.
Proof. repeat split; vm_compute; reflexivity. Qed.

(** C7, as the code has it. A call returns a frame only if the server
    answered the posted query with a status outside 4xx/5xx and a payload
    whose status is ["completed"].  When the posted query is answered
    outside 4xx/5xx with any other status, the call returns [None] (no
    exception, no error value), and the server's status and, when the
    payload has one, its error text go to the error log as the last lines
    of the call. *)
Theorem execute_query_needs_transport_and_status srv q t mr self :
  let run := execute_query srv q t mr self in
  let req := dataset_request (client_after run) q t mr in
  (forall df, value run = Ok (Some df) ->
     exists code obj,
       srv req = Responded code (JsonObject obj)
       /\ http_error code = false /\ j_status obj = Some "completed")
  /\
  (forall code obj,
     In (Sent req) (events run) ->
     srv req = Responded code (JsonObject obj) ->
     http_error code = false ->
     j_status obj <> Some "completed" ->
     value run = Ok None
     /\ exists before,
          events run =
            before
            ++ [Sent req; Logged ERROR (QueryFailedWithStatus (j_status obj))]
            ++ match j_error obj with
               | Some text => [Logged ERROR (ErrorDetails text)]
               | None => []
               end).
Proof.
  cbn zeta.
  destruct (token_truthy (session_token self)) eqn:Htok.
  2:{ rewrite execute_query_unauthenticated by exact Htok.
      cbn [value client_after events fst snd]. split; [discriminate|].
      intros code obj [Habs|[]]. discriminate. }
  rewrite execute_query_authenticated by exact Htok.
  pose proof (ensure_database_id_no_query srv self) as Hq.
  destruct (ensure_database_id srv self) as [[[[|]|e|] c] evs];
    cbn [value client_after events fst snd] in *;
    try (split; [discriminate|]; intros code obj Hin; exfalso;
         revert Hin; by eapply no_query_not_in).
  rewrite client_after_after, value_after, events_after.
  rewrite <- (keeps_submit_query srv q t mr c).
  pose proof (submit_query_run srv q t mr c) as Hrun. cbn zeta in Hrun.
  split.
  - intros df Hdf. destruct (srv (dataset_request c q t mr)) as [|code pl].
    { rewrite Hrun in Hdf. discriminate. }
    destruct (http_error code) eqn:Hcode. { rewrite Hrun in Hdf. discriminate. }
    destruct pl as [| |obj]; try (rewrite Hrun in Hdf; discriminate).
    destruct (bool_decide (j_status obj = Some "completed")) eqn:Hst.
    + apply bool_decide_eq_true in Hst. by exists code, obj.
    + rewrite Hrun in Hdf. discriminate.
  - intros code obj _ Hsrv Hcode Hst. rewrite Hsrv, Hcode in Hrun.
    rewrite bool_decide_false in Hrun by exact Hst.
    rewrite Hrun. cbn [value client_after events fst snd].
    split; [reflexivity|]. by exists evs.
Qed.

(** C7, run on a server that answers HTTP 200 with status ["failed"]. *)
Lemma execute_query_needs_transport_and_status_witness :
  let srv := Sample.server Sample.database_listing
               (fun _ => Sample.failed "Code: 62. Syntax error near FROM") in
  let run := execute_query srv Sample.sql 300 None Sample.logged_in in
  value run = Ok None
  /\ exists before,
       events run =
         before
         ++ [Sent (dataset_request Sample.logged_in Sample.sql 300 None);
             Logged ERROR (QueryFailedWithStatus (Some "failed"))]
         ++ [Logged ERROR (ErrorDetails "Code: 62. Syntax error near FROM")].
Proof.
  cbn zeta.
  apply (proj2 (execute_query_needs_transport_and_status
                  (Sample.server Sample.database_listing
                     (fun _ => Sample.failed "Code: 62. Syntax error near FROM"))
                  Sample.sql 300 None Sample.logged_in) 200
               {| j_id := None; j_status := Some "failed";
                  j_error := Some "Code: 62. Syntax error near FROM";
                  j_data := NoData |}).
  - vm_compute. auto.
  - reflexivity.
  - reflexivity.
  - discriminate.
Defined.

(** ** The strategy selector *)

(** Whatever type pandas gives the count cell, an integer in it is
    formatted and compared as that integer. *)
Lemma count_read_of_total_rows count_df n :
  total_rows_of count_df = inr n ->
  exists k,
    count_read count_df = inr k
    /\ estimate_line k = inr (EstimatedRows n)
    /\ mode_for k = auto_mode n.
Proof.
  unfold total_rows_of.
  destruct (count_read count_df) as [e|k]; [discriminate|].
  destruct (whole k) as [m|] eqn:Hk; [|discriminate].
  intros [= <-]. exists k. split; [reflexivity|].
  unfold mode_for. rewrite Hk. split; [|reflexivity].
  by destruct k as [t|t|[t|]|t|s| |]; cbn in Hk |- *; try discriminate;
    injection Hk as ->.
Qed.

(** C2. When the count query of the selector returns a frame whose
    [total_rows] cell is [n], the ["auto"] mode logs the estimate and the
    mode it selected and then runs, on the client the count query left:
    the single-shot executor with ceiling 100,000 when [n <= 50,000];
    sequential pagination with page size 25,000 when
    [50,000 < n <= 500,000]; parallel pagination with page size 50,000 and
    6 workers when [n > 500,000]. *)
Theorem auto_mode_follows_thresholds fuel srv as_completed q self count_df n c1 ev1 :
  execute_query srv (count_query indent12 q) 300 (Some 1) self
    = (Ok (Some count_df), c1, ev1) ->
  total_rows_of count_df = inr n ->
  let chosen := execute_query_optimized fuel srv as_completed q "auto" self in
  let estimated :=
    ev1 ++ [Logged INFO (EstimatedRows n); Logged INFO (AutoSelected (auto_mode n))] in
  (n <= 50000 ->
     chosen = after estimated (execute_query srv q 300 (Some 100000) c1))
  /\ (50000 < n <= 500000 ->
      chosen = after estimated (execute_query_with_pagination fuel srv q 25000 c1))
  /\ (500000 < n ->
      chosen = after estimated
                 (execute_query_with_parallel_pagination srv as_completed q 50000 6 c1)).
Proof.
  intros Hcount Hn. cbn zeta.
  assert (Hrun : execute_query_optimized fuel srv as_completed q "auto" self =
    after (ev1 ++ [Logged INFO (EstimatedRows n); Logged INFO (AutoSelected (auto_mode n))])
      ((if String.eqb (auto_mode n) "single" then
          execute_query srv q 300 (Some 100000)
        else if String.eqb (auto_mode n) "pagination" then
          execute_query_with_pagination fuel srv q 25000
        else execute_query_with_parallel_pagination srv as_completed q 50000 6) c1)).
  { unfold execute_query_optimized.
    change (String.eqb "auto" "auto") with true. cbn iota.
    destruct (count_read_of_total_rows _ _ Hn) as (k & Hk & Hline & Hmode).
    unfold bind at 1. unfold bind at 1. rewrite Hcount.
    unfold bind at 1. rewrite Hk. cbn [lift ret].
    unfold bind at 1. rewrite Hline. cbn [lift ret]. rewrite Hmode.
    rewrite !bind_log, !after_after. unfold ret, after at 1.
    cbn [value client_after events fst snd]. rewrite !app_nil_r, <- !app_assoc.
    cbn [app]. unfold auto_mode.
    destruct (n <=? 50000); [reflexivity|]. destruct (n <=? 500000); reflexivity. }
  rewrite Hrun. unfold auto_mode. repeat split.
  - intros H. apply Z.leb_le in H. by rewrite H.
  - intros [H1 H2]. apply Z.leb_gt in H1. apply Z.leb_le in H2. by rewrite H1, H2.
  - intros H. assert (H1 : (n <=? 50000) = false) by (apply Z.leb_gt; lia).
    assert (H2 : (n <=? 500000) = false) by (apply Z.leb_gt; lia). by rewrite H1, H2.
Qed.

(** C2 at the four boundaries: an estimate of 50,000 runs the single-shot
    executor, 50,001 and 500,000 run sequential pagination, 500,001 runs
    parallel pagination. *)
Lemma auto_mode_follows_thresholds_witness :
  let srv n := Sample.server Sample.database_listing (Sample.counting n) in
  let self := Sample.logged_in in
  let q := Sample.sql in
  let chosen n := execute_query_optimized 40 (srv n) Sample.in_order q "auto" self in
  let estimated n :=
    events (execute_query (srv n) (count_query indent12 q) 300 (Some 1) self)
    ++ [Logged INFO (EstimatedRows n); Logged INFO (AutoSelected (auto_mode n))] in
  chosen 50000 = after (estimated 50000) (execute_query (srv 50000) q 300 (Some 100000) self)
  /\ chosen 50001 =
       after (estimated 50001) (execute_query_with_pagination 40 (srv 50001) q 25000 self)
  /\ chosen 500000 =
       after (estimated 500000) (execute_query_with_pagination 40 (srv 500000) q 25000 self)
  /\ chosen 500001 =
       after (estimated 500001)
         (execute_query_with_parallel_pagination (srv 500001) Sample.in_order q 50000 6 self).
Proof.
  cbn zeta.
  pose proof (fun n =>
    auto_mode_follows_thresholds 40
      (Sample.server Sample.database_listing (Sample.counting n)) Sample.in_order
      Sample.sql Sample.logged_in
      {| df_columns := ["total_rows"]; df_rows := [[CInt n]] |} n
      Sample.logged_in
      (events (execute_query (Sample.server Sample.database_listing (Sample.counting n))
                 (count_query indent12 Sample.sql) 300 (Some 1) Sample.logged_in))) as H.
  cbn zeta in H.
  split; [|split; [|split]].
  - apply (H 50000); [vm_compute; reflexivity | reflexivity | lia].
  - apply (H 50001); [vm_compute; reflexivity | reflexivity | lia].
  - apply (H 500000); [vm_compute; reflexivity | reflexivity | lia].
  - apply (H 500001); [vm_compute; reflexivity | reflexivity | lia].
Defined.

(** C6. When the count query of the selector returns no result, the
    ["auto"] mode logs a warning and runs parallel pagination (page size
    50,000, 6 workers) on the client the count query left. *)
Theorem estimation_failure_selects_parallel fuel srv as_completed q self c1 ev1 :
  execute_query srv (count_query indent12 q) 300 (Some 1) self = (Ok None, c1, ev1) ->
  execute_query_optimized fuel srv as_completed q "auto" self =
  after (ev1 ++ [Logged WARNING CouldNotEstimate])
    (execute_query_with_parallel_pagination srv as_completed q 50000 6 c1).
Proof.
  intros Hcount. unfold execute_query_optimized.
  change (String.eqb "auto" "auto") with true. cbn iota.
  unfold bind at 1. unfold bind at 1. rewrite Hcount.
  rewrite bind_log, !after_after. unfold ret, after at 1.
  cbn [value client_after events fst snd]. rewrite !app_nil_r. reflexivity.
Qed.

(** C6 on a server that rejects every query. *)
Lemma estimation_failure_selects_parallel_witness :
  let srv := Sample.server Sample.database_listing
               (fun _ => Sample.failed "Code: 241. Memory limit exceeded") in
  let counted :=
    execute_query srv (count_query indent12 Sample.sql) 300 (Some 1) Sample.logged_in in
  value counted = Ok None
  /\ execute_query_optimized 40 srv Sample.last_first Sample.sql "auto" Sample.logged_in =
     after (events counted ++ [Logged WARNING CouldNotEstimate])
       (execute_query_with_parallel_pagination srv Sample.last_first Sample.sql 50000 6
          Sample.logged_in).
Proof.
  cbn zeta. split; [vm_compute; reflexivity|].
  apply estimation_failure_selects_parallel. vm_compute. reflexivity.
Defined.

(** ** Page tasks *)

Lemma returns_only_ret {A} (P : A -> Prop) a : P a -> returns_only P (ret a).
Proof. intros H c a' [= <-]. exact H. Qed.

Lemma returns_only_bind {A B} (P : B -> Prop) (m : M A) (f : A -> M B) :
  (forall a, returns_only P (f a)) -> returns_only P (bind m f).
Proof.
  intros Hf c b. unfold bind.
  destruct (m c) as [[[a|e|] c'] evs]; try discriminate.
  rewrite value_after. apply Hf.
Qed.

(** A page task never raises and hands back the page number it was given. *)
Lemma fetch_page_value srv self q p k :
  value (fetch_page srv self q p k) = Ok (page_outcome srv self q p k, k).
Proof.
  assert (H : exists o, value (fetch_page srv self q p k) = Ok (o, k)).
  { unfold fetch_page, fetch_page_on_thread_client.
    set (body := bind (authenticate srv) _).
    assert (Htame : tame body) by (subst body; tame_solve).
    assert (Hret : returns_only (fun r : option DataFrame * nat => snd r = k) body).
    { subst body. apply returns_only_bind. intros [|]; cbn [negb].
      - apply returns_only_bind. intros df. apply returns_only_bind. intros _.
        destruct df as [page|]; [destruct (0 <? len page)|]; by apply returns_only_ret.
      - by apply returns_only_ret. }
    unfold try_except.
    destruct (Htame (new_client (config self))) as [Hfuel _].
    specialize (Hret (new_client (config self))).
    destruct (body (new_client (config self))) as [[[[o k']|e|] c'] evs].
    - specialize (Hret _ eq_refl). cbn in Hret. subst k'. by exists o.
    - by exists None.
    - by destruct Hfuel. }
  destruct H as [o Ho]. unfold page_outcome. by rewrite Ho.
Qed.

(** ** Collecting the futures *)

Lemma submitted_app e1 e2 : submitted (e1 ++ e2) = submitted e1 ++ submitted e2.
Proof. apply omap_app. Qed.

Lemma submitted_in_worker k evs : submitted (map (InWorker k) evs) = [].
Proof. induction evs as [|e evs IH]; [reflexivity | exact IH]. Qed.

Lemma submitted_plain evs : Forall (fun e => plain e = true) evs -> submitted evs = [].
Proof.
  induction 1 as [|e evs He _ IH]; [reflexivity|].
  destruct e; try discriminate; exact IH.
Qed.

Lemma submitted_map_Submitted ks : submitted (map Submitted ks) = ks.
Proof. induction ks as [|k ks IH]; [reflexivity|]. unfold submitted in *. cbn. by rewrite IH. Qed.

(** When every future carries the page it was submitted for and that page
    has a slot, the collection loop raises nothing, leaves the client
    alone and fills the slots future by future. *)
Lemma collect_run total_pages completed slots successful self :
  (forall k fut, In (k, fut) completed ->
     exists o, value fut = Ok (o, k) /\ (k < length slots)%nat) ->
  exists successful' evs,
    collect total_pages completed slots successful self
      = (Ok (foldl place slots completed, successful'), self, evs)
    /\ submitted evs = [].
Proof.
  revert slots successful.
  induction completed as [|[k fut] rest IH]; intros slots successful Hall.
  { by exists successful, []. }
  destruct (Hall k fut (or_introl eq_refl)) as (o & Ho & Hk).
  cbn [collect foldl]. unfold place at 2. cbn [snd]. rewrite Ho.
  destruct o as [df|].
  - unfold store. apply Nat.ltb_lt in Hk. rewrite Hk.
    destruct (IH (<[k := Some df]> slots) (S successful)) as (s' & evs & Hrun & Hsub).
    { intros k' fut' Hin. rewrite length_insert. apply Hall. by right. }
    exists s'. eexists. unfold bind, emit, ret, log. cbn [fst snd].
    rewrite Hrun. unfold after. cbn [value client_after events fst snd].
    split; [reflexivity|].
    rewrite !submitted_app, submitted_in_worker, Hsub. reflexivity.
  - destruct (IH slots successful) as (s' & evs & Hrun & Hsub).
    { intros k' fut' Hin. apply Hall. by right. }
    exists s'. eexists. unfold bind, emit, ret, log. cbn [fst snd].
    rewrite Hrun. unfold after. cbn [value client_after events fst snd].
    split; [reflexivity|].
    rewrite !submitted_app, submitted_in_worker, Hsub. reflexivity.
Qed.

(** The slot of page [i] after the collection: the frame of its future if
    the future is among the completed ones and succeeded, otherwise what
    the slot held before. *)
Lemma foldl_place_lookup (outcome : nat -> option DataFrame) completed slots i :
  NoDup (map fst completed) ->
  (forall k fut, In (k, fut) completed ->
     value fut = Ok (outcome k, k) /\ (k < length slots)%nat) ->
  foldl place slots completed !! i =
  if decide (i ∈ map fst completed)
  then match outcome i with
       | Some df => Some (Some df)
       | None => slots !! i
       end
  else slots !! i.
Proof.
  revert slots. induction completed as [|[k fut] rest IH]; intros slots Hnodup Hall.
  { cbn. by rewrite decide_False by apply not_elem_of_nil. }
  cbn [map fst] in Hnodup. apply NoDup_cons in Hnodup as [Hk Hnodup].
  destruct (Hall k fut (or_introl eq_refl)) as [Hfut Hlen].
  assert (Hplace : forall j, place slots (k, fut) !! j =
                     if decide (j = k)
                     then match outcome k with
                          | Some df => Some (Some df)
                          | None => slots !! k
                          end
                     else slots !! j).
  { intros j. unfold place. cbn [snd]. rewrite Hfut.
    destruct (outcome k) as [df|]; destruct (decide (j = k)) as [->|Hne]; try reflexivity.
    - by apply list_lookup_insert_eq.
    - by apply list_lookup_insert_ne. }
  assert (Hlen' : length (place slots (k, fut)) = length slots).
  { unfold place. cbn [snd]. rewrite Hfut.
    destruct (outcome k); [apply length_insert | reflexivity]. }
  cbn [foldl]. rewrite IH; [|exact Hnodup|].
  2:{ intros k' fut' Hin. rewrite Hlen'. apply Hall. by right. }
  cbn [map fst]. rewrite Hplace.
  destruct (decide (i ∈ k :: map fst rest)) as [Hin'|Hout'];
    destruct (decide (i ∈ map fst rest)) as [Hin|Hout];
    destruct (decide (i = k)) as [->|Hne]; try reflexivity; try contradiction;
    try (by destruct (outcome i)); exfalso;
    first [ apply Hout'; apply list_elem_of_here
          | apply Hout'; by apply list_elem_of_further
          | apply elem_of_cons in Hin' as [?|?]; contradiction ].
Qed.

Lemma omap_lookup_from {A} (before l : list A) :
  omap (fun i => (before ++ l) !! i) (seq (length before) (length l)) = l.
Proof.
  revert before. induction l as [|x l IH]; intros before; [reflexivity|].
  assert (Hx : (before ++ x :: l) !! length before = Some x).
  { rewrite lookup_app_r by lia. by rewrite Nat.sub_diag. }
  specialize (IH (before ++ [x])).
  rewrite <- app_assoc, length_app, Nat.add_1_r in IH.
  cbn [length seq]. rewrite <- IH at 2.
  change (omap ?f (?a :: ?r)) with (match f a with Some y => y :: omap f r | None => omap f r end).
  cbn beta. by rewrite Hx.
Qed.

Lemma omap_lookup_all {A} (l : list A) :
  omap (fun i => l !! i) (seq 0 (length l)) = l.
Proof. exact (omap_lookup_from [] l). Qed.

Lemma valid_frames_map (outcome : nat -> option DataFrame) ks :
  valid_frames (map outcome ks) = omap outcome ks.
Proof.
  unfold valid_frames. induction ks as [|k ks IH]; [reflexivity|].
  cbn. rewrite IH. by destruct (outcome k).
Qed.

(** Whatever the completion order, the slot array ends up holding, at each
    page number, the outcome of that page. *)
Lemma slots_after_collect (fut : nat -> Run (option DataFrame * nat))
    (outcome : nat -> option DataFrame) (n : nat) completed :
  Permutation completed (map (fun k => (k, fut k)) (seq 0 n)) ->
  (forall k, value (fut k) = Ok (outcome k, k)) ->
  foldl place (replicate n None) completed = map outcome (seq 0 n).
Proof.
  intros Hperm Hfut.
  assert (Hkeys : Permutation (map fst completed) (seq 0 n)).
  { rewrite Hperm, map_map. cbn. by rewrite map_id. }
  apply list_eq. intros i.
  rewrite (foldl_place_lookup outcome).
  - destruct (decide (i ∈ map fst completed)) as [Hin|Hout].
    + rewrite Hkeys in Hin. apply elem_of_seq in Hin.
      rewrite lookup_replicate_2 by lia.
      change (map outcome (seq 0 n)) with (outcome <$> seq 0 n).
      rewrite list_lookup_fmap, lookup_seq_lt by lia. cbn.
      by destruct (outcome i).
    + rewrite Hkeys in Hout. rewrite elem_of_seq in Hout.
      rewrite (proj1 (lookup_replicate_None _ _ _)) by lia.
      change (map outcome (seq 0 n)) with (outcome <$> seq 0 n).
      rewrite list_lookup_fmap, lookup_seq_ge by lia. reflexivity.
  - rewrite Hkeys. apply NoDup_seq.
  - intros k f Hin. apply list_elem_of_In in Hin. rewrite Hperm in Hin.
    apply list_elem_of_In, in_map_iff in Hin as (k' & [= <- <-] & Hk').
    split; [apply Hfut|].
    rewrite length_replicate. apply in_seq in Hk'. lia.
Qed.

(** ** The parallel engine *)

Lemma wrap_int64_small z : in_int64 z = true -> wrap_int64 z = z.
Proof.
  unfold in_int64, wrap_int64, int64_min, int64_max, uint64_max.
  intros H. apply andb_true_iff in H as [Hlo Hhi].
  apply Z.leb_le in Hlo, Hhi. rewrite Z.mod_small by lia. lia.
Qed.

(** A sum that has wrapped around comes back when the difference fits. *)
Lemma wrap_int64_minus a b : wrap_int64 (wrap_int64 a - b) = wrap_int64 (a - b).
Proof.
  unfold wrap_int64. f_equal.
  replace ((a - int64_min) mod (uint64_max + 1) + int64_min - b - int64_min)
    with ((a - int64_min) mod (uint64_max + 1) - b) by lia.
  rewrite Zminus_mod_idemp_l. f_equal. lia.
Qed.

Lemma in_int64_bounds z : in_int64 z = true <-> int64_min <= z <= int64_max.
Proof.
  unfold in_int64. rewrite andb_true_iff, !Z.leb_le. tauto.
Qed.

Lemma omap_pointwise {A B} (f g : A -> option B) (l : list A) :
  (forall x, f x = g x) -> omap f l = omap g l.
Proof.
  intros H. induction l as [|x l IH]; [reflexivity|]. cbn. by rewrite H, IH.
Qed.

(** A page task is built from the configuration of the caller alone. *)
Lemma page_outcome_config srv a b q p k :
  config a = config b -> page_outcome srv a q p k = page_outcome srv b q p k.
Proof. intros H. unfold page_outcome, fetch_page. by rewrite H. Qed.

(** A pool without workers is refused before any task is submitted. *)
Lemma fetch_all_pages_without_workers srv as_completed q p mw total_pages self :
  mw <= 0 ->
  fetch_all_pages srv as_completed q p mw total_pages self = (Raise ValueError, self, []).
Proof.
  intros Hmw. unfold fetch_all_pages. rewrite bind_get_self.
  unfold thread_pool. by rewrite (proj2 (Z.leb_le mw 0)) by lia.
Qed.

(** With a pool of at least one worker, the second half submits the
    pages [0 .. n-1] in order and leaves the client alone; when the
    scheduler is fair it ends as the concatenation of the successful pages
    in page order does, or with [None] when no page succeeded. *)
Lemma fetch_all_pages_run srv as_completed q p mw total_pages self :
  0 < mw ->
  let n := Z.to_nat total_pages in
  let valid := omap (page_outcome srv self q p) (seq 0 n) in
  exists v evs,
    fetch_all_pages srv as_completed q p mw total_pages self = (v, self, evs)
    /\ submitted evs = seq 0 n
    /\ (fair as_completed -> v = concat_outcome valid).
Proof.
  intros Hmw. cbn zeta.
  set (n := Z.to_nat total_pages).
  unfold fetch_all_pages. rewrite bind_get_self. fold n.
  unfold thread_pool. rewrite (proj2 (Z.leb_gt mw 0)) by lia. rewrite bind_ret.
  set (futures := map (fun k => (k, fetch_page srv self q p k)) (seq 0 n)).
  assert (Hlen : length futures = n).
  { subst futures. by rewrite length_map, length_seq. }
  set (completed := omap (fun i => futures !! i) (as_completed (length futures))).
  assert (Hsubset : forall x, In x completed -> In x futures).
  { intros x Hin. apply list_elem_of_In in Hin. subst completed.
    apply list_elem_of_omap in Hin as (i & _ & Hi).
    apply list_elem_of_In. by eapply list_elem_of_lookup_2. }
  destruct (collect_run total_pages completed (replicate n None) 0%nat self)
    as (successful & evs & Hrun & Hsub).
  { intros k fut Hin. apply Hsubset, in_map_iff in Hin as (k' & [= <- <-] & Hk').
    exists (page_outcome srv self q p k'). split; [apply fetch_page_value|].
    rewrite length_replicate. apply in_seq in Hk'. lia. }
  assert (Hslots : fair as_completed ->
            foldl place (replicate n None) completed
            = map (page_outcome srv self q p) (seq 0 n)).
  { intros Hfair.
    apply (slots_after_collect (fetch_page srv self q p)); [|intros k; apply fetch_page_value].
    assert (Hall : omap (fun i => futures !! i) (seq 0 n) = futures).
    { rewrite <- Hlen. apply omap_lookup_all. }
    subst completed. rewrite Hlen, (Hfair n), Hall. reflexivity. }
  assert (Hcount : forall tail,
            submitted (map Submitted (seq 0 n) ++ evs ++ tail) = seq 0 n ++ submitted tail).
  { intros tail. by rewrite !submitted_app, submitted_map_Submitted, Hsub. }
  unfold bind at 1. unfold emit at 1. unfold bind at 1. rewrite Hrun.
  cbn [fst snd].
  destruct (valid_frames (foldl place (replicate n None) completed))
    as [|first rest] eqn:Hvalid.
  - exists (Ok None). eexists. split; [reflexivity|]. split.
    + cbn [events snd]. rewrite events_after, Hcount. cbn. by rewrite app_nil_r.
    + intros Hfair. rewrite (Hslots Hfair), valid_frames_map in Hvalid.
      by rewrite Hvalid.
  - destruct (pd_concat (first :: rest)) as [e|df] eqn:Hconcat.
    + exists (Raise e). eexists. split; [reflexivity|]. split.
      * cbn [events snd]. rewrite events_after, Hcount. cbn. by rewrite app_nil_r.
      * intros Hfair. rewrite (Hslots Hfair), valid_frames_map in Hvalid.
        rewrite Hvalid. unfold concat_outcome. by rewrite Hconcat.
    + exists (Ok (Some df)). eexists. split; [reflexivity|]. split.
      * cbn [events snd]. rewrite events_after, Hcount. cbn. by rewrite app_nil_r.
      * intros Hfair. rewrite (Hslots Hfair), valid_frames_map in Hvalid.
        rewrite Hvalid. unfold concat_outcome. by rewrite Hconcat.
Qed.

Lemma fetch_all_pages_keeps_client srv as_completed q p mw total_pages self :
  client_after (fetch_all_pages srv as_completed q p mw total_pages self) = self.
Proof.
  destruct (Z_le_gt_dec mw 0) as [Hmw|Hmw].
  - by rewrite fetch_all_pages_without_workers.
  - destruct (fetch_all_pages_run srv as_completed q p mw total_pages self ltac:(lia))
      as (v & evs & -> & _). reflexivity.
Qed.

Lemma execute_query_plain srv q t mr self c1 v ev1 :
  execute_query srv q t mr self = (v, c1, ev1) ->
  Forall (fun e => plain e = true) ev1.
Proof.
  intros H. destruct (tame_execute_query srv q t mr self) as [_ He].
  by rewrite H in He.
Qed.

Lemma submitted_after {A} evs (r : Run A) :
  submitted (events (after evs r)) = submitted evs ++ submitted (events r).
Proof. by rewrite events_after, submitted_app. Qed.

Lemma omap_lookup_nil {A} (l : list nat) : omap (fun i => (@nil A) !! i) l = [].
Proof. induction l as [|i l IH]; [reflexivity | exact IH]. Qed.

(** Without pages the second half only reports that nothing came back. *)
Lemma fetch_all_pages_of_no_page srv as_completed q p mw total_pages self :
  0 < mw -> total_pages <= 0 ->
  fetch_all_pages srv as_completed q p mw total_pages self
  = (Ok None, self, [Logged ERROR NoDataFromAnyPage]).
Proof.
  intros Hmw Hpages. unfold fetch_all_pages. rewrite bind_get_self.
  unfold thread_pool. rewrite (proj2 (Z.leb_gt mw 0)) by lia. rewrite bind_ret.
  replace (Z.to_nat total_pages) with 0%nat by lia.
  cbn [seq map replicate length]. by rewrite omap_lookup_nil.
Qed.

(** A call that hands no page task to the pool returns no table but the
    empty one of a count of zero. *)
Lemma parallel_without_tasks srv as_completed q p mw self :
  let r := execute_query_with_parallel_pagination srv as_completed q p mw self in
  submitted (events r) = [] ->
  forall df, value r = Ok (Some df) -> df = empty_frame.
Proof.
  cbn zeta. unfold execute_query_with_parallel_pagination. rewrite bind_log.
  destruct (tame_execute_query srv (count_query indent8 q) 300 (Some 1) self)
    as [Hfuel _].
  destruct (execute_query srv (count_query indent8 q) 300 (Some 1) self)
    as [[v c1] ev1] eqn:Hcount.
  cbn [value fst] in Hfuel.
  destruct v as [[count_df|]|e|]; [| | |by destruct Hfuel].
  2:{ rewrite (bind_ok _ _ _ _ _ _ Hcount), bind_log, after_ret, !value_after.
      intros _ df. discriminate. }
  2:{ rewrite (bind_raise _ _ _ _ _ _ Hcount), value_after. intros _ df. discriminate. }
  rewrite (bind_ok _ _ _ _ _ _ Hcount), !value_after.
  destruct (count_read count_df) as [e|total_rows]; [intros _ df; discriminate|].
  cbn [lift]. rewrite bind_ret.
  destruct (page_count total_rows p) as [e|total_pages]; [intros _ df; discriminate|].
  cbn [lift]. rewrite bind_ret, bind_log, value_after.
  destruct (count_is_zero total_rows); [intros _ df [= <-]; reflexivity|].
  destruct total_pages as [n|]; [|intros _ df; discriminate].
  rewrite !submitted_after. intros Hnone df.
  apply app_eq_nil in Hnone as [_ Hnone]. apply app_eq_nil in Hnone as [_ Hnone].
  apply app_eq_nil in Hnone as [_ Hnone].
  destruct (Z_le_gt_dec mw 0) as [Hmw|Hmw].
  { by rewrite fetch_all_pages_without_workers by exact Hmw. }
  destruct (fetch_all_pages_run srv as_completed q p mw n c1 ltac:(lia))
    as (v & evs & Hrun & Hsub & _).
  rewrite Hrun in Hnone. cbn [events snd] in Hnone. rewrite Hsub in Hnone.
  assert (Hn : n <= 0).
  { destruct (Z.to_nat n) eqn:Hz; [lia | discriminate]. }
  by rewrite fetch_all_pages_of_no_page by lia.
Qed.

(** The engine either ends before the pool is created, and then no page
    task exists, or it is its second half on the client the count query
    left, whose configuration is that of the caller. *)
Lemma parallel_shape srv as_completed q p mw self :
  let r := execute_query_with_parallel_pagination srv as_completed q p mw self in
  (submitted (events r) = []
   /\ client_after r
      = client_after (execute_query srv (count_query indent8 q) 300 (Some 1) self))
  \/ exists pre n,
       r = after pre
             (fetch_all_pages srv as_completed q p mw n
                (client_after
                   (execute_query srv (count_query indent8 q) 300 (Some 1) self)))
       /\ submitted pre = [].
Proof.
  cbn zeta. unfold execute_query_with_parallel_pagination. rewrite bind_log.
  destruct (tame_execute_query srv (count_query indent8 q) 300 (Some 1) self)
    as [Hfuel Hplain].
  destruct (execute_query srv (count_query indent8 q) 300 (Some 1) self)
    as [[v c1] ev1] eqn:Hcount.
  cbn [value events client_after fst snd] in Hfuel, Hplain |- *.
  apply submitted_plain in Hplain.
  assert (Hquiet : forall (v : Res (option DataFrame)) c lines,
            Forall is_logged lines ->
            submitted (events (after [Logged INFO (ParallelStart mw)]
                                 (after ev1 (v, c, lines)))) = []).
  { intros v' c lines Hlines. rewrite !submitted_after. cbn [events snd].
    rewrite Hplain. cbn. apply submitted_plain.
    eapply Forall_impl; [exact Hlines|]. by intros [] H. }
  destruct v as [[count_df|]|e|]; [| | |by destruct Hfuel].
  2:{ left. rewrite (bind_ok _ _ _ _ _ _ Hcount), bind_log, after_ret.
      split; [apply Hquiet; repeat constructor | reflexivity]. }
  2:{ left. rewrite (bind_raise _ _ _ _ _ _ Hcount).
      split; [|reflexivity]. rewrite submitted_after. cbn. exact Hplain. }
  rewrite (bind_ok _ _ _ _ _ _ Hcount).
  destruct (count_read count_df) as [e|total_rows].
  { left. split; [apply Hquiet; constructor | reflexivity]. }
  cbn [lift]. rewrite bind_ret.
  destruct (page_count total_rows p) as [e|total_pages].
  { left. split; [apply Hquiet; constructor | reflexivity]. }
  cbn [lift]. rewrite bind_ret, bind_log.
  destruct (count_is_zero total_rows).
  { left. rewrite after_ret. split; [apply Hquiet; repeat constructor | reflexivity]. }
  destruct total_pages as [n|].
  - right. eexists _, n. rewrite !after_after. split; [reflexivity|].
    rewrite !submitted_app. cbn. by rewrite Hplain.
  - left. split; [|reflexivity].
    change (after [Logged INFO (totals_line total_rows PagesInexact p)]
              (raise TypeError c1))
      with (@Raise (option DataFrame) TypeError, c1,
            [Logged INFO (totals_line total_rows PagesInexact p)] ++ []).
    apply Hquiet. repeat constructor.
Qed.

(** What a fetch that handed page tasks to the pool comes to, under a
    fair scheduler: the tasks are those of the pages [0 .. n-1] and the
    call ends as the concatenation of the successful pages in page order
    does. *)
Lemma parallel_dispatched srv as_completed q p mw self :
  fair as_completed ->
  let r := execute_query_with_parallel_pagination srv as_completed q p mw self in
  submitted (events r) <> [] ->
  submitted (events r) = seq 0 (length (submitted (events r)))
  /\ value r = concat_outcome (omap (page_outcome srv self q p) (submitted (events r))).
Proof.
  intros Hfair. cbn zeta. intros Hsome.
  destruct (parallel_shape srv as_completed q p mw self)
    as [[Hnone _]|(pre & n & Hr & Hpre)]; [contradiction|].
  cbn zeta in Hr. rewrite Hr in Hsome |- *.
  rewrite submitted_after, Hpre in Hsome |- *. cbn [app] in Hsome |- *.
  rewrite value_after.
  set (c1 := client_after (execute_query srv (count_query indent8 q) 300 (Some 1) self))
    in *.
  assert (Hcfg : config c1 = config self)
    by apply (session_execute_query srv (count_query indent8 q) 300 (Some 1) self).
  destruct (Z_le_gt_dec mw 0) as [Hmw|Hmw].
  { rewrite fetch_all_pages_without_workers in Hsome by exact Hmw. by destruct Hsome. }
  destruct (fetch_all_pages_run srv as_completed q p mw n c1 ltac:(lia))
    as (v & evs & Hrun & Hsub & Hv).
  rewrite Hrun. cbn [value events fst snd]. rewrite Hsub, length_seq.
  split; [reflexivity|]. rewrite (Hv Hfair). f_equal.
  apply omap_pointwise. intros k. by apply page_outcome_config.
Qed.

(** The first half: once the count query has returned an answer that
    reads as the 64-bit integer [t], for a page size that fits 64 bits. *)
Lemma parallel_after_count srv as_completed q p mw self count_df t c1 ev1 :
  execute_query srv (count_query indent8 q) 300 (Some 1) self
    = (Ok (Some count_df), c1, ev1) ->
  counts count_df t ->
  in_int64 p = true ->
  let n := if p =? 0 then 0
           else wrap_int64 (wrap_int64 (wrap_int64 (t + p) - 1) / p) in
  execute_query_with_parallel_pagination srv as_completed q p mw self =
  after (Logged INFO (ParallelStart mw) :: ev1 ++ [Logged INFO (TotalsComputed t n p)])
    (if t =? 0 then (Ok (Some empty_frame), c1, [])
     else fetch_all_pages srv as_completed q p mw n c1).
Proof.
  intros Hcount [_ Ht] Hp. cbn zeta. unfold execute_query_with_parallel_pagination.
  rewrite bind_log. unfold bind at 1. rewrite Hcount.
  unfold bind at 1. rewrite Ht. cbn [lift ret].
  unfold page_count. rewrite Hp. cbn [lift]. rewrite bind_ret.
  cbn [totals_line whole]. rewrite bind_log, !after_after.
  rewrite app_nil_r. cbn [app]. unfold count_is_zero. cbn [whole].
  by destruct (t =? 0).
Qed.

(** Within 64 bits the page count is the exact quotient. *)
Lemma page_total_exact t p :
  0 < t -> 0 < p -> t + p - 1 <= int64_max ->
  in_int64 p = true
  /\ (if p =? 0 then 0 else wrap_int64 (wrap_int64 (wrap_int64 (t + p) - 1) / p))
     = (t + p - 1) / p
  /\ 1 <= (t + p - 1) / p.
Proof.
  intros Ht Hp Hmax.
  assert (Hq : 1 <= (t + p - 1) / p) by (apply Z.div_le_lower_bound; lia).
  assert (Hle : (t + p - 1) / p <= t + p - 1).
  { apply Z.div_le_upper_bound; [lia|]. nia. }
  assert (Hin : forall z, 0 <= z <= int64_max -> in_int64 z = true).
  { intros z Hz. apply in_int64_bounds. unfold int64_min, int64_max in *. lia. }
  split; [apply Hin; unfold int64_max in *; lia|]. split; [|exact Hq].
  rewrite (proj2 (Z.eqb_neq p 0)) by lia.
  rewrite wrap_int64_minus, (wrap_int64_small (t + p - 1)) by (apply Hin; lia).
  apply wrap_int64_small, Hin. lia.
Qed.

(** C9, counterexample. NumPy converts the page size to the type of the
    count before it adds: a page size of [2^63] does not fit
    [numpy.int64], and the engine raises [OverflowError] on a count of
    zero rows instead of returning the empty table. *)
Lemma parallel_of_zero_rows_with_wide_page_size_raises :
  let srv := Sample.server Sample.database_listing (Sample.counting 0) in
  let r := execute_query_with_parallel_pagination srv Sample.in_order
             Sample.sql 9223372036854775808 6 Sample.logged_in in
  value (execute_query srv (count_query indent8 Sample.sql) 300 (Some 1) Sample.logged_in)
  = Ok (Some {| df_columns := ["total_rows"]; df_rows := [[CInt 0]] |})
  /\ value r = Raise OverflowError.
Proof. cbn zeta. split; vm_compute; reflexivity. Qed.

(** C9, as the code has it. When the count query of the parallel engine
    returns an answer that reads as the integer [0] and the page size fits
    a signed 64-bit integer (zero included), the call returns the empty
    table [pd.DataFrame()], not [None], and everything it leaves behind is
    a request or a log line of the calling thread: no page task is
    submitted and no worker runs. *)
Theorem parallel_of_zero_rows_is_empty_table
    srv as_completed q p mw self count_df c1 ev1 :
  execute_query srv (count_query indent8 q) 300 (Some 1) self
    = (Ok (Some count_df), c1, ev1) ->
  counts count_df 0 ->
  int64_min <= p <= int64_max ->
  let r := execute_query_with_parallel_pagination srv as_completed q p mw self in
  value r = Ok (Some empty_frame)
  /\ submitted (events r) = []
  /\ Forall (fun e => plain e = true) (events r).
Proof.
  intros Hcount Ht Hp. cbn zeta. apply in_int64_bounds in Hp.
  rewrite (parallel_after_count _ _ _ _ _ _ _ _ _ _ Hcount Ht Hp). cbn zeta.
  change (0 =? 0) with true. cbn iota.
  match goal with
  | |- context [after ?evs _] =>
      assert (Hplain : Forall (fun e => plain e = true) evs)
  end.
  { constructor; [reflexivity|]. apply Forall_app. split.
    - exact (execute_query_plain _ _ _ _ _ _ _ _ Hcount).
    - by repeat constructor. }
  rewrite value_after, events_after. cbn [value events fst snd]. rewrite app_nil_r.
  split; [reflexivity|]. split; [|exact Hplain].
  by apply submitted_plain.
Qed.

(** C9 on a table without rows, with the default page size and with a
    page size of zero. *)
Lemma parallel_of_zero_rows_is_empty_table_witness :
  let srv := Sample.server Sample.database_listing (Sample.counting 0) in
  let r p := execute_query_with_parallel_pagination srv Sample.last_first
               Sample.sql p 6 Sample.logged_in in
  (value (r 50000) = Ok (Some empty_frame) /\ submitted (events (r 50000)) = [])
  /\ (value (r 0) = Ok (Some empty_frame) /\ submitted (events (r 0)) = []).
Proof.
  cbn zeta.
  pose proof (fun p Hp =>
    parallel_of_zero_rows_is_empty_table
      (Sample.server Sample.database_listing (Sample.counting 0))
      Sample.last_first Sample.sql p 6 Sample.logged_in
      {| df_columns := ["total_rows"]; df_rows := [[CInt 0]] |}
      Sample.logged_in
      (events (execute_query (Sample.server Sample.database_listing (Sample.counting 0))
                 (count_query indent8 Sample.sql) 300 (Some 1) Sample.logged_in))
      ltac:(vm_compute; reflexivity) ltac:(split; reflexivity) Hp) as H.
  cbn zeta in H. split.
  - destruct (H 50000 ltac:(unfold int64_min, int64_max; lia)) as (Hv & Hs & _). by split.
  - destruct (H 0 ltac:(unfold int64_min, int64_max; lia)) as (Hv & Hs & _). by split.
Defined.

(** The whole engine once the count query has returned an answer that
    reads as [t > 0], for a page size [p > 0] with [t + p - 1] within 64
    bits and a pool of at least one worker. *)
Lemma parallel_pages_run srv as_completed q p mw self count_df t c1 ev1 :
  execute_query srv (count_query indent8 q) 300 (Some 1) self
    = (Ok (Some count_df), c1, ev1) ->
  counts count_df t ->
  0 < t -> 0 < p -> t + p - 1 <= int64_max -> 0 < mw ->
  let r := execute_query_with_parallel_pagination srv as_completed q p mw self in
  let n := Z.to_nat ((t + p - 1) / p) in
  let valid := omap (page_outcome srv c1 q p) (seq 0 n) in
  submitted (events r) = seq 0 n
  /\ (fair as_completed -> value r = concat_outcome valid).
Proof.
  intros Hcount Ht Ht0 Hp Hmax Hmw. cbn zeta.
  destruct (page_total_exact t p Ht0 Hp Hmax) as (Hpin & Hn & _).
  rewrite (parallel_after_count _ _ _ _ _ _ _ _ _ _ Hcount Ht Hpin). cbn zeta.
  rewrite Hn, (proj2 (Z.eqb_neq t 0)) by lia.
  destruct (fetch_all_pages_run srv as_completed q p mw ((t + p - 1) / p) c1 Hmw)
    as (v & evs & Hrun & Hsub & Hv).
  rewrite Hrun, events_after, value_after. cbn [value events fst snd]. split.
  - change (Logged ?l ?m :: ?a ++ ?b) with ([Logged l m] ++ a ++ b).
    rewrite !submitted_app, Hsub.
    rewrite (submitted_plain ev1) by exact (execute_query_plain _ _ _ _ _ _ _ _ Hcount).
    reflexivity.
  - exact Hv.
Qed.

(** C5, counterexample. The page count is computed on [numpy.int64]: for
    a count of [2^63 - 1] rows and pages of [2^62] rows the sum wraps
    around, the page count is negative and no page task is dispatched,
    where the exact quotient is 2.  And a pool without workers is refused
    before any task is handed over, whatever the count. *)
Lemma parallel_page_count_wraps_around :
  let wide := Sample.server Sample.database_listing
                (Sample.counting 9223372036854775807) in
  let r := execute_query_with_parallel_pagination wide Sample.in_order
             Sample.sql 4611686018427387904 6 Sample.logged_in in
  let small := Sample.server Sample.database_listing (Sample.counting 600000) in
  let r0 := execute_query_with_parallel_pagination small Sample.in_order
              Sample.sql 50000 0 Sample.logged_in in
  (value (execute_query wide (count_query indent8 Sample.sql) 300 (Some 1)
            Sample.logged_in)
   = Ok (Some {| df_columns := ["total_rows"];
                 df_rows := [[CInt 9223372036854775807]] |})
   /\ (9223372036854775807 + 4611686018427387904 - 1) / 4611686018427387904 = 2
   /\ submitted (events r) = []
   /\ value r = Ok None)
  /\ (submitted (events r0) = [] /\ value r0 = Raise ValueError).
Proof. cbn zeta. repeat split; vm_compute; reflexivity. Qed.

(** C5, as the code has it. When the count query of the parallel engine
    returns an answer that reads as [t > 0] rows, the page size is
    [p > 0], the sum [t + p - 1] stays within a signed 64-bit integer and
    the pool has at least one worker, the page tasks handed to the pool
    are the pages [0, 1, ..., n-1] with [n = (t + p - 1) div p], and [n] is
    the ceiling of [t / p]: the least number of pages of [p] rows that hold
    [t] rows.  For [t = 600,000] and [p = 50,000] that is 12 tasks. *)
Theorem parallel_dispatches_ceiling_of_pages
    srv as_completed q p mw self count_df t c1 ev1 :
  execute_query srv (count_query indent8 q) 300 (Some 1) self
    = (Ok (Some count_df), c1, ev1) ->
  counts count_df t ->
  0 < t -> 0 < p -> t + p - 1 <= int64_max -> 0 < mw ->
  let r := execute_query_with_parallel_pagination srv as_completed q p mw self in
  let total_pages := (t + p - 1) / p in
  submitted (events r) = seq 0 (Z.to_nat total_pages)
  /\ Z.of_nat (length (submitted (events r))) = total_pages
  /\ (total_pages - 1) * p < t <= total_pages * p
  /\ (t = 600000 -> p = 50000 -> length (submitted (events r)) = 12%nat).
Proof.
  intros Hcount Ht Htpos Hppos Hmax Hmw. cbn zeta.
  destruct (parallel_pages_run srv as_completed q p mw self count_df t c1 ev1
              Hcount Ht Htpos Hppos Hmax Hmw) as [Hsub _].
  cbn zeta in Hsub. rewrite Hsub, length_seq.
  assert (Hdiv : p * ((t + p - 1) / p) <= t + p - 1 < p * ((t + p - 1) / p) + p).
  { pose proof (Z.mul_div_le (t + p - 1) p Hppos).
    pose proof (Z.mul_succ_div_gt (t + p - 1) p Hppos). lia. }
  assert (Hnonneg : 0 <= (t + p - 1) / p) by (apply Z.div_pos; lia).
  repeat split; lia.
Qed.

(** C5 on an estimate of 600,000 rows with pages of 50,000. *)
Lemma parallel_dispatches_ceiling_of_pages_witness :
  let srv := Sample.server Sample.database_listing (Sample.counting 600000) in
  let r := execute_query_with_parallel_pagination srv Sample.last_first
             Sample.sql 50000 6 Sample.logged_in in
  submitted (events r) = seq 0 12 /\ length (submitted (events r)) = 12%nat.
Proof.
  cbn zeta.
  destruct (parallel_dispatches_ceiling_of_pages
              (Sample.server Sample.database_listing (Sample.counting 600000))
              Sample.last_first Sample.sql 50000 6 Sample.logged_in
              {| df_columns := ["total_rows"]; df_rows := [[CInt 600000]] |} 600000
              Sample.logged_in
              (events (execute_query
                         (Sample.server Sample.database_listing (Sample.counting 600000))
                         (count_query indent8 Sample.sql) 300 (Some 1) Sample.logged_in))
              ltac:(vm_compute; reflexivity) ltac:(split; reflexivity)
              ltac:(lia) ltac:(lia) ltac:(unfold int64_max; lia) ltac:(lia))
    as (Hsub & _ & _ & Htwelve).
  split; [exact Hsub | exact (Htwelve eq_refl eq_refl)].
Defined.

Lemma last_first_fair : fair Sample.last_first.
Proof. intros n. unfold Sample.last_first. symmetry. apply Permutation_rev. Qed.

Lemma in_order_fair : fair Sample.in_order.
Proof. intros n. reflexivity. Qed.

Lemma omap_all_some {A B} (f : A -> option B) (g : A -> B) l :
  (forall x, In x l -> f x = Some (g x)) -> omap f l = map g l.
Proof.
  induction l as [|x l IH]; intros H; [reflexivity|].
  cbn. rewrite (H x) by (by left). cbn. f_equal. apply IH. intros y Hy. apply H. by right.
Qed.

(** Frames with the same columns are stacked as they are. *)
Lemma pd_concat_uniform first rest :
  uniform (first :: rest) ->
  pd_concat (first :: rest)
  = inr {| df_columns := df_columns first;
           df_rows := concat (map df_rows (first :: rest)) |}.
Proof.
  intros Hsame. unfold pd_concat.
  assert (Hall : same_columns first rest = true); [|by rewrite Hall].
  apply forallb_forall. intros df Hin. apply bool_decide_eq_true.
  apply Hsame; [by right | by left].
Qed.

Lemma total_len_rows frames :
  Z.of_nat (length (concat (map df_rows frames))) = total_len frames.
Proof.
  induction frames as [|d frames IH]; [reflexivity|].
  cbn [map concat total_len fold_right]. rewrite length_app, Nat2Z.inj_add.
  unfold total_len in IH. by rewrite IH.
Qed.

(** C1. Take a parallel fetch under any fair scheduler, that is for every
    order in which the futures complete, in which every page task
    succeeds, task [k] handing back the frame [pages k].  Then the tasks
    are those of the pages [0 .. n-1], and
    - when there are tasks, the call ends as [pd.concat] of [pages 0],
      [pages 1], ..., [pages (n-1)], in this order, does; when the pages
      carry the same columns it returns the frame with these columns and
      the rows of the pages in page order;
    - when there is no task, nothing is assembled: the call returns no
      table but the empty one of a count of zero. *)
Theorem parallel_assembles_in_page_order
    srv as_completed q p mw self (pages : nat -> DataFrame) :
  fair as_completed ->
  let r := execute_query_with_parallel_pagination srv as_completed q p mw self in
  let dispatched := submitted (events r) in
  (forall k, In k dispatched -> page_outcome srv self q p k = Some (pages k)) ->
  dispatched = seq 0 (length dispatched)
  /\ (dispatched <> [] ->
      value r = match pd_concat (map pages dispatched) with
                | inr df => Ok (Some df)
                | inl e => Raise e
                end
      /\ (uniform (map pages dispatched) ->
          value r = Ok (Some {| df_columns := df_columns (pages 0%nat);
                                df_rows :=
                                  concat (map (fun k => df_rows (pages k))
                                            dispatched) |})))
  /\ (dispatched = [] -> forall df, value r = Ok (Some df) -> df = empty_frame).
Proof.
  intros Hfair. cbn zeta. intros Hpages.
  split; [|split].
  - destruct (submitted (events _)) as [|k ks] eqn:Hlist; [reflexivity|].
    rewrite <- Hlist.
    apply (parallel_dispatched srv as_completed q p mw self Hfair).
    by rewrite Hlist.
  - intros Hsome.
    destruct (parallel_dispatched srv as_completed q p mw self Hfair Hsome)
      as [Hseq Hvalue].
    rewrite (omap_all_some _ pages) in Hvalue by exact Hpages.
    destruct (submitted (events _)) as [|k ks] eqn:Hlist; [by destruct Hsome|].
    assert (Hk : k = 0%nat) by (cbn in Hseq; congruence). subst k.
    cbn [map concat_outcome] in Hvalue |- *. split; [exact Hvalue|].
    intros Hsame. rewrite Hvalue, (pd_concat_uniform _ _ Hsame).
    cbn [map concat]. by rewrite map_map.
  - apply parallel_without_tasks.
Qed.

(** The value the engine returns does not depend on the order in which
    the futures complete. *)
Lemma parallel_value_independent_of_completion_order
    srv first_order second_order q p mw self count_df t c1 ev1 :
  fair first_order -> fair second_order ->
  execute_query srv (count_query indent8 q) 300 (Some 1) self
    = (Ok (Some count_df), c1, ev1) ->
  counts count_df t ->
  0 < t -> 0 < p -> t + p - 1 <= int64_max -> 0 < mw ->
  value (execute_query_with_parallel_pagination srv first_order q p mw self)
  = value (execute_query_with_parallel_pagination srv second_order q p mw self).
Proof.
  intros Hfirst Hsecond Hcount Ht Ht0 Hp Hmax Hmw.
  destruct (parallel_pages_run srv first_order q p mw self count_df t c1 ev1
              Hcount Ht Ht0 Hp Hmax Hmw) as (_ & Hf1).
  destruct (parallel_pages_run srv second_order q p mw self count_df t c1 ev1
              Hcount Ht Ht0 Hp Hmax Hmw) as (_ & Hf2).
  by rewrite (Hf1 Hfirst), (Hf2 Hsecond).
Qed.

(** C3. Take a parallel fetch that handed page tasks to the pool, under
    any fair scheduler.  If at least one task succeeds, the call ends as
    [pd.concat] of the frames of the tasks that succeeded, in page order,
    does: the pages whose task handed back nothing are left out and leave
    no trace in what the caller gets.  When the successful pages carry the
    same columns the call returns a frame, without raising, whose rows are
    theirs in page order and whose length is the sum of theirs. *)
Theorem parallel_leaves_out_failed_pages
    srv as_completed q p mw self :
  fair as_completed ->
  let r := execute_query_with_parallel_pagination srv as_completed q p mw self in
  let dispatched := submitted (events r) in
  let successful := omap (page_outcome srv self q p) dispatched in
  (exists k, In k dispatched /\ page_outcome srv self q p k <> None) ->
  dispatched = seq 0 (length dispatched)
  /\ value r = match pd_concat successful with
               | inr df => Ok (Some df)
               | inl e => Raise e
               end
  /\ (uniform successful ->
      exists df,
        value r = Ok (Some df)
        /\ df_rows df = concat (map df_rows successful)
        /\ len df = total_len successful).
Proof.
  intros Hfair. cbn zeta. intros (k & Hk & Hok).
  assert (Hsome : submitted
                    (events (execute_query_with_parallel_pagination srv as_completed
                               q p mw self)) <> []).
  { intros Hnil. rewrite Hnil in Hk. by destruct Hk. }
  destruct (parallel_dispatched srv as_completed q p mw self Hfair Hsome) as [Hseq Hvalue].
  split; [exact Hseq|].
  destruct (omap (page_outcome srv self q p) (submitted (events _)))
    as [|first rest] eqn:Hlist.
  { exfalso. destruct (page_outcome srv self q p k) as [d|] eqn:Hd; [|by destruct Hok].
    assert (Hin : d ∈ omap (page_outcome srv self q p)
                    (submitted (events (execute_query_with_parallel_pagination srv
                                          as_completed q p mw self)))).
    { apply list_elem_of_omap. exists k. split; [by apply list_elem_of_In | exact Hd]. }
    rewrite Hlist in Hin. by apply not_elem_of_nil in Hin. }
  cbn [concat_outcome] in Hvalue. split; [exact Hvalue|].
  intros Hsame. rewrite Hvalue, (pd_concat_uniform _ _ Hsame).
  eexists. split; [reflexivity|]. split; [reflexivity|].
  unfold len. cbn [df_rows]. apply total_len_rows.
Qed.

(** C1 on five rows in pages of two, the futures completing last page
    first: the rows come back in table order. *)
Lemma parallel_assembles_in_page_order_witness :
  let srv := Sample.server Sample.database_listing (Sample.orders 5 2) in
  value (execute_query_with_parallel_pagination srv Sample.last_first
           Sample.sql 2 6 Sample.logged_in)
  = Ok (Some {| df_columns := ["id"];
                df_rows := [[CInt 0]; [CInt 1]; [CInt 2]; [CInt 3]; [CInt 4]] |}).
Proof.
  cbn zeta.
  destruct (parallel_assembles_in_page_order
              (Sample.server Sample.database_listing (Sample.orders 5 2))
              Sample.last_first Sample.sql 2 6 Sample.logged_in
              (fun k => {| df_columns := ["id"];
                           df_rows := Sample.ids (2 * k) (Nat.min 2 (5 - 2 * k)) |})
              last_first_fair)
    as (_ & Hvalue & _).
  - intros k Hk. vm_compute in Hk.
    destruct Hk as [<-|[<-|[<-|[]]]]; vm_compute; reflexivity.
  - destruct Hvalue as [Hvalue _]; [vm_compute; discriminate|].
    rewrite Hvalue. vm_compute. reflexivity.
Defined.

(** C3 on the same table with page 1 lost to a transport error: the rows
    of pages 0 and 2 come back, and no error. *)
Lemma parallel_leaves_out_failed_pages_witness :
  let srv := Sample.server Sample.database_listing (Sample.orders_without 1 5 2) in
  value (execute_query_with_parallel_pagination srv Sample.last_first
           Sample.sql 2 6 Sample.logged_in)
  = Ok (Some {| df_columns := ["id"];
                df_rows := [[CInt 0]; [CInt 1]; [CInt 4]] |}).
Proof.
  cbn zeta.
  destruct (parallel_leaves_out_failed_pages
              (Sample.server Sample.database_listing (Sample.orders_without 1 5 2))
              Sample.last_first Sample.sql 2 6 Sample.logged_in
              last_first_fair)
    as (_ & Hvalue & _).
  - exists 0%nat. split; [vm_compute; tauto | vm_compute; discriminate].
  - rewrite Hvalue. vm_compute. reflexivity.
Defined.

(** The scenario of the specification: 600,000 rows estimated, pages of
    50,000, twelve tasks of which only page 7 fails while the others hand
    back full pages with the same columns.  The caller gets 550,000 rows
    and no error. *)
Lemma parallel_twelve_pages_one_lost
    srv as_completed q mw self count_df c1 ev1 columns :
  fair as_completed ->
  execute_query srv (count_query indent8 q) 300 (Some 1) self
    = (Ok (Some count_df), c1, ev1) ->
  counts count_df 600000 ->
  0 < mw ->
  (forall k, (k < 12)%nat -> k <> 7%nat ->
     exists d, page_outcome srv c1 q 50000 k = Some d
               /\ df_columns d = columns /\ len d = 50000) ->
  page_outcome srv c1 q 50000 7 = None ->
  exists df,
    value (execute_query_with_parallel_pagination srv as_completed q 50000 mw self)
      = Ok (Some df)
    /\ len df = 550000.
Proof.
  intros Hfair Hcount Ht Hmw Hfull Hlost.
  destruct (parallel_pages_run srv as_completed q 50000 mw self count_df 600000 c1 ev1
              Hcount Ht ltac:(lia) ltac:(lia) ltac:(unfold int64_max; lia) Hmw)
    as (_ & Hfairv).
  cbn zeta in Hfairv. specialize (Hfairv Hfair).
  change (Z.to_nat ((600000 + 50000 - 1) / 50000)) with 12%nat in Hfairv.
  destruct (Hfull 0%nat) as (d0 & H0 & C0 & L0); [lia | lia |].
  destruct (Hfull 1%nat) as (d1 & H1 & C1 & L1); [lia | lia |].
  destruct (Hfull 2%nat) as (d2 & H2 & C2 & L2); [lia | lia |].
  destruct (Hfull 3%nat) as (d3 & H3 & C3 & L3); [lia | lia |].
  destruct (Hfull 4%nat) as (d4 & H4 & C4 & L4); [lia | lia |].
  destruct (Hfull 5%nat) as (d5 & H5 & C5 & L5); [lia | lia |].
  destruct (Hfull 6%nat) as (d6 & H6 & C6 & L6); [lia | lia |].
  destruct (Hfull 8%nat) as (d8 & H8 & C8 & L8); [lia | lia |].
  destruct (Hfull 9%nat) as (d9 & H9 & C9 & L9); [lia | lia |].
  destruct (Hfull 10%nat) as (d10 & H10 & C10 & L10); [lia | lia |].
  destruct (Hfull 11%nat) as (d11 & H11 & C11 & L11); [lia | lia |].
  cbn [seq omap list_omap] in Hfairv.
  rewrite H0, H1, H2, H3, H4, H5, H6, Hlost, H8, H9, H10, H11 in Hfairv.
  cbn [concat_outcome] in Hfairv.
  rewrite pd_concat_uniform in Hfairv.
  2:{ intros a b Ha Hb. cbn in Ha, Hb.
      assert (Hcols : forall d, d = d0 \/ d = d1 \/ d = d2 \/ d = d3 \/ d = d4 \/ d = d5
                                \/ d = d6 \/ d = d8 \/ d = d9 \/ d = d10 \/ d = d11
                                -> df_columns d = columns).
      { intros d Hd. repeat (destruct Hd as [->|Hd]; [assumption|]). by subst d. }
      rewrite (Hcols a), (Hcols b); [reflexivity | |]; clear -Ha Hb; intuition auto. }
  eexists. split; [exact Hfairv|].
  unfold len. cbn [df_rows]. rewrite total_len_rows. cbn [total_len fold_right]. lia.
Qed.

(** ** Sequential pagination *)

Lemma pagination_loop_run srv sql p self :
  forall K fuel acc k0 c (pages : nat -> DataFrame) last,
    (K < fuel)%nat ->
    (forall q, value (execute_query srv q 300 (Some p) c)
               = value (execute_query srv q 300 (Some p) self)) ->
    (forall k, (k < K)%nat ->
       fetched srv self sql p (k0 + k) = Ok (Some (pages k))
       /\ len (pages k) <> 0 /\ p <= len (pages k)) ->
    fetched srv self sql p (k0 + K) = Ok last ->
    ends_data p last ->
    exists c' evs tail,
      pagination_loop fuel srv sql p acc (Z.of_nat k0 * p) c
        = (Ok (acc ++ map pages (seq 0 K) ++ kept_of_last last), c', evs)
      /\ dataset_queries evs = map (page_query sql p) (seq k0 K) ++ tail
      /\ (tail = [] \/ tail = [page_query sql p (k0 + K)])
      /\ (last <> None -> tail = [page_query sql p (k0 + K)]).
Proof.
  induction K as [|K IH]; intros fuel acc k0 c pages last Hfuel Hc Hfull Hlast Hend.
  - destruct fuel as [|fuel]; [lia|]. cbn [pagination_loop].
    fold (page_query sql p k0).
    pose proof (Hc (page_query sql p k0)) as Hv.
    unfold fetched in Hlast. rewrite Nat.add_0_r in *. rewrite Hlast in Hv.
    pose proof (execute_query_queries srv (page_query sql p k0) 300 (Some p) c) as Hq.
    pose proof (execute_query_some_queries srv (page_query sql p k0) 300 (Some p) c) as Hq1.
    unfold bind at 1.
    destruct (execute_query srv (page_query sql p k0) 300 (Some p) c) as [[v c'] evs].
    cbn [value events fst snd] in *. subst v.
    destruct last as [page|]; cbn [kept_of_last ends_data] in *.
    + specialize (Hq1 page eq_refl).
      destruct (len page =? 0) eqn:Hzero.
      * exists c', evs, [page_query sql p k0]. rewrite after_ret.
        cbn [seq map app]. rewrite !app_nil_r. repeat split; auto.
      * apply Z.eqb_neq in Hzero.
        assert (Hshort : (len page <? p) = true) by (apply Z.ltb_lt; lia).
        rewrite bind_log, Hshort, after_ret. eexists c', _, [page_query sql p k0].
        unfold after. cbn [value client_after events fst snd map seq app].
        split; [reflexivity|]. rewrite dataset_queries_app, Hq1. cbn. auto.
    + rewrite after_ret. cbn [seq map app]. rewrite !app_nil_r.
      destruct Hq as [Hq|Hq].
      * exists c', evs, []. repeat split; auto. congruence.
      * exists c', evs, [page_query sql p k0]. repeat split; auto.
  - destruct fuel as [|fuel]; [lia|]. cbn [pagination_loop].
    fold (page_query sql p k0).
    destruct (Hfull 0%nat ltac:(lia)) as (Hfirst & Hnonzero & Hbig).
    rewrite Nat.add_0_r in Hfirst.
    pose proof (Hc (page_query sql p k0)) as Hv.
    unfold fetched in Hfirst. rewrite Hfirst in Hv.
    pose proof (execute_query_some_queries srv (page_query sql p k0) 300 (Some p) c
                  (pages 0%nat)) as Hq1.
    assert (Hc' : forall q,
              value (execute_query srv q 300 (Some p)
                       (client_after (execute_query srv (page_query sql p k0) 300 (Some p) c)))
              = value (execute_query srv q 300 (Some p) self)).
    { intros q. by rewrite execute_query_again. }
    unfold bind at 1.
    destruct (execute_query srv (page_query sql p k0) 300 (Some p) c) as [[v c'] evs].
    cbn [value client_after events fst snd] in *. subst v. specialize (Hq1 eq_refl).
    rewrite (proj2 (Z.eqb_neq _ _) Hnonzero).
    rewrite bind_log, (proj2 (Z.ltb_ge _ _) Hbig).
    destruct (IH fuel (acc ++ [pages 0%nat]) (S k0) c'
                (fun k => pages (S k)) last ltac:(lia) Hc')
      as (c'' & evs' & tail & Hrun & Hqs & Htail & Hsome).
    { intros k Hk. rewrite Nat.add_succ_comm. apply Hfull. lia. }
    { by rewrite Nat.add_succ_comm. }
    { exact Hend. }
    replace (Z.of_nat k0 * p + p) with (Z.of_nat (S k0) * p) by lia.
    rewrite Hrun. exists c''. eexists. exists tail.
    unfold after. cbn [value client_after events fst snd].
    split; [|split].
    + do 2 f_equal. rewrite <- app_assoc. cbn [seq map app].
      do 2 f_equal. by rewrite <- seq_shift, map_map.
    + rewrite !dataset_queries_app, Hq1, Hqs. cbn.
      by rewrite Nat.add_succ_comm in *.
    + by rewrite Nat.add_succ_comm in *.
Qed.

(** C4, counterexample. On an empty table the first page comes back as an
    empty frame: the request did not fail.  The engine then logs the error
    "No data retrieved" and returns [None], not a table. *)
Lemma sequential_pagination_of_empty_table_is_none :
  let srv := Sample.server Sample.database_listing (Sample.orders 0 2) in
  let r := execute_query_with_pagination 10 srv Sample.sql 2 Sample.logged_in in
  fetched srv Sample.logged_in Sample.sql 2 0
    = Ok (Some {| df_columns := ["id"]; df_rows := [] |})
  /\ value r = Ok None
  /\ In (Logged ERROR NoDataRetrieved) (events r).
Proof. cbn zeta. split; [|split]; vm_compute; auto. Qed.

(** C4, as the code has it. Let [fetched k] be what the single-page
    executor returns for the query [<query> LIMIT p OFFSET k*p].  If the
    pages [0 .. K-1] come back non-empty with at least [p] rows each and
    page [K] is the first that fails, is empty or has fewer than [p] rows,
    then with fuel for more than [K] requests the engine
    - logs the error "No data retrieved" and returns [None] when it kept
      nothing (page 0 failed or was empty);
    - otherwise ends as [pd.concat] does on the pages it kept, in fetch
      order, which is page order: pages [0 .. K-1] followed by page [K]
      when that one is short but not empty; when these pages carry the
      same columns it returns the frame whose rows are theirs in that
      order;
    - has posted exactly the queries for [k = 0 .. K-1], followed by the
      query for page [K] (always when page [K] came back, possibly not
      when it failed before a request was made), and no query after. *)
Theorem sequential_pagination_stops_at_first_short_page
    srv sql p self K (pages : nat -> DataFrame) last fuel :
  (K < fuel)%nat ->
  (forall k, (k < K)%nat ->
     fetched srv self sql p k = Ok (Some (pages k))
     /\ len (pages k) <> 0 /\ p <= len (pages k)) ->
  fetched srv self sql p K = Ok last ->
  ends_data p last ->
  let r := execute_query_with_pagination fuel srv sql p self in
  let kept := map pages (seq 0 K) ++ kept_of_last last in
  (kept = [] ->
     value r = Ok None /\ In (Logged ERROR NoDataRetrieved) (events r))
  /\ (kept <> [] ->
      value r = match pd_concat kept with
                | inr df => Ok (Some df)
                | inl e => Raise e
                end
      /\ (uniform kept ->
          exists df, value r = Ok (Some df)
                     /\ pd_concat kept = inr df
                     /\ df_rows df = concat (map df_rows kept)))
  /\ exists tail,
       dataset_queries (events r) = map (page_query sql p) (seq 0 K) ++ tail
       /\ (tail = [] \/ tail = [page_query sql p K])
       /\ (last <> None -> tail = [page_query sql p K]).
Proof.
  intros Hfuel Hfull Hlast Hend. cbn zeta.
  destruct (pagination_loop_run srv sql p self K fuel [] 0%nat self pages last
              Hfuel ltac:(reflexivity) Hfull Hlast Hend)
    as (c' & evs & tail & Hrun & Hqs & Htail & Hsome).
  change (Z.of_nat 0 * p) with 0 in Hrun. cbn [app] in Hrun.
  unfold execute_query_with_pagination. rewrite bind_log.
  rewrite (bind_ok _ _ _ _ _ _ Hrun), after_after.
  destruct (map pages (seq 0 K) ++ kept_of_last last) as [|first rest].
  - rewrite bind_log, after_ret.
    rewrite value_after, events_after. cbn [value events fst snd].
    split; [|split; [congruence|]].
    { intros _. split; [reflexivity|]. rewrite !in_app_iff. cbn. tauto. }
    exists tail. split; [|by split].
    rewrite !dataset_queries_app, Hqs. cbn. by rewrite app_nil_r.
  - assert (Hvalue :
      forall evs0,
        value (after evs0
                 ((let* final_df := lift (pd_concat (first :: rest)) in
                   let* _ := log INFO (PaginationComplete (len final_df)) in
                   ret (Some final_df)) c'))
        = match pd_concat (first :: rest) with
          | inr df => Ok (Some df)
          | inl e => Raise e
          end
        /\ dataset_queries
             (events (after evs0
                        ((let* final_df := lift (pd_concat (first :: rest)) in
                          let* _ := log INFO (PaginationComplete (len final_df)) in
                          ret (Some final_df)) c')))
           = dataset_queries evs0).
    { intros evs0. rewrite value_after, events_after, dataset_queries_app.
      destruct (pd_concat (first :: rest)) as [e|df]; cbn [lift].
      - split; [reflexivity|]. cbn. by rewrite app_nil_r.
      - rewrite bind_ret, bind_log, after_ret. split; [reflexivity|].
        cbn. by rewrite app_nil_r. }
    destruct (Hvalue ([Logged INFO PaginationStart] ++ evs)) as [Hv Hq].
    split; [discriminate|]. split.
    { intros _. split; [exact Hv|]. intros Hsame.
      rewrite Hv, (pd_concat_uniform _ _ Hsame). eexists. by repeat split. }
    exists tail. split; [|by split].
    by rewrite Hq, dataset_queries_app, Hqs.
Qed.

(** C4 on five rows in pages of two: two full pages, then a short one. *)
Lemma sequential_pagination_stops_at_first_short_page_witness :
  let srv := Sample.server Sample.database_listing (Sample.orders 5 2) in
  let r := execute_query_with_pagination 10 srv Sample.sql 2 Sample.logged_in in
  value r = Ok (Some {| df_columns := ["id"];
                        df_rows := [[CInt 0]; [CInt 1]; [CInt 2]; [CInt 3]; [CInt 4]] |})
  /\ dataset_queries (events r)
     = ["SELECT id FROM orders LIMIT 2 OFFSET 0";
        "SELECT id FROM orders LIMIT 2 OFFSET 2";
        "SELECT id FROM orders LIMIT 2 OFFSET 4"].
Proof.
  cbn zeta.
  destruct (sequential_pagination_stops_at_first_short_page
              (Sample.server Sample.database_listing (Sample.orders 5 2))
              Sample.sql 2 Sample.logged_in 2
              (fun k => {| df_columns := ["id"]; df_rows := Sample.ids (2 * k) 2 |})
              (Some {| df_columns := ["id"]; df_rows := Sample.ids 4 1 |}) 10)
    as (_ & Hsome & tail & Hqs & _ & Htail).
  - lia.
  - intros k Hk. destruct k as [|[|k]]; [| |lia]; (split; [vm_compute; reflexivity|]);
      vm_compute; split; discriminate.
  - vm_compute. reflexivity.
  - right. vm_compute. reflexivity.
  - destruct Hsome as [Hvalue _]; [discriminate|].
    split; [rewrite Hvalue; vm_compute; reflexivity|].
    rewrite Hqs, (Htail ltac:(discriminate)). vm_compute. reflexivity.
Defined.

(** ** Session cleanup of a page task *)

Lemma logout_run srv self :
  token_truthy (session_token self) = true ->
  exists line,
    logout srv self
    = (Ok tt, with_session_header (with_session_token self None) None,
       [Sent (logout_request self); line]).
Proof.
  intros Htok. unfold logout. rewrite bind_get_self, Htok.
  unfold try_finally, try_except. rewrite bind_send. cbn zeta.
  fold (logout_request self).
  destruct (srv (logout_request self)) as [|code pl]; cbn; by eexists.
Qed.

(** When the page query returns, with a frame or with [None], the task
    logs its session out: the thread client ends without token and
    header, and the logout request has been sent. *)
Lemma fetch_page_logs_out_when_query_returns srv self q p k c1 ev1 df c2 ev2 :
  authenticate srv (new_client (config self)) = (Ok true, c1, ev1) ->
  token_truthy (session_token c1) = true ->
  execute_query srv (page_query q p k) 300 (Some p) c1 = (Ok df, c2, ev2) ->
  let task := fetch_page srv self q p k in
  session_token (client_after task) = None
  /\ session_header (client_after task) = None
  /\ In (Sent (logout_request c2)) (events task).
Proof.
  intros Hauth Htok Hquery. cbn zeta.
  pose proof (session_execute_query srv (page_query q p k) 300 (Some p) c1) as Hsame.
  rewrite Hquery in Hsame. destruct Hsame as (_ & _ & Htok2).
  cbn [client_after fst snd] in Htok2.
  destruct (logout_run srv c2 ltac:(congruence)) as (line & Hlogout).
  unfold fetch_page, fetch_page_on_thread_client, try_except.
  rewrite (bind_ok _ _ _ _ _ _ Hauth). cbn [negb].
  fold (page_query q p k).
  rewrite (bind_ok _ _ _ _ _ _ Hquery), (bind_ok _ _ _ _ _ _ Hlogout), !after_after.
  assert (Hin : In (Sent (logout_request c2))
                  (ev1 ++ ev2 ++ [Sent (logout_request c2); line])).
  { apply in_or_app. right. apply in_or_app. right. by left. }
  destruct df as [page|]; [destruct (0 <? len page)|]; rewrite after_ret; cbn;
    rewrite <- app_assoc; auto.
Qed.

(** When the page query raises, the handler of the task turns the
    exception into a failed page and nothing more: the thread client
    stays as the query left it, session included, and no request follows
    the ones of the login and of the query. *)
Lemma fetch_page_skips_logout_when_query_raises srv self q p k c1 ev1 e c2 ev2 :
  authenticate srv (new_client (config self)) = (Ok true, c1, ev1) ->
  execute_query srv (page_query q p k) 300 (Some p) c1 = (Raise e, c2, ev2) ->
  fetch_page srv self q p k
  = (Ok (None, k), c2, ev1 ++ ev2 ++ [Logged ERROR (ErrorFetchingPage k e)]).
Proof.
  intros Hauth Hquery.
  unfold fetch_page, fetch_page_on_thread_client, try_except.
  rewrite (bind_ok _ _ _ _ _ _ Hauth). cbn [negb].
  fold (page_query q p k).
  rewrite (bind_raise _ _ _ _ _ _ Hquery).
  unfold after at 1. cbn [value client_after events fst snd].
  rewrite bind_log, after_ret. unfold after.
  cbn [value client_after events fst snd]. by rewrite <- app_assoc.
Qed.

(** C8, the code at a failing input. The server grants the session and
    answers [GET /api/database] with a JSON array (as Metabase versions
    that list databases without the ["data"] wrapper do); the
    configuration carries no database id.  The worker of page 1
    authenticates, the lookup of the database id raises [AttributeError]
    out of [execute_query], and the task ends in its [except] clause: it
    reports a failed page, has sent the login and the lookup but no
    logout request, and its client still holds the session token. *)
Theorem fetch_page_keeps_session_when_lookup_raises :
  let srv := Sample.server (Responded 200 JsonOther) (Sample.orders 5 2) in
  let task := fetch_page srv Sample.logged_in Sample.sql 2 1 in
  value (authenticate srv (new_client Sample.cfg)) = Ok true
  /\ value task = Ok (None, 1%nat)
  /\ In (Logged ERROR (ErrorFetchingPage 1 AttributeError)) (events task)
  /\ omap sent_method (events task) = [POST; GET]
  /\ session_token (client_after task) = Some "5f3c-token"
  /\ session_header (client_after task) = Some (Some "5f3c-token").
Proof. cbn zeta. repeat split; vm_compute; auto. Qed.

(** * Further properties of the client *)

(** ** Team configurations *)

Lemma lower_ascii_idempotent a : lower_ascii (lower_ascii a) = lower_ascii a.
Proof. destruct a as [[|] [|] [|] [|] [|] [|] [|] [|]]; reflexivity. Qed.

Lemma lower_idempotent s : lower (lower s) = lower s.
Proof.
  induction s as [|a s IH]; [reflexivity|].
  cbn [lower]. by rewrite lower_ascii_idempotent, IH.
Qed.

(** X1. [create_with_team_db] looks the team up without regard to case: a
    team and its lower-case spelling give the same result.  It builds a
    configuration exactly when the lower-cased team is ["growth"],
    ["data"] or ["product"], with the url and credentials as given, that
    team's connection name and no database id; any other team raises
    [ValueError]. *)
Theorem create_with_team_db_ignores_case u n pw team :
  create_with_team_db u n pw team = create_with_team_db u n pw (lower team)
  /\ match create_with_team_db u n pw team with
     | inr cfg =>
         url cfg = u /\ username cfg = n /\ password cfg = pw
         /\ config_database_id cfg = None
         /\ ((lower team = "growth"
              /\ database_name cfg = "Growth Team Clickhouse Connection")
             \/ (lower team = "data"
                 /\ database_name cfg = "Data Team Clickhouse Connection")
             \/ (lower team = "product"
                 /\ database_name cfg = "Product Team Clickhouse Connection"))
     | inl e =>
         e = ValueError
         /\ lower team <> "growth" /\ lower team <> "data" /\ lower team <> "product"
     end.
Proof.
  split.
  { unfold create_with_team_db. by rewrite lower_idempotent. }
  unfold create_with_team_db, team_databases. cbn [dict_get].
  destruct (String.eqb_spec "growth" (lower team)) as [Hg|Hg].
  { cbn. repeat split. left. by split. }
  destruct (String.eqb_spec "data" (lower team)) as [Hd|Hd].
  { cbn. repeat split. right. left. by split. }
  destruct (String.eqb_spec "product" (lower team)) as [Hp|Hp].
  { cbn. repeat split. right. right. by split. }
  repeat split; congruence.
Qed.

Example create_with_team_db_mixed_case :
  create_with_team_db "https://metabase.local" "analyst" "secret" "Growth"
  = inr {| url := "https://metabase.local";
           username := "analyst";
           password := "secret";
           database_name := "Growth Team Clickhouse Connection";
           config_database_id := None |}
  /\ create_with_team_db "https://metabase.local" "analyst" "secret" "sales"
     = inl ValueError.
Proof. split; reflexivity. Qed.

(** ** Login *)

Lemma authenticate_run srv self :
  authenticate srv self =
  match srv (login_request self) with
  | ConnectionFailed =>
      (Ok false, self,
       [Sent (login_request self); Logged ERROR (AuthenticationFailed RequestException)])
  | Responded code payload =>
      if http_error code then
        (Ok false, self,
         [Sent (login_request self); Logged ERROR (AuthenticationFailed RequestException)])
      else
        match payload with
        | NotJson =>
            (Ok false, self,
             [Sent (login_request self);
              Logged ERROR (AuthenticationFailed RequestException)])
        | JsonOther => (Raise AttributeError, self, [Sent (login_request self)])
        | JsonObject obj =>
            (Ok true,
             with_session_header (with_session_token self (j_id obj)) (Some (j_id obj)),
             [Sent (login_request self); Logged INFO AuthenticatedOk])
        end
  end.
Proof.
  unfold authenticate, try_except. rewrite bind_get_self, bind_send. cbn zeta.
  fold (login_request self).
  destruct (srv (login_request self)) as [|code pl]; [reflexivity|].
  unfold raise_for_status, json, as_object. cbn [fst snd].
  destruct (http_error code); [reflexivity|].
  destruct pl as [| |obj]; reflexivity.
Qed.

(** X2. When [authenticate] returns [False], the client is exactly as it was
    (a session it held before is still there) and the only traces are the
    login request and one error line. *)
Theorem authenticate_failure_keeps_client srv self :
  value (authenticate srv self) = Ok false ->
  client_after (authenticate srv self) = self
  /\ events (authenticate srv self)
     = [Sent (login_request self); Logged ERROR (AuthenticationFailed RequestException)].
Proof.
  rewrite authenticate_run.
  destruct (srv (login_request self)) as [|code pl]; [by split|].
  destruct (http_error code); [by split|].
  destruct pl as [| |obj]; [by split | discriminate | discriminate].
Qed.

Lemma authenticate_failure_keeps_client_witness :
  client_after (authenticate (fun _ => Responded 401 NotJson) Sample.logged_in)
  = Sample.logged_in.
Proof.
  apply (authenticate_failure_keeps_client (fun _ => Responded 401 NotJson)
           Sample.logged_in).
  reflexivity.
Defined.

(** X3. [authenticate] returns [True] on every answer outside 4xx/5xx whose
    body is a JSON object, whether or not the object has an ['id']: the
    token and the session header become whatever ['id'] holds.  When that
    is nothing (or the empty string), the client that "authenticated"
    cannot query: every [execute_query] returns [None] without sending
    anything. *)
Theorem authenticate_accepts_any_json_object srv self code obj :
  srv (login_request self) = Responded code (JsonObject obj) ->
  http_error code = false ->
  let c := client_after (authenticate srv self) in
  value (authenticate srv self) = Ok true
  /\ session_token c = j_id obj
  /\ session_header c = Some (j_id obj)
  /\ (token_truthy (j_id obj) = false ->
      forall srv' q t mr,
        execute_query srv' q t mr c = (Ok None, c, [Logged ERROR NotAuthenticated])).
Proof.
  intros Hsrv Hcode. cbn zeta. rewrite authenticate_run, Hsrv, Hcode.
  cbn [value client_after fst snd]. repeat split.
  intros Htok srv' q t mr. by apply execute_query_unauthenticated.
Qed.

Lemma authenticate_accepts_any_json_object_witness :
  let srv := fun _ : Request =>
    Responded 200 (JsonObject {| j_id := None; j_status := None;
                                 j_error := None; j_data := NoData |}) in
  let c := client_after (authenticate srv (new_client Sample.cfg)) in
  value (authenticate srv (new_client Sample.cfg)) = Ok true
  /\ session_token c = None
  /\ value (execute_query srv Sample.sql 300 None c) = Ok None.
Proof.
  cbn zeta.
  destruct (authenticate_accepts_any_json_object
              (fun _ : Request =>
                 Responded 200 (JsonObject {| j_id := None; j_status := None;
                                              j_error := None; j_data := NoData |}))
              (new_client Sample.cfg) 200
              {| j_id := None; j_status := None; j_error := None; j_data := NoData |}
              eq_refl eq_refl) as (Htrue & Htok & _ & Hquery).
  split; [exact Htrue|]. split; [exact Htok|].
  by rewrite (Hquery eq_refl).
Defined.

(** ** Database lookup *)

Lemma get_database_id_run srv self :
  id_truthy (database_id self) = false ->
  get_database_id srv self =
  match srv (listing_request self) with
  | ConnectionFailed =>
      (Ok None, self,
       [Sent (listing_request self); Logged ERROR (FailedToGetDatabaseId RequestException)])
  | Responded code payload =>
      if http_error code then
        (Ok None, self,
         [Sent (listing_request self);
          Logged ERROR (FailedToGetDatabaseId RequestException)])
      else
        match payload with
        | NotJson =>
            (Ok None, self,
             [Sent (listing_request self);
              Logged ERROR (FailedToGetDatabaseId RequestException)])
        | JsonOther => (Raise AttributeError, self, [Sent (listing_request self)])
        | JsonObject obj =>
            match j_data obj with
            | NoData =>
                after [Sent (listing_request self)]
                  (find_database (database_name (config self)) [] self)
            | Databases dbs =>
                after [Sent (listing_request self)]
                  (find_database (database_name (config self)) dbs self)
            | Results _ => (Raise AttributeError, self, [Sent (listing_request self)])
            | Scalar => (Raise TypeError, self, [Sent (listing_request self)])
            end
        end
  end.
Proof.
  intros Hdb. unfold get_database_id. rewrite bind_get_self, Hdb.
  unfold try_except. rewrite bind_send. cbn zeta. fold (listing_request self).
  destruct (srv (listing_request self)) as [|code pl]; [reflexivity|].
  unfold raise_for_status, json, as_object, databases_of. cbn [fst snd].
  destruct (http_error code); [reflexivity|].
  destruct pl as [| |obj]; [reflexivity | reflexivity |].
  cbn. destruct (j_data obj) as [|dbs|d|]; [reflexivity | | reflexivity | reflexivity].
  cbn. unfold bind. rewrite find_database_run.
  by destruct (find _ dbs).
Qed.

(** The exceptions the lookup lets through are those of a body that is
    JSON but not of the expected shape: [AttributeError] when a value has
    no [get], [TypeError] when the ['data'] entry cannot be iterated
    over. *)
Lemma get_database_id_raises srv self e :
  value (get_database_id srv self) = Raise e -> e = AttributeError \/ e = TypeError.
Proof.
  destruct (id_truthy (database_id self)) eqn:Hdb.
  { unfold get_database_id. rewrite bind_get_self, Hdb. discriminate. }
  rewrite get_database_id_run by exact Hdb.
  destruct (srv (listing_request self)) as [|code pl]; [discriminate|].
  destruct (http_error code); [discriminate|].
  destruct pl as [| |obj]; [discriminate | intros [= <-]; by left |].
  destruct (j_data obj) as [|dbs|d|]; rewrite ?find_database_run.
  - discriminate.
  - by destruct (find _ dbs).
  - intros [= <-]. by left.
  - intros [= <-]. by right.
Qed.

(** X4. The lookup takes the first entry of the listing that carries the
    configured name.  When that yields no usable id (the name is not
    listed, or its entry has no id or the id 0), a client that is logged
    in but has no database id gets [None] from every query, and no query
    is posted. *)
Theorem execute_query_without_database srv q t mr self code obj dbs :
  token_truthy (session_token self) = true ->
  id_truthy (database_id self) = false ->
  srv (listing_request self) = Responded code (JsonObject obj) ->
  http_error code = false ->
  j_data obj = Databases dbs ->
  id_truthy (listed_id (database_name (config self)) dbs) = false ->
  let r := execute_query srv q t mr self in
  value r = Ok None
  /\ sent_methods (events r) = [GET]
  /\ id_truthy (database_id (client_after r)) = false.
Proof.
  intros Htok Hdb Hsrv Hcode Hdata Hid. cbn zeta.
  rewrite execute_query_authenticated by exact Htok.
  rewrite ensure_database_id_unset by exact Hdb.
  rewrite get_database_id_run by exact Hdb.
  rewrite Hsrv, Hcode, Hdata, find_database_run.
  unfold listed_id in Hid.
  destruct (find _ dbs) as [db|]; cbn [after value client_after events fst snd app];
    rewrite Hid; by cbn.
Qed.

Lemma execute_query_without_database_witness :
  let listing :=
    Responded 200
      (JsonObject {| j_id := None; j_status := None; j_error := None;
                     j_data := Databases
                       [ {| db_name := Some "Growth Team Clickhouse Connection";
                            db_id := Some 0 |};
                         {| db_name := Some "Growth Team Clickhouse Connection";
                            db_id := Some 7 |} ] |}) in
  let srv := Sample.server listing (Sample.orders 5 2) in
  let self := with_database_id Sample.logged_in None in
  value (execute_query srv Sample.sql 300 None self) = Ok None
  /\ sent_methods (events (execute_query srv Sample.sql 300 None self)) = [GET].
Proof.
  cbn zeta.
  destruct (execute_query_without_database
              (Sample.server
                 (Responded 200
                    (JsonObject {| j_id := None; j_status := None; j_error := None;
                       j_data := Databases
                         [ {| db_name := Some "Growth Team Clickhouse Connection";
                              db_id := Some 0 |};
                           {| db_name := Some "Growth Team Clickhouse Connection";
                              db_id := Some 7 |} ] |}))
                 (Sample.orders 5 2))
              Sample.sql 300 None (with_database_id Sample.logged_in None) 200
              _ _ eq_refl eq_refl eq_refl eq_refl eq_refl eq_refl)
    as (Hvalue & Hsent & _).
  by split.
Defined.

(** ** The single-page executor *)

(** Every run of the request part returns, leaves the client alone and
    consists of the posted query followed by log lines only. *)
Lemma submit_query_shape srv q t mr self :
  exists v logs,
    submit_query srv q t mr self = (Ok v, self, Sent (dataset_request self q t mr) :: logs)
    /\ Forall is_logged logs.
Proof.
  pose proof (submit_query_run srv q t mr self) as H. cbn zeta in H.
  destruct (srv _) as [|code pl].
  { rewrite H. eexists _, _. split; [reflexivity|]. repeat constructor. }
  destruct (http_error code).
  { rewrite H. eexists _, _. split; [reflexivity|]. repeat constructor. }
  destruct pl as [| |obj];
    try (rewrite H; eexists _, _; split; [reflexivity|]; by repeat constructor).
  destruct (bool_decide _).
  - destruct H as (v & logs & -> & Hlogs). by exists v, logs.
  - rewrite H. destruct (j_error obj); eexists _, _; (split; [reflexivity|]);
      by repeat constructor.
Qed.

Lemma sent_methods_logged logs : Forall is_logged logs -> sent_methods logs = [].
Proof.
  induction 1 as [|e logs He _ IH]; [reflexivity|].
  destruct e; try contradiction. exact IH.
Qed.

(** X5. [execute_query] catches everything its request can raise.  An
    exception that leaves it comes from the database lookup, on a client
    whose database id was not set, before any query is posted: the
    [AttributeError] of a listing that is JSON but has no [get] where one
    is called, or the [TypeError] of a ['data'] entry that cannot be
    iterated over. *)
Theorem execute_query_raises_only_from_lookup srv q t mr self e :
  value (execute_query srv q t mr self) = Raise e ->
  (e = AttributeError \/ e = TypeError)
  /\ id_truthy (database_id self) = false
  /\ dataset_queries (events (execute_query srv q t mr self)) = [].
Proof.
  destruct (token_truthy (session_token self)) eqn:Htok.
  2:{ rewrite execute_query_unauthenticated by exact Htok. discriminate. }
  rewrite execute_query_authenticated by exact Htok.
  destruct (id_truthy (database_id self)) eqn:Hdb.
  { rewrite ensure_database_id_settled by exact Hdb. rewrite after_nil.
    destruct (submit_query_value srv q t mr self) as [v Hv]. rewrite Hv. discriminate. }
  pose proof (ensure_database_id_no_query srv self) as Hq.
  rewrite ensure_database_id_unset in * by exact Hdb.
  pose proof (get_database_id_raises srv self) as Hraise.
  destruct (get_database_id srv self) as [[[id|e'|] c] evs];
    cbn [value client_after events fst snd] in *.
  - destruct (id_truthy id); [|discriminate].
    destruct (submit_query_value srv q t mr (with_database_id c id)) as [v Hv].
    rewrite value_after, Hv. discriminate.
  - intros [= <-]. split; [by apply Hraise|]. split; [reflexivity|].
    by apply dataset_queries_no_query.
  - discriminate.
Qed.

(** A listing whose ['data'] entry is null. *)
Lemma execute_query_raises_only_from_lookup_witness :
  let listing :=
    Responded 200
      (JsonObject {| j_id := None; j_status := None; j_error := None;
                     j_data := Scalar |}) in
  let srv := Sample.server listing (Sample.orders 5 2) in
  let self := with_database_id Sample.logged_in None in
  value (execute_query srv Sample.sql 300 None self) = Raise TypeError
  /\ dataset_queries (events (execute_query srv Sample.sql 300 None self)) = [].
Proof.
  cbn zeta.
  destruct (execute_query_raises_only_from_lookup
              (Sample.server
                 (Responded 200
                    (JsonObject {| j_id := None; j_status := None; j_error := None;
                                   j_data := Scalar |}))
                 (Sample.orders 5 2))
              Sample.sql 300 None (with_database_id Sample.logged_in None)
              TypeError eq_refl) as (_ & _ & Hq).
  by split.
Defined.

(** X6. The database id is looked up once.  After a query that returned a
    frame, the client knows its database, and every later query on it
    sends one request only, the query itself, and leaves the client as it
    is. *)
Theorem execute_query_looks_database_up_once srv q t mr self df q' t' mr' :
  value (execute_query srv q t mr self) = Ok (Some df) ->
  let c := client_after (execute_query srv q t mr self) in
  id_truthy (database_id c) = true
  /\ sent_methods (events (execute_query srv q' t' mr' c)) = [POST]
  /\ dataset_queries (events (execute_query srv q' t' mr' c)) = [q']
  /\ client_after (execute_query srv q' t' mr' c) = c.
Proof.
  intros Hdf. cbn zeta.
  destruct (token_truthy (session_token self)) eqn:Htok.
  2:{ rewrite execute_query_unauthenticated in Hdf by exact Htok. discriminate. }
  rewrite execute_query_authenticated in Hdf |- * by exact Htok.
  pose proof (session_ensure_database_id srv self) as (_ & _ & Htok').
  pose proof (ensure_database_id_again srv self) as (_ & _ & Htrue). cbn zeta in Htrue.
  destruct (ensure_database_id srv self) as [[[[|]|e|] c] evs]; try discriminate.
  cbn [value client_after events fst snd] in *. specialize (Htrue eq_refl).
  rewrite client_after_after, <- (keeps_submit_query srv q t mr c) in *.
  assert (Hdb : id_truthy (database_id c) = true).
  { destruct (id_truthy (database_id c)) eqn:Hdb; [reflexivity|].
    rewrite ensure_database_id_unset in Htrue by exact Hdb.
    pose proof (get_database_id_unset srv c (database_id c) Hdb Hdb) as Hsame.
    destruct (get_database_id srv c) as [[[id|e|] c'] evs']; try discriminate.
    injection Htrue; intros _ Hc Hid. rewrite <- Hc in Hdb. cbn in Hdb. congruence. }
  split; [exact Hdb|].
  rewrite (execute_query_settled srv q' t' mr' c) by congruence.
  destruct (submit_query_shape srv q' t' mr' c) as (v & logs & Hrun & Hlogs).
  rewrite Hrun. cbn [events client_after fst snd].
  change (Sent ?r :: logs) with ([Sent r] ++ logs).
  unfold sent_methods. rewrite omap_app. fold (sent_methods logs).
  rewrite dataset_queries_app, (sent_methods_logged _ Hlogs),
    (dataset_queries_logged _ Hlogs).
  by repeat split.
Qed.

Lemma execute_query_looks_database_up_once_witness :
  let srv := Sample.server Sample.database_listing (Sample.orders 5 2) in
  let self := with_database_id Sample.logged_in None in
  let first := execute_query srv Sample.sql 300 None self in
  sent_methods (events first) = [GET; POST]
  /\ sent_methods (events (execute_query srv Sample.sql 300 None (client_after first)))
     = [POST].
Proof.
  cbn zeta. split; [vm_compute; reflexivity|].
  eapply (execute_query_looks_database_up_once
            (Sample.server Sample.database_listing (Sample.orders 5 2))
            Sample.sql 300 None (with_database_id Sample.logged_in None)).
  vm_compute. reflexivity.
Defined.

Lemma pd_DataFrame_shape rows names df :
  pd_DataFrame rows names = inr df ->
  df_columns df = names /\ length (df_rows df) = length rows.
Proof.
  unfold pd_DataFrame. destruct rows as [|r rows].
  { by intros [= <-]. }
  destruct (Nat.eqb _ _); [|discriminate].
  intros [= <-]. split; [reflexivity|]. cbn [df_rows length]. f_equal. apply length_map.
Qed.

Lemma names_of_cols cols names : names_of cols = inr names -> map Some names = cols.
Proof.
  revert names. induction cols as [|[n|] cols IH]; intros names; cbn.
  - by intros [= <-].
  - destruct (names_of cols) as [e|ns]; [discriminate|].
    intros [= <-]. cbn. by rewrite (IH ns).
  - discriminate.
Qed.

Lemma submit_query_success srv q t mr self df :
  value (submit_query srv q t mr self) = Ok (Some df) ->
  exists code obj data names,
    srv (dataset_request self q t mr) = Responded code (JsonObject obj)
    /\ http_error code = false
    /\ j_status obj = Some "completed"
    /\ data_read obj = Some data
    /\ names_of (q_cols data) = inr names
    /\ pd_DataFrame (q_rows data) names = inr df
    /\ (q_results_truncated data = true ->
        In (Logged WARNING ResultsWereTruncated) (events (submit_query srv q t mr self))).
Proof.
  unfold submit_query, try_except, dataset_request. rewrite bind_get_self.
  rewrite bind_send. cbn zeta.
  destruct (srv _) as [|code payload]; [discriminate|].
  unfold raise_for_status, json, as_object. cbn [fst snd].
  destruct (http_error code) eqn:Hcode; [discriminate|].
  destruct payload as [| |obj]; [discriminate | discriminate |].
  cbn -[bool_decide].
  destruct (bool_decide (j_status obj = Some "completed")) eqn:Hst.
  2:{ cbn. destruct (j_error obj); discriminate. }
  apply bool_decide_eq_true in Hst.
  cbn. unfold query_data_of, data_read.
  destruct (j_data obj) as [|dbs|d|] eqn:Hdata; cbn.
  - intros [= <-].
    exists code, obj, {| q_rows := []; q_cols := []; q_results_truncated := false |}, [].
    rewrite Hdata. repeat split; auto. discriminate.
  - discriminate.
  - unfold bind. rewrite column_names_run.
    destruct (names_of (q_cols d)) as [e|names] eqn:Hnames; cbn.
    { destruct (is_request_exception e); discriminate. }
    destruct (q_results_truncated d) eqn:Htrunc; cbn;
      (destruct (pd_DataFrame (q_rows d) names) as [e|df'] eqn:Hdf; cbn;
       [ destruct (is_request_exception e); discriminate | ]);
      intros [= <-]; exists code, obj, d, names; rewrite Hdata;
      repeat split; auto; try discriminate; try tauto; congruence.
  - discriminate.
Qed.

(** X7. The row ceiling is only a parameter of the request.  Whatever
    [max_results] was asked for, a frame that comes back holds every row
    of the answer and the column names of the answer; a truncation flagged
    by the server changes nothing but two warning lines. *)
Theorem execute_query_returns_every_row_sent srv q t mr self df :
  value (execute_query srv q t mr self) = Ok (Some df) ->
  let c := client_after (execute_query srv q t mr self) in
  exists code obj data,
    srv (dataset_request c q t mr) = Responded code (JsonObject obj)
    /\ data_read obj = Some data
    /\ len df = Z.of_nat (length (q_rows data))
    /\ map Some (df_columns df) = q_cols data
    /\ (q_results_truncated data = true ->
        In (Logged WARNING ResultsWereTruncated) (events (execute_query srv q t mr self))).
Proof.
  intros Hdf. cbn zeta.
  destruct (token_truthy (session_token self)) eqn:Htok.
  2:{ rewrite execute_query_unauthenticated in Hdf by exact Htok. discriminate. }
  rewrite execute_query_authenticated in Hdf |- * by exact Htok.
  destruct (ensure_database_id srv self) as [[[[|]|e|] c] evs]; try discriminate.
  rewrite value_after in Hdf.
  rewrite client_after_after, events_after, <- (keeps_submit_query srv q t mr c).
  destruct (submit_query_success _ _ _ _ _ _ Hdf)
    as (code & obj & data & names & Hsrv & _ & _ & Hdata & Hnames & Hframe & Htrunc).
  destruct (pd_DataFrame_shape _ _ _ Hframe) as [Hcols Hrows].
  exists code, obj, data. repeat split; auto.
  - unfold len. by rewrite Hrows.
  - rewrite Hcols. by apply names_of_cols.
  - intros H. apply in_or_app. right. by apply Htrunc.
Qed.

(** Five rows come back from a request that asked for at most two. *)
Lemma execute_query_returns_every_row_sent_witness :
  let srv := Sample.server Sample.database_listing (fun _ => Sample.completed ["id"] (Sample.ids 0 5)) in
  exists df,
    value (execute_query srv Sample.sql 300 (Some 2) Sample.logged_in) = Ok (Some df)
    /\ len df = 5.
Proof.
  cbn zeta. eexists. split; [vm_compute; reflexivity|].
  destruct (execute_query_returns_every_row_sent
              (Sample.server Sample.database_listing
                 (fun _ => Sample.completed ["id"] (Sample.ids 0 5)))
              Sample.sql 300 (Some 2) Sample.logged_in _ eq_refl)
    as (code & obj & data & Hsrv & Hdata & Hlen & _).
  vm_compute in Hsrv. injection Hsrv as <- <-.
  vm_compute in Hdata. injection Hdata as <-. exact Hlen.
Defined.

(** ** Login and logout together *)

(** X8. After [logout], whatever the client held before and whatever the
    server did with the logout request, the client cannot query and has
    nothing left to log out: [execute_query] returns [None] and a second
    [logout] returns at once, both without sending anything. *)
Theorem nothing_is_sent_after_logout srv self srv' q t mr :
  let c := client_after (logout srv self) in
  execute_query srv' q t mr c = (Ok None, c, [Logged ERROR NotAuthenticated])
  /\ logout srv' c = (Ok tt, c, []).
Proof.
  cbn zeta.
  assert (Htok : token_truthy (session_token (client_after (logout srv self))) = false).
  { destruct (token_truthy (session_token self)) eqn:H.
    - destruct (logout_run srv self H) as (line & ->). reflexivity.
    - unfold logout. rewrite bind_get_self, H. exact H. }
  split; [by apply execute_query_unauthenticated|].
  unfold logout at 1. by rewrite bind_get_self, Htok.
Qed.

(** X9. Round trip.  On a client without session, a login that stores a
    usable token followed by a logout gives the client back as it was.
    A login whose answer had no usable ['id'] is not undone: [logout]
    does nothing and the header it set stays. *)
Theorem login_then_logout_restores_client srv srv' self :
  session_token self = None ->
  session_header self = None ->
  value (authenticate srv self) = Ok true ->
  let c := client_after (authenticate srv self) in
  if token_truthy (session_token c)
  then client_after (logout srv' c) = self
  else client_after (logout srv' c) = c /\ session_header c <> None.
Proof.
  intros Htok Hhdr Htrue. cbn zeta. rewrite authenticate_run in *.
  destruct (srv (login_request self)) as [|code pl]; [discriminate|].
  destruct (http_error code); [discriminate|].
  destruct pl as [| |obj]; [discriminate | discriminate |].
  cbn [value client_after fst snd with_session_header with_session_token session_token
       session_header].
  destruct (token_truthy (j_id obj)) eqn:Hid.
  - destruct (logout_run srv'
                (with_session_header (with_session_token self (j_id obj)) (Some (j_id obj)))
                Hid) as (line & ->).
    cbn. destruct self as [cfg hdr tok db]. cbn in *. by subst.
  - unfold logout. rewrite bind_get_self.
    cbn [with_session_header with_session_token session_token]. rewrite Hid.
    by split.
Qed.

Lemma login_then_logout_restores_client_witness :
  let srv := Sample.server Sample.database_listing (Sample.orders 5 2) in
  client_after (logout srv (client_after (authenticate srv (new_client Sample.cfg))))
  = new_client Sample.cfg.
Proof.
  cbn zeta.
  exact (login_then_logout_restores_client
           (Sample.server Sample.database_listing (Sample.orders 5 2))
           (Sample.server Sample.database_listing (Sample.orders 5 2))
           (new_client Sample.cfg) eq_refl eq_refl eq_refl).
Defined.

(** ** Query texts *)

Lemma rstrip_semicolon_append s :
  rstrip_semicolon (s ++ ";") = rstrip_semicolon s.
Proof.
  induction s as [|a s IH]; [reflexivity|].
  change (String a s ++ ";")%string with (String a (s ++ ";")).
  cbn [rstrip_semicolon]. by rewrite IH.
Qed.

Lemma rstrip_semicolon_cons a s :
  rstrip_semicolon (String a s) =
  match rstrip_semicolon s with
  | EmptyString => if Ascii.eqb a ";"%char then EmptyString else String a EmptyString
  | kept => String a kept
  end.
Proof. reflexivity. Qed.

Lemma rstrip_semicolon_idempotent s :
  rstrip_semicolon (rstrip_semicolon s) = rstrip_semicolon s.
Proof.
  induction s as [|a s IH]; [reflexivity|].
  rewrite rstrip_semicolon_cons.
  destruct (rstrip_semicolon s) as [|b kept] eqn:Hs.
  - destruct (Ascii.eqb a ";") eqn:Ha; [reflexivity|].
    rewrite rstrip_semicolon_cons. cbn [rstrip_semicolon]. by rewrite Ha.
  - rewrite rstrip_semicolon_cons, IH. reflexivity.
Qed.

(** X10. Trailing semicolons of the caller's SQL never reach a paginated or a
    counting request: the query with one more semicolon at its end gives
    the same page queries and the same count queries. *)
Theorem trailing_semicolon_is_dropped sql p offset indent :
  paginated_query (sql ++ ";") p offset = paginated_query sql p offset
  /\ count_query indent (sql ++ ";") = count_query indent sql
  /\ paginated_query (rstrip_semicolon sql) p offset = paginated_query sql p offset.
Proof.
  unfold paginated_query, count_query.
  by rewrite rstrip_semicolon_append, rstrip_semicolon_idempotent.
Qed.

Lemma to_int_not_nil z :
  Z.to_int z <> Decimal.Pos Decimal.Nil /\ Z.to_int z <> Decimal.Neg Decimal.Nil.
Proof.
  destruct z as [|x|x]; cbn; split; try discriminate;
    intros [= Hx]; by apply DecimalPos.Unsigned.to_uint_nonnil in Hx.
Qed.

(** [str] is injective: different integers print differently. *)
Lemma str_inj a b : str a = str b -> a = b.
Proof.
  unfold str. intros H. apply DecimalZ.to_int_inj.
  destruct (to_int_not_nil a) as [Ha1 Ha2]. destruct (to_int_not_nil b) as [Hb1 Hb2].
  pose proof (NilZero.isi _ Ha1 Ha2) as Ia.
  pose proof (NilZero.isi _ Hb1 Hb2) as Ib.
  rewrite H in Ia. congruence.
Qed.

(** X11. The pages of a paginated fetch are told apart by their request text:
    with a non-zero page size, two page numbers give the same query text
    only if they are the same page. *)
Theorem page_queries_are_distinct sql p k k' :
  p <> 0 ->
  page_query sql p k = page_query sql p k' ->
  k = k'.
Proof.
  intros Hp H. unfold page_query, paginated_query in H.
  do 4 apply String.app_inj in H.
  apply str_inj in H. nia.
Qed.

Lemma page_queries_are_distinct_witness :
  page_query Sample.sql 25000 3 <> page_query Sample.sql 25000 4.
Proof.
  intros H. apply (page_queries_are_distinct Sample.sql 25000 3 4) in H; lia.
Defined.

(** ** Sequential pagination without end *)

Lemma pagination_loop_out_of_fuel srv sql p self (pages : nat -> DataFrame) :
  (forall k, fetched srv self sql p k = Ok (Some (pages k))
             /\ len (pages k) <> 0 /\ p <= len (pages k)) ->
  forall fuel acc k0 c,
    (forall q, value (execute_query srv q 300 (Some p) c)
               = value (execute_query srv q 300 (Some p) self)) ->
    value (pagination_loop fuel srv sql p acc (Z.of_nat k0 * p) c) = OutOfFuel.
Proof.
  intros Hfull. induction fuel as [|fuel IH]; intros acc k0 c Hc; [reflexivity|].
  cbn [pagination_loop]. fold (page_query sql p k0).
  destruct (Hfull k0) as (Hpage & Hnonzero & Hbig).
  pose proof (Hc (page_query sql p k0)) as Hv.
  unfold fetched in Hpage. rewrite Hpage in Hv.
  assert (Hc' : forall q,
            value (execute_query srv q 300 (Some p)
                     (client_after (execute_query srv (page_query sql p k0) 300 (Some p) c)))
            = value (execute_query srv q 300 (Some p) self)).
  { intros q. by rewrite execute_query_again. }
  unfold bind at 1.
  destruct (execute_query srv (page_query sql p k0) 300 (Some p) c) as [[v c'] evs].
  cbn [value client_after events fst snd] in *. subst v.
  rewrite (proj2 (Z.eqb_neq _ _) Hnonzero).
  rewrite bind_log, (proj2 (Z.ltb_ge _ _) Hbig), !value_after.
  replace (Z.of_nat k0 * p + p) with (Z.of_nat (S k0) * p) by lia.
  by apply IH.
Qed.

(** X12. The loop has no bound of its own.  If every page comes back non-empty
    with at least [p] rows (a server that ignores the offset does that),
    the engine keeps requesting: whatever number of requests it is
    allowed, it has not returned when they are used up. *)
Theorem sequential_pagination_never_returns_on_full_pages
    srv sql p self (pages : nat -> DataFrame) :
  (forall k, fetched srv self sql p k = Ok (Some (pages k))
             /\ len (pages k) <> 0 /\ p <= len (pages k)) ->
  forall fuel,
    value (execute_query_with_pagination fuel srv sql p self) = OutOfFuel.
Proof.
  intros Hfull fuel. unfold execute_query_with_pagination.
  rewrite bind_log, value_after.
  pose proof (pagination_loop_out_of_fuel srv sql p self pages Hfull fuel [] 0%nat self
                ltac:(reflexivity)) as Hloop.
  change (Z.of_nat 0 * p) with 0 in Hloop.
  unfold bind.
  destruct (pagination_loop fuel srv sql p [] 0 self) as [[[dfs|e|] c] evs];
    cbn [value fst] in Hloop; try discriminate. reflexivity.
Qed.

Lemma sequential_pagination_never_returns_on_full_pages_witness :
  let srv := Sample.server Sample.database_listing
               (fun _ => Sample.completed ["id"] (Sample.ids 0 2)) in
  value (execute_query_with_pagination 25 srv Sample.sql 2 Sample.logged_in) = OutOfFuel.
Proof.
  cbn zeta.
  apply (sequential_pagination_never_returns_on_full_pages
           (Sample.server Sample.database_listing
              (fun _ => Sample.completed ["id"] (Sample.ids 0 2)))
           Sample.sql 2 Sample.logged_in
           (fun _ => {| df_columns := ["id"]; df_rows := Sample.ids 0 2 |})).
  intros k. split; [reflexivity|]. split; [discriminate | vm_compute; discriminate].
Defined.

(** ** More on the parallel engine *)

Lemma omap_all_none {A B} (f : A -> option B) l :
  (forall x, In x l -> f x = None) -> omap f l = [].
Proof.
  induction l as [|x l IH]; intros H; [reflexivity|].
  cbn. rewrite (H x) by (by left). apply IH. intros y Hy. apply H. by right.
Qed.

(** X13. The parallel engine changes the calling client through its count
    query only: whatever the server answers, whatever the page size, the
    number of workers and the order of the futures, and whether the call
    returns or raises, the client is left as the count query left it.
    The page tasks work on clients of their own. *)
Theorem parallel_leaves_client_to_count_query srv as_completed q p mw self :
  client_after (execute_query_with_parallel_pagination srv as_completed q p mw self)
  = client_after (execute_query srv (count_query indent8 q) 300 (Some 1) self).
Proof.
  destruct (parallel_shape srv as_completed q p mw self)
    as [[_ Hclient]|(pre & n & Hr & _)]; [exact Hclient|].
  cbn zeta in Hr. rewrite Hr, client_after_after.
  apply fetch_all_pages_keeps_client.
Qed.

(** X14. Take a parallel fetch that handed page tasks to the pool, under any
    fair scheduler.  When every task fails, the call returns [None]: the
    caller cannot tell this from a failed count query. *)
Theorem parallel_returns_none_when_every_page_fails
    srv as_completed q p mw self :
  fair as_completed ->
  let r := execute_query_with_parallel_pagination srv as_completed q p mw self in
  let dispatched := submitted (events r) in
  dispatched <> [] ->
  (forall k, In k dispatched -> page_outcome srv self q p k = None) ->
  value r = Ok None /\ dispatched = seq 0 (length dispatched).
Proof.
  intros Hfair. cbn zeta. intros Hsome Hnone.
  destruct (parallel_dispatched srv as_completed q p mw self Hfair Hsome) as [Hseq Hvalue].
  rewrite omap_all_none in Hvalue by exact Hnone. by split.
Qed.

Lemma parallel_returns_none_when_every_page_fails_witness :
  let srv := Sample.server Sample.database_listing (Sample.counting 5) in
  let r := execute_query_with_parallel_pagination srv Sample.last_first
             Sample.sql 2 6 Sample.logged_in in
  value r = Ok None /\ submitted (events r) = [0; 1; 2]%nat.
Proof.
  cbn zeta.
  destruct (parallel_returns_none_when_every_page_fails
              (Sample.server Sample.database_listing (Sample.counting 5))
              Sample.last_first Sample.sql 2 6 Sample.logged_in last_first_fair)
    as [Hvalue _].
  - vm_compute. discriminate.
  - intros k Hk. vm_compute in Hk.
    destruct Hk as [<-|[<-|[<-|[]]]]; vm_compute; reflexivity.
  - split; [exact Hvalue | vm_compute; reflexivity].
Defined.

(** X15. A count answer from which no number can be read is not turned into
    [None].  The exception of reading it ([IndexError] for an answer
    without rows, [KeyError] for one without the column [total_rows])
    leaves both the parallel engine and the selector in ["auto"] mode.  A
    count that is text fails where it is first used as a number: in the
    sum of the parallel engine, with [TypeError], and in the format of the
    selector's log line, with [ValueError]. *)
Theorem unreadable_count_raises
    fuel srv as_completed q p mw self frame8 c8 ev8 frame12 c12 ev12 :
  execute_query srv (count_query indent8 q) 300 (Some 1) self
    = (Ok (Some frame8), c8, ev8) ->
  execute_query srv (count_query indent12 q) 300 (Some 1) self
    = (Ok (Some frame12), c12, ev12) ->
  let parallel :=
    value (execute_query_with_parallel_pagination srv as_completed q p mw self) in
  let selector :=
    value (execute_query_optimized fuel srv as_completed q "auto" self) in
  (forall e, count_read frame8 = inl e -> parallel = Raise e)
  /\ (forall e, count_read frame12 = inl e -> selector = Raise e)
  /\ (forall s, count_read frame8 = inr (PyStr s) -> parallel = Raise TypeError)
  /\ (forall s, count_read frame12 = inr (PyStr s) -> selector = Raise ValueError).
Proof.
  intros H8 H12. cbn zeta.
  assert (Hparallel : forall x,
            count_read frame8 = x ->
            value (execute_query_with_parallel_pagination srv as_completed q p mw self)
            = value (after ev8
                       ((let* total_rows := lift x in
                         let* total_pages := lift (page_count total_rows p) in
                         let* _ := log INFO (totals_line total_rows total_pages p) in
                         if count_is_zero total_rows then ret (Some empty_frame)
                         else
                           match total_pages with
                           | Pages n => fetch_all_pages srv as_completed q p mw n
                           | PagesInexact => raise TypeError
                           end) c8))).
  { intros x <-. unfold execute_query_with_parallel_pagination.
    by rewrite bind_log, value_after, (bind_ok _ _ _ _ _ _ H8). }
  assert (Hselector : forall x,
            count_read frame12 = x ->
            (forall k, x = inr k -> exists e, estimate_line k = inl e) ->
            value (execute_query_optimized fuel srv as_completed q "auto" self)
            = match x with
              | inl e => Raise e
              | inr k => match estimate_line k with
                         | inl e => Raise e
                         | inr _ => OutOfFuel
                         end
              end).
  { intros x <- Hfails. unfold execute_query_optimized.
    change (String.eqb "auto" "auto") with true. cbn iota.
    unfold bind at 1. unfold bind at 1. rewrite H12.
    destruct (count_read frame12) as [e|k]; [reflexivity|].
    destruct (Hfails k eq_refl) as [e He].
    cbn [lift]. rewrite bind_ret. unfold bind at 1. by rewrite He. }
  repeat split.
  - intros e He. by rewrite (Hparallel _ He).
  - intros e He. rewrite (Hselector _ He); [reflexivity | discriminate].
  - intros s Hs. by rewrite (Hparallel _ Hs).
  - intros s Hs. rewrite (Hselector _ Hs); [reflexivity|].
    intros k [= <-]. by eexists.
Qed.

(** A count that comes back as the text ["5"]. *)
Lemma unreadable_count_raises_witness :
  let srv := Sample.server Sample.database_listing
               (fun _ => Sample.completed ["total_rows"] [[CStr "5"]]) in
  value (execute_query_with_parallel_pagination srv Sample.last_first
           Sample.sql 50000 6 Sample.logged_in) = Raise TypeError
  /\ value (execute_query_optimized 10 srv Sample.last_first
              Sample.sql "auto" Sample.logged_in) = Raise ValueError.
Proof.
  cbn zeta.
  destruct (unreadable_count_raises 10
              (Sample.server Sample.database_listing
                 (fun _ => Sample.completed ["total_rows"] [[CStr "5"]]))
              Sample.last_first Sample.sql 50000 6 Sample.logged_in
              {| df_columns := ["total_rows"]; df_rows := [[CStr "5"]] |}
              Sample.logged_in _
              {| df_columns := ["total_rows"]; df_rows := [[CStr "5"]] |}
              Sample.logged_in _
              ltac:(vm_compute; reflexivity) ltac:(vm_compute; reflexivity))
    as (_ & _ & Hparallel & Hselector).
  split; [exact (Hparallel "5" eq_refl) | exact (Hselector "5" eq_refl)].
Defined.



(** ** Warehouse dispatch *)

(** X17. [execute_query_from_warehouse] knows three mode names: ["fast"] and
    ["parallel"] run the parallel engine, ["auto"] runs the selector.  Any
    other name, ["single"] and ["pagination"] included, is ignored and the
    flag [use_pagination] decides between sequential pagination and the
    single-shot executor; the selector called with the same name picks the
    strategy by the name, and the parallel engine for a name it does not
    know. *)
Theorem warehouse_ignores_other_mode_names
    fuel srv as_completed query use_pagination mode self :
  mode <> "fast" -> mode <> "parallel" -> mode <> "auto" ->
  execute_query_from_warehouse fuel srv as_completed (inr query) use_pagination mode self
  = (if use_pagination
     then execute_query_with_pagination fuel srv query 25000 self
     else execute_query srv query 300 (Some 100000) self)
  /\ execute_query_optimized fuel srv as_completed query mode self
     = (if String.eqb mode "single"
        then execute_query srv query 300 (Some 100000) self
        else if String.eqb mode "pagination"
             then execute_query_with_pagination fuel srv query 25000 self
             else execute_query_with_parallel_pagination srv as_completed query 50000 6 self).
Proof.
  intros Hfast Hparallel Hauto.
  apply String.eqb_neq in Hfast, Hparallel, Hauto. split.
  - unfold execute_query_from_warehouse. cbn [lift]. rewrite bind_ret.
    rewrite Hfast, Hparallel, Hauto. cbn [orb]. by destruct use_pagination.
  - unfold execute_query_optimized. rewrite Hauto, bind_ret.
    destruct (String.eqb mode "single"); [reflexivity|].
    destruct (String.eqb mode "pagination"); [reflexivity|].
    by destruct (String.eqb mode "parallel").
Qed.

Lemma warehouse_ignores_other_mode_names_witness :
  let srv := Sample.server Sample.database_listing (Sample.orders 5 2) in
  execute_query_from_warehouse 10 srv Sample.in_order (inr Sample.sql) true "single"
    Sample.logged_in
  = execute_query_with_pagination 10 srv Sample.sql 25000 Sample.logged_in
  /\ execute_query_optimized 10 srv Sample.in_order Sample.sql "single" Sample.logged_in
     = execute_query srv Sample.sql 300 (Some 100000) Sample.logged_in.
Proof.
  cbn zeta.
  exact (warehouse_ignores_other_mode_names 10
           (Sample.server Sample.database_listing (Sample.orders 5 2))
           Sample.in_order Sample.sql true "single" Sample.logged_in
           ltac:(discriminate) ltac:(discriminate) ltac:(discriminate)).
Defined.

(** ** The session across the fetch strategies *)

Lemma session_out_of_fuel {A} : preserves same_session (@out_of_fuel A).
Proof. intros c. apply same_session_refl. Qed.

Lemma session_emit evs : preserves same_session (emit evs).
Proof. intros c. apply same_session_refl. Qed.

#[local] Hint Resolve session_out_of_fuel session_emit session_execute_query : core.

Lemma session_pagination_loop fuel srv q size frames offset :
  preserves same_session (pagination_loop fuel srv q size frames offset).
Proof.
  revert frames offset.
  induction fuel as [|fuel IH]; intros frames offset; simpl; preserves_solve.
Qed.

#[local] Hint Resolve session_pagination_loop : core.

Lemma session_execute_query_with_pagination fuel srv q size :
  preserves same_session (execute_query_with_pagination fuel srv q size).
Proof. unfold execute_query_with_pagination. preserves_solve. Qed.

Lemma session_collect total completed frames n :
  preserves same_session (collect total completed frames n).
Proof.
  revert frames n.
  induction completed as [|[task future] rest IH]; intros frames n; simpl.
  - preserves_solve.
  - apply preserves_bind; eauto. intros _.
    destruct (value future) as [[[df|] k]|e|]; unfold store; preserves_solve.
Qed.

#[local] Hint Resolve session_collect session_execute_query_with_pagination : core.

Lemma session_fetch_all_pages srv sched q size workers total :
  preserves same_session (fetch_all_pages srv sched q size workers total).
Proof. unfold fetch_all_pages, thread_pool. preserves_solve. Qed.

#[local] Hint Resolve session_fetch_all_pages : core.

Lemma session_parallel srv sched q size workers :
  preserves same_session (execute_query_with_parallel_pagination srv sched q size workers).
Proof.
  unfold execute_query_with_parallel_pagination. preserves_solve.
Qed.

#[local] Hint Resolve session_parallel : core.

Lemma session_execute_query_optimized fuel srv sched q mode :
  preserves same_session (execute_query_optimized fuel srv sched q mode).
Proof. unfold execute_query_optimized. preserves_solve. Qed.

#[local] Hint Resolve session_execute_query_optimized : core.

Lemma session_execute_query_from_warehouse fuel srv sched query_func use_pagination mode :
  preserves same_session
    (execute_query_from_warehouse fuel srv sched query_func use_pagination mode).
Proof. unfold execute_query_from_warehouse. preserves_solve. Qed.

(** ** Credentials of the front end *)

Lemma dict_get_team_databases key name :
  dict_get key team_databases = Some name -> In name (map snd team_databases).
Proof.
  unfold team_databases. cbn [dict_get map snd].
  repeat (destruct (String.eqb _ key); [intros [= <-]; cbn; tauto|]).
  discriminate.
Qed.

Lemma token_truthy_nonempty t :
  token_truthy t = true -> exists s, t = Some s /\ s <> "".
Proof.
  destruct t as [s|]; [|discriminate]. cbn. intros H. exists s. split; [reflexivity|].
  intros ->. discriminate.
Qed.

Ltac truthy_cases :=
  repeat
    (cbn [negb];
     match goal with
     | H : token_truthy ?x = _ |- context [token_truthy ?x] => rewrite H
     | |- context [token_truthy ?x] =>
         lazymatch x with
         | context [token_truthy _] => fail
         | _ => destruct (token_truthy x) eqn:?
         end
     end);
  cbn [negb].

(** X18. [get_config] takes the first password that is neither [None] nor
    empty among its argument, [DEFAULT_PASSWORD] and the environment
    variable, in this order, and raises [ValueError] when there is none,
    before it looks at the team; an empty team name counts as no team. *)
Theorem get_config_password_precedence env team password :
  get_config env team password =
  match first_truthy [password; default_password env; env_password env] with
  | None => inl ValueError
  | Some p =>
      create_with_team_db DEFAULT_URL DEFAULT_USERNAME p
        (get_default (first_truthy [team]) (default_team env))
  end.
Proof.
  unfold get_config, or_else. cbn [first_truthy].
  truthy_cases; try reflexivity;
    repeat match goal with
           | H : token_truthy ?x = true |- _ =>
               destruct (token_truthy_nonempty _ H) as (? & -> & _); clear H
           end; reflexivity.
Qed.

(** X19. A configuration [get_config] returns points at the fixed server and
    user, carries a non-empty password, names the connection of one of
    the three teams and leaves the database id to be looked up. *)
Theorem get_config_gives_team_connection env team pw cfg :
  get_config env team pw = inr cfg ->
  url cfg = DEFAULT_URL /\ username cfg = DEFAULT_USERNAME
  /\ password cfg <> ""
  /\ In (database_name cfg) (map snd team_databases)
  /\ config_database_id cfg = None.
Proof.
  unfold get_config.
  destruct (token_truthy (or_else (or_else pw (default_password env))
                            (env_password env))) eqn:Hp; cbn [negb]; [|discriminate].
  destruct (token_truthy_nonempty _ Hp) as (s & -> & Hs). cbn [get_default].
  unfold create_with_team_db.
  destruct (dict_get _ team_databases) as [name|] eqn:Hname; [|discriminate].
  intros [= <-]. cbn. repeat split; auto.
  eapply dict_get_team_databases, Hname.
Qed.

Lemma get_config_gives_team_connection_witness :
  exists cfg,
    get_config (loaded (Some "pw")) (Some "DATA") None = inr cfg
    /\ database_name cfg = "Data Team Clickhouse Connection"
    /\ In (database_name cfg) (map snd team_databases).
Proof.
  eexists. split; [reflexivity|]. split; [reflexivity|].
  exact (proj1 (proj2 (proj2 (proj2
           (get_config_gives_team_connection (loaded (Some "pw")) (Some "DATA") None _
              eq_refl))))).
Defined.

(** X20. After [setup_credentials(password, team)] with a non-empty password, a
    call of [get_config] without arguments builds the configuration of that
    team with that password, unless [DEFAULT_PASSWORD] has been set: the
    class attribute is read before the environment variable and wins. *)
Theorem setup_credentials_round_trip env pw team :
  pw <> "" ->
  get_config (setup_credentials env pw team) None None
  = create_with_team_db DEFAULT_URL DEFAULT_USERNAME
      (if token_truthy (default_password env)
       then get_default (default_password env) ""
       else pw)
      team.
Proof.
  intros Hpw. apply String.eqb_neq in Hpw.
  unfold get_config, or_else.
  cbn [setup_credentials default_password env_password default_team token_truthy
       get_default].
  destruct (token_truthy (default_password env)) eqn:Hd.
  - rewrite Hd. by destruct (token_truthy_nonempty _ Hd) as (s & -> & _).
  - cbn [token_truthy]. by rewrite Hpw.
Qed.

Lemma setup_credentials_round_trip_witness :
  get_config (setup_credentials (loaded None) "pw" "Product") None None
  = create_with_team_db DEFAULT_URL DEFAULT_USERNAME "pw" "Product".
Proof.
  exact (setup_credentials_round_trip (loaded None) "pw" "Product" ltac:(discriminate)).
Defined.

(** ** Runs of the application *)

Lemma app_after_nil {A} (r : AppRun A) : app_after [] r = r.
Proof. by destruct r as [[v c] evs]. Qed.

Lemma app_after_after {A} e1 e2 (r : AppRun A) :
  app_after e1 (app_after e2 r) = app_after (e1 ++ e2) r.
Proof. unfold app_after. cbn. by rewrite app_assoc. Qed.

Lemma app_bind_ok {A B} (m : App A) (f : A -> App B) self a self' evs :
  m self = (Ok a, self', evs) -> app_bind m f self = app_after evs (f a self').
Proof. intros H. unfold app_bind. by rewrite H. Qed.

Lemma app_bind_get_self {B} (f : MetabaseClient -> App B) self :
  app_bind (of_client get_self) f self = f self self.
Proof. unfold app_bind, of_client, get_self. cbn [map]. apply app_after_nil. Qed.

Lemma app_bind_card_log {B} l m (f : unit -> App B) self :
  app_bind (card_log l m) f self = app_after [CardLogged l m] (f tt self).
Proof. reflexivity. Qed.

Lemma app_bind_ret {A B} (a : A) (f : A -> App B) self :
  app_bind (app_ret a) f self = f a self.
Proof. unfold app_bind, app_ret. apply app_after_nil. Qed.

Lemma app_bind_lift {A B} (x : Exn + A) (f : A -> App B) self :
  app_bind (of_client (lift x)) f self
  = match x with
    | inl e => (Raise e, self, [])
    | inr a => f a self
    end.
Proof.
  destruct x as [e|a]; unfold app_bind, of_client; cbn; [reflexivity|].
  apply app_after_nil.
Qed.

Lemma app_bind_as_lift {A B} (m : M A) (x : Exn + A) (f : A -> App B) self :
  m self = lift x self ->
  app_bind (of_client m) f self
  = match x with
    | inl e => (Raise e, self, [])
    | inr a => f a self
    end.
Proof.
  intros H. rewrite <- app_bind_lift. unfold app_bind, of_client. by rewrite H.
Qed.

Lemma names_of_error cols e : names_of cols = inl e -> e = KeyError.
Proof.
  induction cols as [|[n|] rest IH]; cbn.
  - discriminate.
  - destruct (names_of rest) as [e'|names]; [|discriminate].
    intros [= <-]. by apply IH.
  - by intros [= <-].
Qed.

Lemma frame_read_error obj e : frame_read obj = inl e -> is_request_exception e = false.
Proof.
  unfold frame_read. destruct (data_read obj) as [data|]; [|by intros [= <-]].
  destruct (names_of (q_cols data)) as [e'|names] eqn:Hnames.
  - intros [= <-]. by rewrite (names_of_error _ _ Hnames).
  - unfold pd_DataFrame. destruct (q_rows data); [discriminate|].
    destruct (Nat.eqb _ _); [discriminate|]. by intros [= <-].
Qed.

(** ** Saved questions *)

Lemma execute_saved_question_run cards question_id parameters self :
  token_truthy (session_token self) = true ->
  let req := card_request self (RunCard question_id (card_parameters parameters))
               (Some 300) in
  let start := CardLogged INFO (ExecutingSavedQuestion question_id) in
  let refused :=
    (Ok None, self,
     [start; CardSent req;
      CardLogged ERROR (FailedToExecuteQuestion question_id RequestException)]) in
  execute_saved_question cards question_id parameters self =
  match cards req with
  | CardConnectionFailed => refused
  | CardResponded code payload =>
      if http_error code then refused
      else
        match payload with
        | CardNotJson => refused
        | CardFalsyValue | CardTruthyValue =>
            (Raise AttributeError, self, [start; CardSent req])
        | CardEmptyObject =>
            (Ok None, self,
             [start; CardSent req;
              CardLogged ERROR (QuestionFailedWithStatus question_id None)])
        | CardJson o =>
            let obj := card_envelope o in
            if bool_decide (j_status obj = Some "completed") then
              match frame_read obj with
              | inl e => (Raise e, self, [start; CardSent req])
              | inr df =>
                  (Ok (Some df), self,
                   [start; CardSent req;
                    CardLogged INFO
                      (QuestionExecuted question_id (len df) (length (df_columns df)))])
              end
            else
              (Ok None, self,
               [start; CardSent req;
                CardLogged ERROR (QuestionFailedWithStatus question_id (j_status obj))])
        end
  end.
Proof.
  intros Htok. cbn zeta. unfold execute_saved_question.
  rewrite app_bind_get_self, Htok. cbn [negb].
  unfold app_try_except. rewrite app_bind_card_log.
  unfold app_bind at 1, send_card.
  destruct (cards _) as [|code payload]; [reflexivity|].
  unfold card_raise_for_status, card_json. cbn [fst snd].
  destruct (http_error code); [reflexivity|].
  rewrite app_bind_ret.
  destruct payload as [| | | |o]; try reflexivity.
  rewrite app_bind_ret. cbn [envelope_of]. rewrite app_bind_ret.
  destruct (bool_decide (j_status (card_envelope o) = Some "completed")); [|reflexivity].
  cbn [negb]. unfold frame_read, data_read.
  destruct (j_data (card_envelope o)) as [|dbs|d|] eqn:Hdata.
  - rewrite (app_bind_as_lift _
               (inr {| q_rows := []; q_cols := []; q_results_truncated := false |}))
      by (unfold query_data_of; by rewrite Hdata).
    reflexivity.
  - rewrite (app_bind_as_lift _ (inl AttributeError))
      by (unfold query_data_of; by rewrite Hdata).
    reflexivity.
  - rewrite (app_bind_as_lift _ (inr d)) by (unfold query_data_of; by rewrite Hdata).
    rewrite (app_bind_as_lift _ (names_of (q_cols d))) by apply column_names_run.
    destruct (names_of (q_cols d)) as [e|names] eqn:Hnames.
    { by rewrite (names_of_error _ _ Hnames). }
    rewrite app_bind_lift.
    destruct (pd_DataFrame (q_rows d) names) as [e|df] eqn:Hdf; [|reflexivity].
    assert (e = ValueError) as ->; [|reflexivity].
    unfold pd_DataFrame in Hdf. destruct (q_rows d); [discriminate|].
    destruct (Nat.eqb _ _); [discriminate|]. by injection Hdf.
  - rewrite (app_bind_as_lift _ (inl AttributeError))
      by (unfold query_data_of; by rewrite Hdata).
    reflexivity.
Qed.

Lemma execute_saved_question_unauthenticated cards question_id parameters self :
  token_truthy (session_token self) = false ->
  execute_saved_question cards question_id parameters self
  = (Ok None, self, [OfClient (Logged ERROR NotAuthenticated)]).
Proof.
  intros Htok. unfold execute_saved_question. by rewrite app_bind_get_self, Htok.
Qed.

(** X21. A saved question is run with one request, whatever its result holds:
    one POST to the card with a 300 second limit, carrying the parameters
    when there are some (no parameters and an empty dictionary give the
    same body).  None of the client's own requests is made, neither the
    database listing nor a dataset query, and the client is left as it
    was. *)
Theorem saved_question_is_one_request cards question_id parameters self :
  token_truthy (session_token self) = true ->
  let r := execute_saved_question cards question_id parameters self in
  card_requests (app_events r)
  = [card_request self (RunCard question_id (card_parameters parameters)) (Some 300)]
  /\ client_requests (app_events r) = []
  /\ app_client r = self.
Proof.
  intros Htok. cbn zeta. rewrite execute_saved_question_run by exact Htok. cbn zeta.
  destruct (cards _) as [|code payload]; [by repeat split|].
  destruct (http_error code); [by repeat split|].
  destruct payload as [| | | |o]; try by repeat split.
  destruct (bool_decide _); [|by repeat split].
  by destruct (frame_read (card_envelope o)).
Qed.

Lemma saved_question_is_one_request_witness :
  let r := execute_saved_question
             (Cards.server Cards.built_card (Cards.result (Sample.ids 0 3)))
             3132 (Some []) Sample.logged_in in
  card_requests (app_events r)
  = [card_request Sample.logged_in (RunCard 3132 None) (Some 300)]
  /\ client_requests (app_events r) = []
  /\ app_client r = Sample.logged_in.
Proof.
  exact (saved_question_is_one_request
           (Cards.server Cards.built_card (Cards.result (Sample.ids 0 3)))
           3132 (Some []) Sample.logged_in eq_refl).
Defined.

(** X22. [execute_saved_question] catches request exceptions only.  When it
    raises, the exception is another one, the answer arrived with a good
    status and as JSON, and nothing is logged about the failure: an
    answer that is not an object, or a result whose data cannot be put in
    a frame, escapes to the caller. *)
Theorem saved_question_raises_on_malformed_answer cards question_id parameters self e :
  app_value (execute_saved_question cards question_id parameters self) = Raise e ->
  let req := card_request self (RunCard question_id (card_parameters parameters))
               (Some 300) in
  is_request_exception e = false
  /\ app_events (execute_saved_question cards question_id parameters self)
     = [CardLogged INFO (ExecutingSavedQuestion question_id); CardSent req]
  /\ exists code payload,
       cards req = CardResponded code payload
       /\ http_error code = false
       /\ match payload with
          | CardFalsyValue | CardTruthyValue => e = AttributeError
          | CardJson o =>
              j_status (card_envelope o) = Some "completed"
              /\ frame_read (card_envelope o) = inl e
          | _ => False
          end.
Proof.
  cbn zeta.
  destruct (token_truthy (session_token self)) eqn:Htok.
  2:{ by rewrite execute_saved_question_unauthenticated. }
  rewrite execute_saved_question_run by exact Htok. cbn zeta.
  destruct (cards _) as [|code payload]; [discriminate|].
  destruct (http_error code) eqn:Hcode; [discriminate|].
  destruct payload as [| | | |o]; try discriminate.
  - intros [= <-]. repeat split. by exists code, CardFalsyValue.
  - intros [= <-]. repeat split. by exists code, CardTruthyValue.
  - destruct (bool_decide _) eqn:Hst; [|discriminate].
    apply bool_decide_eq_true in Hst.
    destruct (frame_read (card_envelope o)) as [e'|df] eqn:Hframe; [|discriminate].
    intros [= <-]. split; [by eapply frame_read_error|]. split; [reflexivity|].
    by exists code, (CardJson o).
Qed.

Lemma saved_question_raises_on_malformed_answer_witness :
  let cards := Cards.server Cards.built_card CardTruthyValue in
  app_value (execute_saved_question cards 3132 None Sample.logged_in)
  = Raise AttributeError
  /\ is_request_exception AttributeError = false.
Proof.
  cbn zeta. split; [reflexivity|].
  exact (proj1 (saved_question_raises_on_malformed_answer
                  (Cards.server Cards.built_card CardTruthyValue)
                  3132 None Sample.logged_in AttributeError eq_refl)).
Defined.

(** X23. A frame comes back from a saved question only for an answer with a
    good status whose envelope says ["completed"], and it holds every row
    and every column name of that answer. *)
Theorem saved_question_frame_is_whole_answer cards question_id parameters self df :
  app_value (execute_saved_question cards question_id parameters self) = Ok (Some df) ->
  exists code o data,
    cards (card_request self (RunCard question_id (card_parameters parameters))
             (Some 300))
    = CardResponded code (CardJson o)
    /\ http_error code = false
    /\ j_status (card_envelope o) = Some "completed"
    /\ data_read (card_envelope o) = Some data
    /\ len df = Z.of_nat (length (q_rows data))
    /\ map Some (df_columns df) = q_cols data.
Proof.
  destruct (token_truthy (session_token self)) eqn:Htok.
  2:{ by rewrite execute_saved_question_unauthenticated. }
  rewrite execute_saved_question_run by exact Htok. cbn zeta.
  destruct (cards _) as [|code payload]; [discriminate|].
  destruct (http_error code) eqn:Hcode; [discriminate|].
  destruct payload as [| | | |o]; try discriminate.
  destruct (bool_decide _) eqn:Hst; [|discriminate].
  apply bool_decide_eq_true in Hst.
  unfold frame_read.
  destruct (data_read (card_envelope o)) as [data|] eqn:Hdata; [|discriminate].
  destruct (names_of (q_cols data)) as [e|names] eqn:Hnames; [discriminate|].
  destruct (pd_DataFrame (q_rows data) names) as [e|df'] eqn:Hframe; [discriminate|].
  intros [= <-].
  destruct (pd_DataFrame_shape _ _ _ Hframe) as [Hcols Hrows].
  exists code, o, data. repeat split; auto.
  - unfold len. by rewrite Hrows.
  - rewrite Hcols. by apply names_of_cols.
Qed.

Lemma saved_question_frame_is_whole_answer_witness :
  let cards := Cards.server Cards.built_card (Cards.result (Sample.ids 0 3)) in
  exists df,
    app_value (execute_saved_question cards 3132 None Sample.logged_in) = Ok (Some df)
    /\ exists code o data,
         cards (card_request Sample.logged_in (RunCard 3132 None) (Some 300))
         = CardResponded code (CardJson o)
         /\ http_error code = false
         /\ j_status (card_envelope o) = Some "completed"
         /\ data_read (card_envelope o) = Some data
         /\ len df = Z.of_nat (length (q_rows data))
         /\ map Some (df_columns df) = q_cols data.
Proof.
  cbn zeta. eexists. split; [reflexivity|].
  exact (saved_question_frame_is_whole_answer
           (Cards.server Cards.built_card (Cards.result (Sample.ids 0 3)))
           3132 None Sample.logged_in _ eq_refl).
Defined.

(** ** Saved questions with a strategy *)

Lemma get_question_details_run cards question_id self :
  get_question_details cards question_id self =
  if token_truthy (session_token self) then
    let req := card_request self (GetCard question_id) None in
    let refused :=
      (Ok None, self,
       [CardSent req;
        CardLogged ERROR (FailedToGetQuestionDetails question_id RequestException)]) in
    match cards req with
    | CardConnectionFailed => refused
    | CardResponded code payload =>
        if http_error code then refused
        else
          match payload with
          | CardNotJson => refused
          | p => (Ok (Some p), self, [CardSent req])
          end
    end
  else (Ok None, self, []).
Proof.
  unfold get_question_details. rewrite app_bind_get_self.
  destruct (token_truthy (session_token self)); [|reflexivity].
  cbn [negb]. cbn zeta. unfold app_try_except, app_bind at 1, send_card.
  destruct (cards _) as [|code payload]; [reflexivity|].
  unfold card_raise_for_status, card_json. cbn [fst snd].
  destruct (http_error code); [reflexivity|].
  by destruct payload.
Qed.

Lemma get_question_details_returns cards question_id self :
  get_question_details cards question_id self
  = (app_value (get_question_details cards question_id self), self,
     app_events (get_question_details cards question_id self))
  /\ exists details,
       app_value (get_question_details cards question_id self) = Ok details.
Proof.
  rewrite get_question_details_run.
  destruct (token_truthy (session_token self)); [|by eauto].
  cbn zeta. destruct (cards _) as [|code payload]; [by eauto|].
  destruct (http_error code); [by eauto|].
  destruct payload; by eauto.
Qed.

Lemma native_sql_some o sql :
  native_sql o = Some sql ->
  exists dq,
    card_dataset_query o = Some dq /\ dq_type dq = Some "native"
    /\ dq_native_query dq = Some sql /\ String.eqb sql "" = false.
Proof.
  unfold native_sql. destruct (card_dataset_query o) as [dq|]; [|discriminate].
  destruct (bool_decide (dq_type dq = Some "native")) eqn:Hty; [|discriminate].
  apply bool_decide_eq_true in Hty.
  destruct (dq_native_query dq) as [s|] eqn:Hq; [|discriminate].
  destruct (String.eqb s "") eqn:Hs; [discriminate|].
  intros [= <-]. exists dq. by repeat split.
Qed.

(** X24. A question whose details carry a non-empty native SQL text is not run
    as a card at all: after the details request and two log lines,
    [execute_saved_question_optimized] is the strategy selector on that
    text with the mode it was given, run on the same client. *)
Theorem optimized_question_runs_native_sql
    fuel srv cards as_completed question_id mode self o sql :
  app_value (get_question_details cards question_id self) = Ok (Some (CardJson o)) ->
  native_sql o = Some sql ->
  execute_saved_question_optimized fuel srv cards as_completed question_id mode self
  = app_after
      (app_events (get_question_details cards question_id self)
       ++ [CardLogged INFO (QuestionName (get_default (card_name o) "Unknown"));
           CardLogged INFO FoundNativeQuery])
      (of_client (execute_query_optimized fuel srv as_completed sql mode) self).
Proof.
  intros Hdetails Hsql.
  destruct (get_question_details_returns cards question_id self) as [Hrun _].
  rewrite Hdetails in Hrun.
  destruct (native_sql_some _ _ Hsql) as (dq & Hdq & Hty & Hq & Hne).
  unfold execute_saved_question_optimized.
  rewrite (app_bind_ok _ _ _ _ _ _ Hrun).
  unfold try_native_query. cbn [details_truthy].
  rewrite Hdq, Hq. cbn [get_default].
  rewrite (bool_decide_eq_true_2 _ Hty), Hne. cbn [negb].
  rewrite <- app_after_after. f_equal.
  unfold app_bind at 1.
  rewrite app_bind_card_log, app_bind_card_log.
  unfold app_bind, of_client, app_after.
  destruct (execute_query_optimized fuel srv as_completed sql mode self)
    as [[[v|e|] c] evs]; cbn; by rewrite ?app_nil_r.
Qed.

Lemma optimized_question_runs_native_sql_witness :
  let srv := Sample.server Sample.database_listing (Sample.orders 5 2) in
  let cards := Cards.server (Cards.native_card Sample.sql)
                 (Cards.result (Sample.ids 0 3)) in
  app_value (execute_saved_question_optimized 10 srv cards Sample.in_order 3132 "single"
               Sample.logged_in)
  = value (execute_query_optimized 10 srv Sample.in_order Sample.sql "single"
             Sample.logged_in).
Proof.
  cbn zeta.
  rewrite (optimized_question_runs_native_sql 10
             (Sample.server Sample.database_listing (Sample.orders 5 2))
             (Cards.server (Cards.native_card Sample.sql) (Cards.result (Sample.ids 0 3)))
             Sample.in_order 3132 "single" Sample.logged_in _ Sample.sql
             eq_refl eq_refl).
  reflexivity.
Defined.

(** X25. In every other case in which the details request returns (the client
    is not logged in, the request fails, the details are empty, the
    question is not native, or its SQL text is empty),
    [execute_saved_question_optimized] is [execute_saved_question] without
    parameters, preceded by at most the name line and by the line that
    announces the direct execution; the mode is not looked at. *)
Theorem optimized_question_falls_back
    fuel srv cards as_completed question_id mode self details :
  app_value (get_question_details cards question_id self) = Ok details ->
  details <> Some CardTruthyValue ->
  (forall o, details = Some (CardJson o) -> native_sql o = None) ->
  execute_saved_question_optimized fuel srv cards as_completed question_id mode self
  = app_after
      (app_events (get_question_details cards question_id self)
       ++ name_line details ++ [CardLogged INFO UsingDirectExecution])
      (execute_saved_question cards question_id None self).
Proof.
  intros Hdetails Hobject Hsql.
  destruct (get_question_details_returns cards question_id self) as [Hrun _].
  rewrite Hdetails in Hrun.
  unfold execute_saved_question_optimized.
  rewrite (app_bind_ok _ _ _ _ _ _ Hrun).
  rewrite <- app_after_after. f_equal.
  unfold try_native_query.
  destruct details as [[| | | |o]|]; cbn [details_truthy name_line app];
    try (rewrite app_bind_ret; apply app_bind_card_log).
  { by destruct Hobject. }
  specialize (Hsql o eq_refl). unfold native_sql in Hsql.
  assert (Hfall :
    (let dataset_query :=
       match card_dataset_query o with
       | Some dq => dq
       | None => {| dq_type := None; dq_native_query := None |}
       end in
     if bool_decide (dq_type dataset_query = Some "native") then
       if negb (String.eqb (get_default (dq_native_query dataset_query) "") "")
       then false else true
     else true) = true).
  { cbn zeta. destruct (card_dataset_query o) as [dq|]; [|reflexivity].
    destruct (bool_decide _); [|reflexivity].
    destruct (dq_native_query dq) as [s|]; [|reflexivity].
    cbn [get_default]. by destruct (String.eqb s ""). }
  cbn zeta in Hfall.
  unfold app_bind at 1. rewrite app_bind_card_log.
  destruct (bool_decide _); [destruct (negb _); [discriminate|] |];
    cbn; by rewrite app_after_nil.
Qed.

Lemma optimized_question_falls_back_witness :
  let srv := Sample.server Sample.database_listing (Sample.orders 5 2) in
  let cards := Cards.server Cards.built_card (Cards.result (Sample.ids 0 3)) in
  app_value (execute_saved_question_optimized 10 srv cards Sample.in_order 3132 "parallel"
               Sample.logged_in)
  = app_value (execute_saved_question cards 3132 None Sample.logged_in).
Proof.
  cbn zeta.
  rewrite (optimized_question_falls_back 10
             (Sample.server Sample.database_listing (Sample.orders 5 2))
             (Cards.server Cards.built_card (Cards.result (Sample.ids 0 3)))
             Sample.in_order 3132 "parallel" Sample.logged_in (Some Cards.built_card)
             eq_refl ltac:(discriminate)
             ltac:(intros o [= <-]; reflexivity)).
  reflexivity.
Defined.

(** ** The front end: one session per call *)

Lemma keeps_session_ret {A} (a : A) : keeps_session (app_ret a).
Proof. intros c. apply same_session_refl. Qed.

Lemma keeps_session_raise {A} e : keeps_session (@app_raise A e).
Proof. intros c. apply same_session_refl. Qed.

Lemma keeps_session_card_log l m : keeps_session (card_log l m).
Proof. intros c. apply same_session_refl. Qed.

Lemma keeps_session_of_client {A} (m : M A) :
  preserves same_session m -> keeps_session (of_client m).
Proof.
  intros H c. unfold of_client. specialize (H c).
  by destruct (m c) as [[r c'] evs].
Qed.

Lemma keeps_session_bind {A B} (m : App A) (f : A -> App B) :
  keeps_session m -> (forall a, keeps_session (f a)) -> keeps_session (app_bind m f).
Proof.
  intros Hm Hf c. unfold app_bind. specialize (Hm c).
  destruct (m c) as [[[a|e|] c'] evs]; cbn [app_client fst snd] in *; try exact Hm.
  eapply same_session_trans; [exact Hm | apply Hf].
Qed.

Lemma execute_saved_question_keeps_client cards question_id parameters self :
  app_client (execute_saved_question cards question_id parameters self) = self.
Proof.
  destruct (token_truthy (session_token self)) eqn:Htok.
  2:{ by rewrite execute_saved_question_unauthenticated. }
  rewrite execute_saved_question_run by exact Htok. cbn zeta.
  destruct (cards _) as [|code payload]; [reflexivity|].
  destruct (http_error code); [reflexivity|].
  destruct payload as [| | | |o]; try reflexivity.
  destruct (bool_decide _); [|reflexivity].
  by destruct (frame_read (card_envelope o)).
Qed.

Lemma keeps_session_execute_saved_question cards question_id parameters :
  keeps_session (execute_saved_question cards question_id parameters).
Proof.
  intros c. rewrite execute_saved_question_keeps_client. apply same_session_refl.
Qed.

Lemma keeps_session_get_question_details cards question_id :
  keeps_session (get_question_details cards question_id).
Proof.
  intros c. destruct (get_question_details_returns cards question_id c) as [-> _].
  apply same_session_refl.
Qed.

Lemma keeps_session_try_native_query fuel srv as_completed details mode :
  keeps_session (try_native_query fuel srv as_completed details mode).
Proof.
  unfold try_native_query.
  destruct (details_truthy details); [|apply keeps_session_ret].
  destruct details as [[| | | |o]|]; try apply keeps_session_raise.
  apply keeps_session_bind; [apply keeps_session_card_log|]. intros _. cbn zeta.
  destruct (bool_decide _); [|apply keeps_session_ret].
  destruct (negb _); [|apply keeps_session_ret].
  apply keeps_session_bind; [apply keeps_session_card_log|]. intros _.
  apply keeps_session_bind; [|intros; apply keeps_session_ret].
  apply keeps_session_of_client, session_execute_query_optimized.
Qed.

Lemma keeps_session_execute_saved_question_optimized
    fuel srv cards as_completed question_id mode :
  keeps_session
    (execute_saved_question_optimized fuel srv cards as_completed question_id mode).
Proof.
  unfold execute_saved_question_optimized.
  apply keeps_session_bind; [apply keeps_session_get_question_details|]. intros details.
  apply keeps_session_bind; [apply keeps_session_try_native_query|].
  intros [result|]; [apply keeps_session_ret|].
  apply keeps_session_bind; [apply keeps_session_card_log|]. intros _.
  apply keeps_session_execute_saved_question.
Qed.

Lemma logout_returns srv c :
  value (logout srv c) = Ok tt
  /\ token_truthy (session_token (client_after (logout srv c))) = false
  /\ (token_truthy (session_token c) = false ->
      client_after (logout srv c) = c /\ events (logout srv c) = [])
  /\ (token_truthy (session_token c) = true ->
      session_token (client_after (logout srv c)) = None
      /\ session_header (client_after (logout srv c)) = None
      /\ exists line, events (logout srv c) = [Sent (logout_request c); line]).
Proof.
  destruct (token_truthy (session_token c)) eqn:Htok.
  - destruct (logout_run srv c Htok) as [line ->]. cbn.
    repeat split; eauto; discriminate.
  - unfold logout. rewrite bind_get_self, Htok. cbn.
    repeat split; auto; discriminate.
Qed.

Lemma then_logout_closes {A} srv (r : AppRun A) :
  app_value (then_logout srv r) = app_value r
  /\ token_truthy (session_token (app_client (then_logout srv r))) = false
  /\ (token_truthy (session_token (app_client r)) = true ->
      session_token (app_client (then_logout srv r)) = None
      /\ session_header (app_client (then_logout srv r)) = None
      /\ exists line,
           app_events (then_logout srv r)
           = app_events r
             ++ [OfClient (Sent (logout_request (app_client r))); OfClient line]).
Proof.
  destruct (logout_returns srv (app_client r)) as (_ & Hfalse & _ & Htrue).
  unfold then_logout. cbn [app_value app_client app_events fst snd].
  repeat split; auto; try (by apply Htrue).
  destruct (Htrue H) as (_ & _ & line & ->). by exists line.
Qed.

Lemma with_session_run srv work denied failed c0 :
  with_session srv work denied failed c0 =
  match authenticate srv c0 with
  | (Ok true, c1, ev1) =>
      match work c1 with
      | (Ok v, c2, ev2) => then_logout srv (Ok v, c2, map OfClient ev1 ++ ev2)
      | (Raise e, c2, ev2) =>
          then_logout srv (Ok None, c2, map OfClient ev1 ++ ev2 ++ [Shown (failed e)])
      | (OutOfFuel, c2, ev2) => (OutOfFuel, c2, map OfClient ev1 ++ ev2)
      end
  | (Ok false, c1, ev1) =>
      then_logout srv (Ok None, c1, map OfClient ev1 ++ [Shown denied])
  | (Raise e, c1, ev1) =>
      then_logout srv (Ok None, c1, map OfClient ev1 ++ [Shown (failed e)])
  | (OutOfFuel, c1, ev1) => (OutOfFuel, c1, map OfClient ev1)
  end.
Proof.
  unfold with_session, app_try_finally, app_try_except, app_bind, of_client, then_logout.
  destruct (authenticate srv c0) as [[[[|]|e|] c1] ev1];
    [destruct (work c1) as [[[v|e|] c2] ev2] | | | ];
    cbn [app_after app_value app_client app_events fst snd print_line app_ret app_bind];
    try reflexivity;
    match goal with
    | |- context [logout srv ?c] =>
        destruct (logout_returns srv c) as (Hv & _);
        destruct (logout srv c) as [[r c3] ev3];
        cbn [value client_after events fst snd] in *; subst r
    end;
    cbn; rewrite <- ?app_assoc, ?app_nil_r; reflexivity.
Qed.

Lemma logout_request_same_session a b :
  same_session a b -> logout_request b = logout_request a.
Proof. intros (Hc & Hh & _). unfold logout_request. by rewrite Hc, Hh. Qed.

Lemma with_session_closes srv work denied failed c0 :
  keeps_session work ->
  let r := with_session srv work denied failed c0 in
  (forall e, app_value r <> Raise e)
  /\ (app_value r <> OutOfFuel ->
      token_truthy (session_token (app_client r)) = false
      /\ forall c1 ev1,
           authenticate srv c0 = (Ok true, c1, ev1) ->
           token_truthy (session_token c1) = true ->
           session_token (app_client r) = None
           /\ session_header (app_client r) = None
           /\ exists pre line,
                app_events r
                = pre ++ [OfClient (Sent (logout_request c1)); OfClient line]).
Proof.
  intros Hwork. cbn zeta. rewrite with_session_run.
  destruct (authenticate srv c0) as [[[[|]|e|] c1] ev1].
  - specialize (Hwork c1).
    destruct (work c1) as [[[v|e|] c2] ev2]; cbn [app_client fst snd] in Hwork.
    3:{ split; [discriminate|]. intros H. by destruct H. }
    all: match goal with
         | |- context [then_logout ?s ?r] =>
             destruct (then_logout_closes s r) as (Hv & Hfalse & Htrue)
         end;
      rewrite Hv; cbn [app_value app_client app_events fst snd] in *;
      (split; [discriminate|]); intros _; (split; [exact Hfalse|]);
      intros c1' ev1' [= <- <-] Htok;
      assert (Htok2 : token_truthy (session_token c2) = true)
        by (destruct Hwork as (_ & _ & ->); exact Htok);
      destruct (Htrue Htok2) as (Ht & Hh & line & Hevs);
      (split; [exact Ht|]); (split; [exact Hh|]);
      rewrite Hevs, (logout_request_same_session _ _ Hwork); by eexists _, line.
  - destruct (then_logout_closes srv
                (Ok (@None DataFrame), c1, map OfClient ev1 ++ [Shown denied]))
      as (Hv & Hfalse & _).
    rewrite Hv. split; [discriminate|]. intros _. split; [exact Hfalse|]. discriminate.
  - destruct (then_logout_closes srv
                (Ok (@None DataFrame), c1, map OfClient ev1 ++ [Shown (failed e)]))
      as (Hv & Hfalse & _).
    rewrite Hv. split; [discriminate|]. intros _. split; [exact Hfalse|]. discriminate.
  - split; [discriminate|]. intros H. by destruct H.
Qed.

(** X26. Once the configuration exists, [_execute_query] never raises: whatever
    the query function, the login or the fetch does, the call returns a
    frame or [None].  When it returns the client holds no usable token,
    and if the login had stored one, the logout request with that session
    is the last request sent and token and header are gone. *)
Theorem front_end_query_closes_its_session
    env fuel srv as_completed query_func team pw use_pagination mode r :
  _execute_query env fuel srv as_completed query_func team pw use_pagination mode
  = inr r ->
  (forall e, app_value r <> Raise e)
  /\ (app_value r <> OutOfFuel ->
      token_truthy (session_token (app_client r)) = false
      /\ forall cfg c1 ev1,
           get_config env team pw = inr cfg ->
           authenticate srv (new_client cfg) = (Ok true, c1, ev1) ->
           token_truthy (session_token c1) = true ->
           session_token (app_client r) = None
           /\ session_header (app_client r) = None
           /\ exists pre line,
                app_events r
                = pre ++ [OfClient (Sent (logout_request c1)); OfClient line]).
Proof.
  unfold _execute_query.
  destruct (get_config env team pw) as [e|cfg]; [discriminate|]. intros [= <-].
  match goal with
  | |- context [with_session srv ?work ?denied ?failed ?c0] =>
      destruct (with_session_closes srv work denied failed c0) as [Hraise Hclosed]
  end.
  { apply keeps_session_of_client, session_execute_query_from_warehouse. }
  split; [exact Hraise|]. intros Hret. destruct (Hclosed Hret) as [Hfalse Hout].
  split; [exact Hfalse|]. intros cfg' c1 ev1 [= <-]. apply Hout.
Qed.

(** The query function raises [KeyError]; the call prints the error,
    returns [None] and has logged out. *)
Lemma front_end_query_closes_its_session_witness :
  let srv := Sample.server Sample.database_listing (Sample.orders 5 2) in
  exists r,
    _execute_query (loaded (Some "pw")) 10 srv Sample.in_order (inl KeyError)
      None None true "auto" = inr r
    /\ app_value r = Ok None
    /\ (forall e, app_value r <> Raise e)
    /\ session_token (app_client r) = None.
Proof.
  cbn zeta. eexists. split; [reflexivity|]. split; [reflexivity|].
  pose proof (front_end_query_closes_its_session (loaded (Some "pw")) 10
                (Sample.server Sample.database_listing (Sample.orders 5 2))
                Sample.in_order (inl KeyError) None None true "auto" _ eq_refl)
    as [Hraise Hclosed].
  split; [exact Hraise|].
  destruct (Hclosed ltac:(discriminate)) as [_ Hout].
  exact (proj1 (Hout _ _ _ eq_refl eq_refl eq_refl)).
Defined.

(** X27. After a successful login [_execute_query] returns what the warehouse
    dispatch returns on the logged-in client; an exception of the dispatch
    (or of the query function) is printed and turned into [None]. *)
Theorem front_end_query_returns_dispatch_or_none
    env fuel srv as_completed query_func team pw use_pagination mode cfg c1 ev1 r :
  get_config env team pw = inr cfg ->
  authenticate srv (new_client cfg) = (Ok true, c1, ev1) ->
  _execute_query env fuel srv as_completed query_func team pw use_pagination mode
  = inr r ->
  match value (execute_query_from_warehouse fuel srv as_completed query_func
                 use_pagination mode c1) with
  | Ok v => app_value r = Ok v
  | Raise e => app_value r = Ok None /\ In (Shown (PrintErrorExecutingQuery e)) (app_events r)
  | OutOfFuel => app_value r = OutOfFuel
  end.
Proof.
  intros Hcfg Hauth. unfold _execute_query. rewrite Hcfg. intros [= <-].
  rewrite with_session_run, Hauth. unfold of_client.
  destruct (execute_query_from_warehouse _ _ _ _ _ _ c1) as [[[v|e|] c2] ev2];
    cbn [value fst snd]; try reflexivity.
  split; [reflexivity|].
  unfold then_logout. cbn [app_events snd]. rewrite !in_app_iff. cbn. tauto.
Qed.

Lemma front_end_query_returns_dispatch_or_none_witness :
  let srv := Sample.server Sample.database_listing (Sample.orders 5 2) in
  exists r,
    _execute_query (loaded (Some "pw")) 10 srv Sample.in_order (inr Sample.sql)
      None None true "single" = inr r
    /\ app_value r
       = Ok (Some {| df_columns := ["id"];
                     df_rows := [[CInt 0]; [CInt 1]; [CInt 2]; [CInt 3]; [CInt 4]] |}).
Proof.
  cbn zeta. eexists. split; [reflexivity|].
  exact (front_end_query_returns_dispatch_or_none (loaded (Some "pw")) 10
           (Sample.server Sample.database_listing (Sample.orders 5 2))
           Sample.in_order (inr Sample.sql) None None true "single" _ _ _ _
           eq_refl eq_refl eq_refl).
Defined.

(** X28. When the login does not succeed, the login request is the only
    request of the call: no query is sent and, the new client holding no
    token, no logout either; the call returns [None]. *)
Theorem front_end_query_without_login_sends_one_request
    env fuel srv as_completed query_func team pw use_pagination mode cfg r :
  get_config env team pw = inr cfg ->
  value (authenticate srv (new_client cfg)) <> Ok true ->
  _execute_query env fuel srv as_completed query_func team pw use_pagination mode
  = inr r ->
  app_value r = Ok None
  /\ client_requests (app_events r) = [login_request (new_client cfg)]
  /\ card_requests (app_events r) = [].
Proof.
  intros Hcfg Hauth. unfold _execute_query. rewrite Hcfg. intros [= <-].
  rewrite with_session_run. revert Hauth. rewrite authenticate_run.
  assert (Hout : forall evs,
            then_logout srv (Ok (@None DataFrame), new_client cfg, evs)
            = (Ok None, new_client cfg, evs)).
  { intros evs.
    destruct (logout_returns srv (new_client cfg)) as (_ & _ & Hfalse & _).
    destruct (Hfalse eq_refl) as [Hc Hev].
    unfold then_logout. cbn [app_value app_client app_events fst snd].
    by rewrite Hc, Hev, app_nil_r. }
  destruct (srv (login_request (new_client cfg))) as [|code payload].
  { intros _. by rewrite Hout. }
  destruct (http_error code).
  { intros _. by rewrite Hout. }
  destruct payload as [| |obj].
  - intros _. by rewrite Hout.
  - intros _. by rewrite Hout.
  - intros H. by destruct H.
Qed.

(** No server answers. *)
Lemma front_end_query_without_login_sends_one_request_witness :
  exists r cfg,
    _execute_query (loaded (Some "pw")) 10 (fun _ => ConnectionFailed) Sample.in_order
      (inr Sample.sql) None None true "auto" = inr r
    /\ app_value r = Ok None
    /\ client_requests (app_events r) = [login_request (new_client cfg)].
Proof.
  eexists. eexists. split; [reflexivity|].
  pose proof (front_end_query_without_login_sends_one_request (loaded (Some "pw")) 10
                (fun _ => ConnectionFailed)
                Sample.in_order (inr Sample.sql) None None true "auto" _ _
                eq_refl ltac:(discriminate) eq_refl) as (Hv & Hreq & _).
  split; [exact Hv | exact Hreq].
Defined.

(** X29. [get_question_data] closes its session in the same way, with or
    without [fast]: it never raises once the configuration exists, not
    even when the card endpoints answer with something that is not an
    object, and a session opened by the login is logged out last. *)
Theorem question_data_closes_its_session
    env fuel srv cards as_completed question_id team pw fast r :
  get_question_data env fuel srv cards as_completed question_id team pw fast = inr r ->
  (forall e, app_value r <> Raise e)
  /\ (app_value r <> OutOfFuel ->
      token_truthy (session_token (app_client r)) = false
      /\ forall cfg c1 ev1,
           get_config env team pw = inr cfg ->
           authenticate srv (new_client cfg) = (Ok true, c1, ev1) ->
           token_truthy (session_token c1) = true ->
           session_token (app_client r) = None
           /\ session_header (app_client r) = None
           /\ exists pre line,
                app_events r
                = pre ++ [OfClient (Sent (logout_request c1)); OfClient line]).
Proof.
  unfold get_question_data.
  destruct (get_config env team pw) as [e|cfg]; [discriminate|]. intros [= <-].
  match goal with
  | |- context [with_session srv ?work ?denied ?failed ?c0] =>
      destruct (with_session_closes srv work denied failed c0) as [Hraise Hclosed]
  end.
  { destruct fast.
    - apply keeps_session_execute_saved_question_optimized.
    - apply keeps_session_execute_saved_question. }
  split; [exact Hraise|]. intros Hret. destruct (Hclosed Hret) as [Hfalse Hout].
  split; [exact Hfalse|]. intros cfg' c1 ev1 [= <-]. apply Hout.
Qed.

(** The details of the question are a JSON list:
    [execute_saved_question_optimized] raises [AttributeError], the call
    prints it, returns [None] and has logged out. *)
Lemma question_data_closes_its_session_witness :
  let srv := Sample.server Sample.database_listing (Sample.orders 5 2) in
  let cards := Cards.server CardTruthyValue (Cards.result (Sample.ids 0 3)) in
  exists r,
    get_question_data (loaded (Some "pw")) 10 srv cards Sample.in_order 3132
      (Some "Data") None true = inr r
    /\ In (Shown (PrintErrorExecutingQuestion AttributeError)) (app_events r)
    /\ (forall e, app_value r <> Raise e)
    /\ session_token (app_client r) = None.
Proof.
  cbn zeta. eexists. split; [reflexivity|].
  split; [vm_compute; tauto|].
  pose proof (question_data_closes_its_session (loaded (Some "pw")) 10
                (Sample.server Sample.database_listing (Sample.orders 5 2))
                (Cards.server CardTruthyValue (Cards.result (Sample.ids 0 3)))
                Sample.in_order 3132 (Some "Data") None true _ eq_refl)
    as [Hraise Hclosed].
  split; [exact Hraise|].
  destruct (Hclosed ltac:(discriminate)) as [_ Hout].
  exact (proj1 (Hout _ _ _ eq_refl eq_refl eq_refl)).
Defined.
